(** * Gooclaim coding agent (app.py): rule engine and FHIR bundle builder

    A shallow embedding of the decision logic of [app.py]: the lexical
    evidence helpers ([present], [near]), the three performed-procedure
    detectors, [tiny_rules], and [build_fhir_bundle], followed by the
    properties the specification states about them.

    Conventions of the embedding.
    - Python [str] values are lists of 8-bit characters read as the code
      points U+0000..U+00FF; [lower] is [str.lower] on that range.
    - JSON-like Python objects are the inductive [value]; a [dict] is an
      association list in insertion order with distinct keys.
    - A Python exception is the [Raise] case of [result].
    - [uuid.uuid4()] and [datetime.utcnow()] read a [world] of draws. *)

From Stdlib Require Import List ZArith Ascii String Bool Lia Floats.
Import ListNotations.

Set Warnings "-inexact-float,-register-all".

Local Open Scope Z_scope.

(** ** Text *)

Definition str := list ascii.

(** A string literal of the source. *)
Definition lit (s : string) : str := list_ascii_of_string s.

(** [str.lower] on one code point below U+0100: A-Z and the Latin-1
    capitals U+00C0..U+00DE (without the multiplication sign U+00D7)
    move up by 32, everything else is unchanged. *)
Definition lower_char (c : ascii) : ascii :=
  let n := N_of_ascii c in
  if (((65 <=? n) && (n <=? 90)) ||
      ((192 <=? n) && (n <=? 222) && negb (n =? 215)))%N
  then ascii_of_N (n + 32) else c.

Definition lower (s : str) : str := map lower_char s.

(** [s.startswith(p)] *)
Fixpoint starts_with (s p : str) {struct p} : bool :=
  match p with
  | [] => true
  | c :: p' =>
      match s with
      | [] => false
      | d :: s' => Ascii.eqb c d && starts_with s' p'
      end
  end.

(** [sub in s] *)
Fixpoint contains (s sub : str) : bool :=
  starts_with s sub ||
  match s with
  | [] => false
  | _ :: s' => contains s' sub
  end.

(** [s.find(sub)]: the lowest index where [sub] starts, or -1. *)
Fixpoint find (s sub : str) : Z :=
  if starts_with s sub then 0
  else match s with
       | [] => -1
       | _ :: s' => let r := find s' sub in if r =? -1 then -1 else r + 1
       end.

Definition len (s : str) : Z := Z.of_nat (List.length s).

(** One bound of a slice [s[i:j]]: a negative bound counts from the end,
    and the result is clipped to [0, len s]. *)
Definition slice_bound (n k : Z) : Z :=
  if k <? 0 then Z.max 0 (k + n) else Z.min k n.

(** [s[i:j]] *)
Definition slice (s : str) (i j : Z) : str :=
  let i' := slice_bound (len s) i in
  let j' := slice_bound (len s) j in
  firstn (Z.to_nat (j' - i')) (skipn (Z.to_nat i') s).

(** ** Rule engine: lexical evidence *)

Definition PERFORMED_HINTS : list str :=
  [ lit "performed"; lit "done"; lit "completed"; lit "administered";
    lit "given"; lit "provided"; lit "carried out";
    lit "obtained"; lit "obtained in clinic"; lit "obtained today" ].

(** [present(text, *terms)] *)
Definition present (text : str) (terms : list str) : bool :=
  let low := lower text in
  forallb (fun t => contains low t) terms.

(** [near(text, a, b, window)]; every call in the program passes the
    window (40). *)
Definition near (text a b : str) (window : Z) : bool :=
  let low := lower text in
  let a_idx := find low (lower a) in
  if a_idx =? -1 then false
  else
    let start := Z.max 0 (a_idx - window) in
    let end_ := Z.min (len low) (a_idx + len a + window) in
    contains (slice low start end_) (lower b).

(** ** Python values *)

(** The objects the program handles: what [json.load] returns and what the
    builders put together. *)
Inductive value : Type :=
| VNone
| VBool (b : bool)
| VInt (z : Z)
| VFloat (f : float)
| VStr (s : str)
| VList (l : list value)
| VDict (d : list (str * value)).

Definition dict := list (str * value).

Inductive exn : Type := AttributeError | KeyError | TypeError.

Inductive result (A : Type) : Type :=
| Ok (a : A)
| Raise (e : exn).

Arguments Ok {A} a.
Arguments Raise {A} e.

Definition rbind {A B} (r : result A) (k : A -> result B) : result B :=
  match r with
  | Ok a => k a
  | Raise e => Raise e
  end.

Declare Scope result_scope.
Delimit Scope result_scope with result.
Notation "x <- r ;; k" := (rbind r (fun x => k))
  (at level 61, r at next level, right associativity) : result_scope.

Fixpoint str_eqb (a b : str) : bool :=
  match a, b with
  | [], [] => true
  | c :: a', d :: b' => Ascii.eqb c d && str_eqb a' b'
  | _, _ => false
  end.

(** Lookup of a key in a dict. *)
Fixpoint lookup (d : dict) (k : str) : option value :=
  match d with
  | [] => None
  | (k', v) :: d' => if str_eqb k' k then Some v else lookup d' k
  end.

(** [d.get(k, default)] on a dict. *)
Definition dict_get (d : dict) (k : str) (default : value) : value :=
  match lookup d k with
  | Some v => v
  | None => default
  end.

(** [v.get(k, default)]: only a dict has the method. *)
Definition py_get (v : value) (k : str) (default : value) : result value :=
  match v with
  | VDict d => Ok (dict_get d k default)
  | _ => Raise AttributeError
  end.

(** [v[k]] with a string key: a missing key of a dict is a [KeyError]; no
    other value accepts a string subscript. *)
Definition py_getitem (v : value) (k : str) : result value :=
  match v with
  | VDict d =>
      match lookup d k with
      | Some x => Ok x
      | None => Raise KeyError
      end
  | _ => Raise TypeError
  end.

(** Truth value of an object, as [if v] and [v or w] test it. *)
Definition truthy (v : value) : bool :=
  match v with
  | VNone => false
  | VBool b => b
  | VInt z => negb (z =? 0)
  | VFloat f => negb (PrimFloat.eqb f 0%float)
  | VStr s => match s with [] => false | _ => true end
  | VList l => match l with [] => false | _ => true end
  | VDict d => match d with [] => false | _ => true end
  end.

(** [v or w] *)
Definition py_or (v w : value) : value := if truthy v then v else w.

(** [v.lower()] and [v.upper()] exist on [str] only. *)
Definition py_lower (v : value) : result str :=
  match v with
  | VStr s => Ok (lower s)
  | _ => Raise AttributeError
  end.

(** ** Code catalogs *)

Definition CPT_SYSTEM : str := lit "http://www.ama-assn.org/go/cpt".
Definition HCPCS_SYSTEM : str := lit "https://www.cms.gov/mcd/hcpcs".
Definition ICD10_SYSTEM : str := lit "http://hl7.org/fhir/sid/icd-10-cm".

Definition code_entry (code display system : str) : value :=
  VDict [ (lit "code", VStr code); (lit "display", VStr display);
          (lit "system", VStr system) ].

Definition CPT_71045 : value :=
  code_entry (lit "71045")
    (lit "Radiologic examination, chest; single view") CPT_SYSTEM.
Definition CPT_71046 : value :=
  code_entry (lit "71046")
    (lit "Radiologic examination, chest; 2 views") CPT_SYSTEM.
Definition CPT_99213 : value :=
  code_entry (lit "99213")
    (lit "Office/outpatient visit, established patient, low MDM") CPT_SYSTEM.
Definition CPT_94640 : value :=
  code_entry (lit "94640")
    (lit "Pressurized or nonpressurized inhalation treatment for acute airway obstruction")
    CPT_SYSTEM.
Definition CPT_96372 : value :=
  code_entry (lit "96372")
    (lit "Therapeutic, prophylactic, or diagnostic injection; subcutaneous or intramuscular")
    CPT_SYSTEM.

Definition CPT_MAP : value :=
  VDict
    [ (lit "chest x-ray single view", CPT_71045);
      (lit "chest x-ray two views", CPT_71046);
      (lit "em_99213", CPT_99213);
      (lit "nebulizer treatment", CPT_94640);
      (lit "therapeutic injection", CPT_96372) ].

Definition HCPCS_J7613 : value :=
  code_entry (lit "J7613")
    (lit "Albuterol, inhalation solution, FDA-approved final product, non-compounded, 1 mg")
    HCPCS_SYSTEM.
Definition HCPCS_J0696 : value :=
  code_entry (lit "J0696")
    (lit "Injection, ceftriaxone sodium, per 250 mg") HCPCS_SYSTEM.
Definition HCPCS_J1100 : value :=
  code_entry (lit "J1100")
    (lit "Injection, dexamethasone sodium phosphate, 1 mg") HCPCS_SYSTEM.

Definition HCPCS_MAP : value :=
  VDict
    [ (lit "albuterol neb", HCPCS_J7613);
      (lit "ceftriaxone inj", HCPCS_J0696);
      (lit "dexamethasone inj", HCPCS_J1100) ].

(** ** Rule engine: performed-procedure detectors *)

Local Open Scope result_scope.

(** [detect_performed_cxr(note)]: the CPT entry or [None]. *)
Definition detect_performed_cxr (note : value) : result value :=
  low <- py_lower note ;;
  if contains low (lit "x-ray") || contains low (lit "xray")
     || contains low (lit "cxr")
  then
    if existsb
         (fun h => near low (lit "x-ray") h 40 || near low (lit "xray") h 40
                   || near low (lit "cxr") h 40)
         PERFORMED_HINTS
    then
      if contains low (lit "two views") || contains low (lit "2 views")
         || contains low (lit "pa and lateral")
      then py_getitem CPT_MAP (lit "chest x-ray two views")
      else py_getitem CPT_MAP (lit "chest x-ray single view")
    else Ok VNone
  else Ok VNone.

(** [detect_nebulizer_and_drug(note)]: the pair (cpt, hcpcs). *)
Definition detect_nebulizer_and_drug (note : value) : result (value * value) :=
  low <- py_lower note ;;
  let performed := existsb (fun h => contains low h) PERFORMED_HINTS in
  if (contains low (lit "nebulizer") || contains low (lit "neb")) && performed
  then
    cpt <- py_getitem CPT_MAP (lit "nebulizer treatment") ;;
    hcpcs <- (if contains low (lit "albuterol")
              then py_getitem HCPCS_MAP (lit "albuterol neb")
              else Ok VNone) ;;
    Ok (cpt, hcpcs)
  else Ok (VNone, VNone).

(** [detect_injection_and_drug(note)]: the pair (cpt, hcpcs). *)
Definition detect_injection_and_drug (note : value) : result (value * value) :=
  low <- py_lower note ;;
  if (contains low (lit "intramuscular") || contains low (lit "im injection")
      || contains low (lit "injection given") || contains low (lit "shot given"))
     && existsb (fun h => contains low h) PERFORMED_HINTS
  then
    cpt <- py_getitem CPT_MAP (lit "therapeutic injection") ;;
    if contains low (lit "ceftriaxone")
    then (h <- py_getitem HCPCS_MAP (lit "ceftriaxone inj") ;; Ok (cpt, h))
    else if contains low (lit "dexamethasone")
    then (h <- py_getitem HCPCS_MAP (lit "dexamethasone inj") ;; Ok (cpt, h))
    else Ok (cpt, VNone)
  else Ok (VNone, VNone).

(** ** Rule engine: [tiny_rules] *)

Definition diagnosis_entry (code display : str) (rank : Z) (confidence : float)
    (rationale : str) : value :=
  VDict [ (lit "code", VStr code); (lit "display", VStr display);
          (lit "system", VStr ICD10_SYSTEM); (lit "rank", VInt rank);
          (lit "confidence", VFloat confidence);
          (lit "rationale", VStr rationale) ].

Definition DX_J20_9 : value :=
  diagnosis_entry (lit "J20.9") (lit "Acute bronchitis, unspecified organism")
    1 0.72%float
    (lit "Acute cough + fever/wheeze/SOB; outpatient; antibiotic prescribed.").
Definition DX_R06_2 : value :=
  diagnosis_entry (lit "R06.2") (lit "Wheezing") 2 0.62%float
    (lit "Documented wheezing.").
Definition DX_R06_02 : value :=
  diagnosis_entry (lit "R06.02") (lit "Shortness of breath") 3 0.60%float
    (lit "Documented SOB.").
Definition DX_R50_9 : value :=
  diagnosis_entry (lit "R50.9") (lit "Fever, unspecified") 4 0.58%float
    (lit "Documented fever.").
Definition DX_R05_9 : value :=
  diagnosis_entry (lit "R05.9") (lit "Cough, unspecified") 5 0.56%float
    (lit "Documented cough.").

Definition CPT_EM : value :=
  VDict [ (lit "code", VStr (lit "99213"));
          (lit "display",
           VStr (lit "Office or other outpatient visit for an established patient, low MDM"));
          (lit "system", VStr CPT_SYSTEM);
          (lit "assumed_patient_status", VStr (lit "established"));
          (lit "confidence", VFloat 0.58%float);
          (lit "rationale",
           VStr (lit "Acute uncomplicated illness, outpatient management.")) ].

(** [l.append(x)] guarded by [if c]. *)
Definition append_if (c : bool) (l : list value) (x : value) : list value :=
  if c then l ++ [x] else l.

(** [tiny_rules(envelope)]: (icd10, cpt_em, procedures, hcpcs). *)
Definition tiny_rules (envelope : dict)
  : result (list value * value * list value * list value) :=
  note <- py_get (py_or (dict_get envelope (lit "clinical_note") VNone) (VDict []))
                 (lit "text_preview") (VStr []) ;;
  low <- py_lower note ;;
  let icd10 := [] in
  let procedures := [] in
  let hcpcs := [] in
  let icd10 :=
    append_if
      (present low [lit "cough"]
       && (present low [lit "wheez"] || present low [lit "shortness of breath"])
       && (present low [lit "fever"] || present low [lit "azithromycin"]))
      icd10 DX_J20_9 in
  let icd10 := append_if (contains low (lit "wheez")) icd10 DX_R06_2 in
  let icd10 :=
    append_if (contains low (lit "shortness of breath")) icd10 DX_R06_02 in
  let icd10 := append_if (contains low (lit "fever")) icd10 DX_R50_9 in
  let icd10 := append_if (contains low (lit "cough")) icd10 DX_R05_9 in
  let cpt_em := CPT_EM in
  cxr <- detect_performed_cxr note ;;
  let procedures := append_if (truthy cxr) procedures cxr in
  r <- detect_nebulizer_and_drug note ;;
  let '(neb_cpt, albut_hcpcs) := r in
  let procedures := append_if (truthy neb_cpt) procedures neb_cpt in
  let hcpcs := append_if (truthy albut_hcpcs) hcpcs albut_hcpcs in
  r <- detect_injection_and_drug note ;;
  let '(inj_cpt, drug_hcpcs) := r in
  let procedures := append_if (truthy inj_cpt) procedures inj_cpt in
  let hcpcs := append_if (truthy drug_hcpcs) hcpcs drug_hcpcs in
  Ok (icd10, cpt_em, procedures, hcpcs).


(** ** FHIR builders: the world and its monad *)

(** [uuid.uuid4().hex[:8]] and [datetime.utcnow().strftime(...)] read the
    process-wide random source and the clock.  A [world] holds what each
    successive read returns and how many reads were made. *)
Record world : Type := {
  uuid_hex8 : nat -> str;
  utcnow : nat -> str;
  uuid_reads : nat;
  clock_reads : nat
}.

(** A computation that reads the world and may raise. *)
Definition M (A : Type) : Type := world -> result (A * world).

Definition ret {A} (a : A) : M A := fun w => Ok (a, w).

Definition bind {A B} (m : M A) (k : A -> M B) : M B :=
  fun w => match m w with
           | Ok (a, w') => k a w'
           | Raise e => Raise e
           end.

Definition lift {A} (r : result A) : M A :=
  fun w => match r with
           | Ok a => Ok (a, w)
           | Raise e => Raise e
           end.

Declare Scope M_scope.
Delimit Scope M_scope with M.
Notation "x <- m ;; k" := (bind m (fun x => k))
  (at level 61, m at next level, right associativity) : M_scope.
Notation "x <~ r ;; k" := (bind (lift r) (fun x => k))
  (at level 61, r at next level, right associativity) : M_scope.

(** [uuid.uuid4().hex[:8]] *)
Definition uuid4_hex8 : M str :=
  fun w => Ok (uuid_hex8 w (uuid_reads w),
               {| uuid_hex8 := uuid_hex8 w; utcnow := utcnow w;
                  uuid_reads := S (uuid_reads w);
                  clock_reads := clock_reads w |}).

(** [datetime.utcnow().strftime("%Y-%m-%dT%H:%M:%SZ")] *)
Definition utcnow_str : M str :=
  fun w => Ok (utcnow w (clock_reads w),
               {| uuid_hex8 := uuid_hex8 w; utcnow := utcnow w;
                  uuid_reads := uuid_reads w;
                  clock_reads := S (clock_reads w) |}).

(** [for i, x in enumerate(l, start=i0): s = body(i, x, s)] *)
Fixpoint for_enumerate {S : Type} (body : Z -> value -> S -> M S)
    (i : Z) (l : list value) (s : S) : M S :=
  match l with
  | [] => ret s
  | x :: l' => bind (body i x s) (for_enumerate body (i + 1) l')
  end.

(** [for x in l: s = body(x, s)] *)
Fixpoint for_each {S : Type} (body : value -> S -> M S)
    (l : list value) (s : S) : M S :=
  match l with
  | [] => ret s
  | x :: l' => bind (body x s) (for_each body l')
  end.

(** ** FHIR builders: helpers on values *)

(** [str.upper] on one code point below U+0100.  The result is a list of
    code points: sharp s becomes "SS", and the micro sign and y with
    diaeresis leave the range (U+039C, U+0178). *)
Definition upper_char (c : ascii) : list N :=
  let n := N_of_ascii c in
  (if (((97 <=? n) && (n <=? 122)) ||
       ((224 <=? n) && (n <=? 254) && negb (n =? 247)))
   then [n - 32]
   else if n =? 223 then [83; 83]
   else if n =? 181 then [924]
   else if n =? 255 then [376]
   else [n])%N.

Definition upper (s : str) : list N := flat_map upper_char s.

Definition py_upper (v : value) : result (list N) :=
  match v with
  | VStr s => Ok (upper s)
  | _ => Raise AttributeError
  end.

Definition code_points (s : str) : list N := map N_of_ascii s.

(** [{"M": "male", "F": "female"}.get(key, "unknown")] *)
Definition GENDER_MAP : list (str * str) :=
  [ (lit "M", lit "male"); (lit "F", lit "female") ].

Fixpoint code_points_eqb (a b : list N) : bool :=
  match a, b with
  | [], [] => true
  | x :: a', y :: b' => N.eqb x y && code_points_eqb a' b'
  | _, _ => false
  end.

Fixpoint gender_get (m : list (str * str)) (key : list N) (default : str)
  : str :=
  match m with
  | [] => default
  | (k, v) :: m' =>
      if code_points_eqb (code_points k) key then v
      else gender_get m' key default
  end.

(** [len(v)] *)
Definition py_len (v : value) : result Z :=
  match v with
  | VStr s => Ok (len s)
  | VList l => Ok (Z.of_nat (List.length l))
  | VDict d => Ok (Z.of_nat (List.length d))
  | _ => Raise TypeError
  end.

(** [d[k] = v] on a dict: an existing key keeps its place. *)
Fixpoint dict_set (d : dict) (k : str) (v : value) : dict :=
  match d with
  | [] => [(k, v)]
  | (k', v') :: d' =>
      if str_eqb k' k then (k', v) :: d' else (k', v') :: dict_set d' k v
  end.

(** [d[k].append(x)]: the list stored under [k] grows in place. *)
Definition append_at (d : dict) (k : str) (x : value) : result dict :=
  l <- py_getitem (VDict d) k ;;
  match l with
  | VList xs => Ok (dict_set d k (VList (xs ++ [x])))
  | _ => Raise AttributeError
  end.

(** [fhir_ref(resource_type, rid)] *)
Definition fhir_ref (resource_type rid : str) : value :=
  VDict [ (lit "reference", VStr (resource_type ++ lit "/" ++ rid)) ].

(** ** FHIR builders: [build_fhir_bundle] *)

Section Builder.

(** Python's builtin [str(v)], which is also what an f-string placeholder
    [{v}] applies.  It never raises on the values handled here. *)
Variable py_str : value -> str.

Local Open Scope M_scope.

Definition coding (system code display : value) : value :=
  VDict [ (lit "system", system); (lit "code", code);
          (lit "display", display) ].

Definition coding_of_code (system code : str) : value :=
  VDict [ (lit "coding",
           VList [ VDict [ (lit "system", VStr system);
                           (lit "code", VStr code) ] ]) ].

(** The Patient resource. *)
Definition make_patient (pat_id : str) (patient : value) : result value :=
  (mrn <- py_get patient (lit "mrn") (VStr []) ;;
   last_name <- py_get patient (lit "last_name") (VStr []) ;;
   first_name <- py_get patient (lit "first_name") (VStr []) ;;
   sex <- py_get patient (lit "sex") (VStr []) ;;
   key <- py_upper sex ;;
   dob <- py_get patient (lit "dob") (VStr []) ;;
   Ok (VDict
         [ (lit "resourceType", VStr (lit "Patient"));
           (lit "id", VStr pat_id);
           (lit "identifier",
            VList [ VDict [ (lit "system", VStr (lit "urn:mrn"));
                            (lit "value", mrn) ] ]);
           (lit "name",
            VList [ VDict [ (lit "family", last_name);
                            (lit "given", VList [ first_name ]) ] ]);
           (lit "gender", VStr (gender_get GENDER_MAP key (lit "unknown")));
           (lit "birthDate", dob) ]))%result.

(** The Encounter resource. *)
Definition make_encounter (pat_id enc_id : str) (encounter : value)
  : result value :=
  (start <- py_get encounter (lit "date") VNone ;;
   end_ <- py_get encounter (lit "date") VNone ;;
   location <- py_get encounter (lit "location_npi") (VStr []) ;;
   Ok (VDict
         [ (lit "resourceType", VStr (lit "Encounter"));
           (lit "id", VStr enc_id);
           (lit "status", VStr (lit "finished"));
           (lit "class",
            VDict [ (lit "system",
                     VStr (lit "http://terminology.hl7.org/CodeSystem/v3-ActCode"));
                    (lit "code", VStr (lit "AMB"));
                    (lit "display", VStr (lit "ambulatory")) ]);
           (lit "subject", fhir_ref (lit "Patient") pat_id);
           (lit "period", VDict [ (lit "start", start); (lit "end", end_) ]);
           (lit "serviceProvider",
            VDict [ (lit "identifier",
                     VDict [ (lit "system", VStr (lit "urn:npi:location"));
                             (lit "value", location) ]) ]) ]))%result.

(** One Condition resource, for the diagnosis [d]. *)
Definition make_condition (pat_id enc_id cond_id : str) (d : value)
  : result value :=
  (system <- py_get d (lit "system") (VStr ICD10_SYSTEM) ;;
   code <- py_getitem d (lit "code") ;;
   display <- py_get d (lit "display") (VStr []) ;;
   text <- py_get d (lit "display") (VStr []) ;;
   rank <- py_get d (lit "rank") VNone ;;
   confidence <- py_get d (lit "confidence") VNone ;;
   rationale <- py_get d (lit "rationale") (VStr []) ;;
   Ok (VDict
         [ (lit "resourceType", VStr (lit "Condition"));
           (lit "id", VStr cond_id);
           (lit "subject", fhir_ref (lit "Patient") pat_id);
           (lit "encounter", fhir_ref (lit "Encounter") enc_id);
           (lit "code",
            VDict [ (lit "coding", VList [ coding system code display ]);
                    (lit "text", text) ]);
           (lit "verificationStatus",
            coding_of_code
              (lit "http://terminology.hl7.org/CodeSystem/condition-ver-status")
              (lit "confirmed"));
           (lit "clinicalStatus",
            coding_of_code
              (lit "http://terminology.hl7.org/CodeSystem/condition-clinical")
              (lit "active"));
           (lit "note",
            VList [ VDict [ (lit "text",
                             VStr (lit "rank=" ++ py_str rank
                                   ++ lit ", confidence=" ++ py_str confidence
                                   ++ lit ", rationale=" ++ py_str rationale)) ] ])
         ]))%result.

(** One entry of Claim.diagnosis[]. *)
Definition make_claim_diagnosis (idx : Z) (cond_id : str) : value :=
  VDict
    [ (lit "sequence", VInt idx);
      (lit "diagnosisReference", fhir_ref (lit "Condition") cond_id);
      (lit "type",
       VList [ coding_of_code
                 (lit "http://terminology.hl7.org/CodeSystem/ex-diagnosistype")
                 (if idx =? 1 then lit "principal" else lit "additional") ]) ].

(** Body of the loop over [enumerate(icd10, start=1)]; the loop state is
    the pair (condition_entries, claim_diagnosis). *)
Definition condition_step (pat_id enc_id : str) (idx : Z) (d : value)
    (st : list value * list value) : M (list value * list value) :=
  let '(condition_entries, claim_diagnosis) := st in
  h <- uuid4_hex8 ;;
  let cond_id := lit "cond-" ++ h in
  condition <~ make_condition pat_id enc_id cond_id d ;;
  ret (condition_entries ++ [ VDict [ (lit "resource", condition) ] ],
       claim_diagnosis ++ [ make_claim_diagnosis idx cond_id ]).

(** The Claim resource as first built, with empty procedure, item and
    supportingInfo lists. *)
Definition make_claim (envelope : dict) (pat_id clm_id : str)
    (patient encounter claim_id_input : value) (created : str)
    (claim_diagnosis : list value) : result dict :=
  (provider <- py_get encounter (lit "provider_npi") (VStr []) ;;
   payer <- py_get patient (lit "payer_name") (VStr []) ;;
   source <- py_get (dict_get envelope (lit "meta") (VDict []))
                    (lit "source") (VStr []) ;;
   Ok [ (lit "resourceType", VStr (lit "Claim"));
        (lit "id", VStr clm_id);
        (lit "status", VStr (lit "active"));
        (lit "type",
         coding_of_code
           (lit "http://terminology.hl7.org/CodeSystem/claim-type")
           (lit "professional"));
        (lit "use", VStr (lit "claim"));
        (lit "patient", fhir_ref (lit "Patient") pat_id);
        (lit "created", VStr created);
        (lit "enterer",
         VDict [ (lit "identifier",
                  VDict [ (lit "system", VStr (lit "urn:npi:provider"));
                          (lit "value", provider) ]) ]);
        (lit "insurer", VDict [ (lit "display", payer) ]);
        (lit "priority",
         coding_of_code
           (lit "http://terminology.hl7.org/CodeSystem/processpriority")
           (lit "normal"));
        (lit "diagnosis", VList claim_diagnosis);
        (lit "procedure", VList []);
        (lit "item", VList []);
        (lit "supportingInfo", VList []);
        (lit "extension",
         VList
           [ VDict
               [ (lit "url", VStr (lit "urn:gooclaim:meta"));
                 (lit "extension",
                  VList
                    [ VDict [ (lit "url", VStr (lit "claim_id_input"));
                              (lit "valueString",
                               VStr (py_str claim_id_input)) ];
                      VDict [ (lit "url", VStr (lit "source"));
                              (lit "valueString", VStr (py_str source)) ] ])
               ] ]) ])%result.

(** One line of Claim.item[] for the code entry [c]. *)
Definition make_item (claim : dict) (c : value) (default_system : str)
    (encounter : value) (enc_id : str) : result value :=
  (items <- py_getitem (VDict claim) (lit "item") ;;
   n <- py_len items ;;
   system <- py_get c (lit "system") (VStr default_system) ;;
   code <- py_getitem c (lit "code") ;;
   display <- py_get c (lit "display") (VStr []) ;;
   text <- py_get c (lit "display") (VStr []) ;;
   date <- py_get encounter (lit "date") VNone ;;
   Ok (VDict
         [ (lit "sequence", VInt (n + 1));
           (lit "productOrService",
            VDict [ (lit "coding", VList [ coding system code display ]);
                    (lit "text", text) ]);
           (lit "servicedDate", date);
           (lit "encounter", VList [ fhir_ref (lit "Encounter") enc_id ]) ]))%result.

(** The supportingInfo entry that goes with the E/M line. *)
Definition make_supporting_info (claim : dict) (cpt_em : value)
  : result value :=
  (infos <- py_getitem (VDict claim) (lit "supportingInfo") ;;
   n <- py_len infos ;;
   status <- py_get cpt_em (lit "assumed_patient_status")
                    (VStr (lit "unknown")) ;;
   confidence <- py_get cpt_em (lit "confidence") VNone ;;
   Ok (VDict
         [ (lit "sequence", VInt (n + 1));
           (lit "category",
            coding_of_code
              (lit "http://terminology.hl7.org/CodeSystem/claiminformationcategory")
              (lit "info"));
           (lit "valueString",
            VStr (lit "E/M assumes patient status=" ++ py_str status
                  ++ lit " (confidence=" ++ py_str confidence ++ lit ")")) ]))%result.

(** [if cpt_em and cpt_em.get("code")] *)
Definition em_present (cpt_em : value) : result bool :=
  if truthy cpt_em
  then (code <- py_get cpt_em (lit "code") VNone ;; Ok (truthy code))%result
  else Ok false.

(** The block that adds the E/M line and its supportingInfo entry. *)
Definition add_em (claim : dict) (cpt_em encounter : value) (enc_id : str)
  : result dict :=
  (go <- em_present cpt_em ;;
   if go : bool then
     item <- make_item claim cpt_em CPT_SYSTEM encounter enc_id ;;
     claim <- append_at claim (lit "item") item ;;
     info <- make_supporting_info claim cpt_em ;;
     append_at claim (lit "supportingInfo") info
   else Ok claim)%result.

(** One entry of Claim.procedure[]. *)
Definition make_procedure (i : Z) (p encounter : value) : result value :=
  (date <- py_get encounter (lit "date") VNone ;;
   system <- py_get p (lit "system") (VStr CPT_SYSTEM) ;;
   code <- py_getitem p (lit "code") ;;
   display <- py_get p (lit "display") (VStr []) ;;
   Ok (VDict
         [ (lit "sequence", VInt i);
           (lit "date", date);
           (lit "procedureCodeableConcept",
            VDict [ (lit "coding", VList [ coding system code display ]) ]) ]))%result.

(** Body of the loop over [enumerate(procedures, start=1)]. *)
Definition procedure_step (encounter : value) (enc_id : str) (i : Z)
    (p : value) (claim : dict) : M dict :=
  lift
    (proc <- make_procedure i p encounter ;;
     claim <- append_at claim (lit "procedure") proc ;;
     item <- make_item claim p CPT_SYSTEM encounter enc_id ;;
     append_at claim (lit "item") item)%result.

(** Body of the loop over [hcpcs]. *)
Definition supply_step (encounter : value) (enc_id : str) (h : value)
    (claim : dict) : M dict :=
  lift
    (item <- make_item claim h HCPCS_SYSTEM encounter enc_id ;;
     append_at claim (lit "item") item)%result.

(** [build_fhir_bundle(envelope, icd10, cpt_em, procedures, hcpcs)] *)
Definition build_fhir_bundle (envelope : dict) (icd10 : list value)
    (cpt_em : value) (procedures hcpcs : list value) : M value :=
  h <- uuid4_hex8 ;;
  let pat_id := lit "pat-" ++ h in
  h <- uuid4_hex8 ;;
  let enc_id := lit "enc-" ++ h in
  h <- uuid4_hex8 ;;
  let clm_id := lit "clm-" ++ h in
  let patient := dict_get envelope (lit "patient") (VDict []) in
  let encounter := dict_get envelope (lit "encounter") (VDict []) in
  let claim_id_input :=
    py_or (dict_get envelope (lit "claim_id") VNone) (VStr clm_id) in
  fhir_patient <~ make_patient pat_id patient ;;
  fhir_encounter <~ make_encounter pat_id enc_id encounter ;;
  st <- for_enumerate (condition_step pat_id enc_id) 1 icd10 ([], []) ;;
  let '(condition_entries, claim_diagnosis) := st in
  created <- utcnow_str ;;
  claim <~ make_claim envelope pat_id clm_id patient encounter
             claim_id_input created claim_diagnosis ;;
  claim <~ add_em claim cpt_em encounter enc_id ;;
  claim <- for_enumerate (procedure_step encounter enc_id) 1 procedures claim ;;
  claim <- for_each (supply_step encounter enc_id) hcpcs claim ;;
  h <- uuid4_hex8 ;;
  timestamp <- utcnow_str ;;
  ret (VDict
         [ (lit "resourceType", VStr (lit "Bundle"));
           (lit "type", VStr (lit "collection"));
           (lit "id", VStr (lit "bundle-" ++ h));
           (lit "timestamp", VStr timestamp);
           (lit "entry",
            VList ([ VDict [ (lit "resource", fhir_patient) ];
                     VDict [ (lit "resource", fhir_encounter) ];
                     VDict [ (lit "resource", VDict claim) ] ]
                   ++ condition_entries)) ]).

End Builder.

(** * Properties *)

(** ** Occurrences of one string in another *)

(** [t] occurs in [s] starting at index [p]. *)
Definition occurs_at (s t : str) (p : nat) : Prop :=
  exists pre post, s = pre ++ t ++ post /\ List.length pre = p.

(** [t] occurs in [s] at index [p] up to letter case. *)
Definition ci_occurs_at (s t : str) (p : nat) : Prop :=
  exists pre mid post,
    s = pre ++ mid ++ post /\ List.length pre = p /\ lower mid = lower t.

(** [p] is the index of the first occurrence of [t] in [s], up to case. *)
Definition ci_first_occurrence (s t : str) (p : nat) : Prop :=
  ci_occurs_at s t p /\ forall q, (q < p)%nat -> ~ ci_occurs_at s t q.

(** [t] is a substring of [s], up to letter case. *)
Definition ci_occurs (s t : str) : Prop := exists p, ci_occurs_at s t p.


(** [t] is a substring of [s]. *)
Definition substring_of (t s : str) : Prop := exists p, occurs_at s t p.

(** The term [b] occurs, up to case, inside the stretch of [text] that
    runs from [window] characters before the start of the first occurrence
    of the anchor [a] to [window] characters after its end. *)
Definition within_window (text a b : str) (window : Z) : Prop :=
  exists p q,
    ci_first_occurrence text a p /\ ci_occurs_at text b q /\
    Z.of_nat p - window <= Z.of_nat q /\
    Z.of_nat q + len b <= Z.of_nat p + len a + window.

(** ** Reading values *)

(** [v @> k]: the member [k] of the object [v], [VNone] when there is none. *)
Definition get (k : string) (v : value) : value :=
  match v with
  | VDict d => dict_get d (lit k) VNone
  | _ => VNone
  end.

Notation "v @> k" := (get k v) (at level 40, left associativity).

(** The elements of an array value. *)
Definition elems (v : value) : list value :=
  match v with
  | VList l => l
  | _ => []
  end.

(** [v] is the string [s]. *)
Definition is_text (s : str) (v : value) : bool :=
  match v with
  | VStr t => str_eqb t s
  | _ => false
  end.

(** The entry [v] carries the code [c]. *)
Definition has_code (c : string) (v : value) : bool :=
  is_text (lit c) (v @> "code").

(** ** The note of an envelope, and the evidence in it *)

(** The envelope carries the note text [note]. *)
Definition has_note (envelope : dict) (note : str) : Prop :=
  exists cn,
    lookup envelope (lit "clinical_note") = Some (VDict cn) /\
    lookup cn (lit "text_preview") = Some (VStr note).

(** The envelope whose only content is the note text [note]. *)
Definition note_envelope (note : str) : dict :=
  [ (lit "clinical_note", VDict [ (lit "text_preview", VStr note) ]) ].

(** The anchor terms and phrases the detectors test, as lists. *)
Definition IMAGING_ANCHORS : list str :=
  [ lit "x-ray"; lit "xray"; lit "cxr" ].
Definition TWO_VIEW_PHRASES : list str :=
  [ lit "two views"; lit "2 views"; lit "pa and lateral" ].
Definition NEBULIZER_ANCHORS : list str := [ lit "nebulizer"; lit "neb" ].
Definition INJECTION_ANCHORS : list str :=
  [ lit "intramuscular"; lit "im injection"; lit "injection given";
    lit "shot given" ].

Definition SYMPTOM_STEMS : list str :=
  [ lit "cough"; lit "wheez"; lit "shortness of breath"; lit "fever" ].

(** One of [terms] occurs in the text, up to case. *)
Definition mentions (text : str) (terms : list str) : Prop :=
  exists t, In t terms /\ ci_occurs text t.

(** Some performed-hint lies within 40 characters of the first occurrence
    of some imaging anchor. *)
Definition imaging_evidence (text : str) : Prop :=
  exists a h, In a IMAGING_ANCHORS /\ In h PERFORMED_HINTS /\
              within_window text a h 40.

(** [p] carries one of the two chest X-ray codes. *)
Definition is_imaging (p : value) : bool :=
  has_code "71045" p || has_code "71046" p.

(** [h] carries one of the two drug codes of the injection rule. *)
Definition is_injection_drug (h : value) : bool :=
  has_code "J0696" h || has_code "J1100" h.

(** ** The rule engine in closed form

    What [tiny_rules] returns, written as functions of the lower-cased
    note: one boolean per rule and one list per result.  They restate
    nothing of the specification; [tiny_rules_run] below proves that they
    are what the code computes. *)

(** [any(t in low for t in terms)] *)
Definition any_of (terms : list str) (low : str) : bool :=
  existsb (fun t => contains low t) terms.

(** The list holding [x] when [c] holds, the empty list otherwise. *)
Definition when (c : bool) (x : value) : list value :=
  if c then [x] else [].

Definition principal_fires (low : str) : bool :=
  contains low (lit "cough")
  && (contains low (lit "wheez") || contains low (lit "shortness of breath"))
  && (contains low (lit "fever") || contains low (lit "azithromycin")).

Definition imaging_fires (low : str) : bool :=
  existsb (fun h => existsb (fun a => near low a h 40) IMAGING_ANCHORS)
          PERFORMED_HINTS.

Definition nebulizer_fires (low : str) : bool :=
  any_of NEBULIZER_ANCHORS low && any_of PERFORMED_HINTS low.

Definition injection_fires (low : str) : bool :=
  any_of INJECTION_ANCHORS low && any_of PERFORMED_HINTS low.

Definition diagnoses_for (low : str) : list value :=
  when (principal_fires low) DX_J20_9
  ++ when (contains low (lit "wheez")) DX_R06_2
  ++ when (contains low (lit "shortness of breath")) DX_R06_02
  ++ when (contains low (lit "fever")) DX_R50_9
  ++ when (contains low (lit "cough")) DX_R05_9.

Definition procedures_for (low : str) : list value :=
  when (imaging_fires low)
       (if any_of TWO_VIEW_PHRASES low then CPT_71046 else CPT_71045)
  ++ when (nebulizer_fires low) CPT_94640
  ++ when (injection_fires low) CPT_96372.

Definition supplies_for (low : str) : list value :=
  when (nebulizer_fires low && contains low (lit "albuterol")) HCPCS_J7613
  ++ when (injection_fires low && contains low (lit "ceftriaxone")) HCPCS_J0696
  ++ when (injection_fires low && negb (contains low (lit "ceftriaxone"))
           && contains low (lit "dexamethasone")) HCPCS_J1100.

(** ** Diagnosis entries *)

(** [d] is a diagnosis entry with the given code, rank and confidence. *)
Definition dx_entry (code : string) (rank : Z) (confidence : float)
    (d : value) : Prop :=
  d @> "code" = VStr (lit code) /\ d @> "rank" = VInt rank /\
  d @> "confidence" = VFloat confidence.

(** The rank of [a] is below the rank of [b]. *)
Definition rank_ltb (a b : value) : bool :=
  match a @> "rank", b @> "rank" with
  | VInt x, VInt y => x <? y
  | _, _ => false
  end.

(** The confidence of [a] is above the confidence of [b]. *)
Definition confidence_gtb (a b : value) : bool :=
  match a @> "confidence", b @> "confidence" with
  | VFloat x, VFloat y => PrimFloat.ltb y x
  | _, _ => false
  end.

(** Every element is related to the next one. *)
Fixpoint chain {A} (r : A -> A -> bool) (l : list A) : bool :=
  match l with
  | [] => true
  | x :: l' =>
      match l' with
      | [] => true
      | y :: _ => r x y && chain r l'
      end
  end.

(** [l] is [m] with some elements left out. *)
Fixpoint subsequence (l m : list value) (same : value -> value -> bool)
  : bool :=
  match m with
  | [] => match l with [] => true | _ => false end
  | y :: m' =>
      match l with
      | [] => true
      | x :: l' =>
          if same x y then subsequence l' m' same else subsequence l m' same
      end
  end.

Definition same_code (a b : value) : bool :=
  match a @> "code", b @> "code" with
  | VStr x, VStr y => str_eqb x y
  | _, _ => false
  end.

(** The diagnosis codes in rule order. *)
Definition DX_ORDER : list value :=
  [ VDict [ (lit "code", VStr (lit "J20.9")) ];
    VDict [ (lit "code", VStr (lit "R06.2")) ];
    VDict [ (lit "code", VStr (lit "R06.02")) ];
    VDict [ (lit "code", VStr (lit "R50.9")) ];
    VDict [ (lit "code", VStr (lit "R05.9")) ] ].

(** ** The shape of an envelope *)

Definition absent_or (ok : value -> bool) (d : dict) (k : string) : bool :=
  match lookup d (lit k) with
  | None => true
  | Some v => ok v
  end.

Definition is_str (v : value) : bool :=
  match v with
  | VStr _ => true
  | _ => false
  end.

Definition is_object (ok : dict -> bool) (v : value) : bool :=
  match v with
  | VDict d => ok d
  | _ => false
  end.

(** The input contract: each of [patient], [encounter], [clinical_note]
    and [meta] is absent or an object; [patient.sex] and
    [clinical_note.text_preview] are absent or strings.  Every other
    member, [claim_id] included, is free. *)
Definition envelope_shape (envelope : dict) : bool :=
  absent_or (is_object (fun p => absent_or is_str p "sex")) envelope "patient"
  && absent_or (is_object (fun _ => true)) envelope "encounter"
  && absent_or (is_object (fun c => absent_or is_str c "text_preview"))
       envelope "clinical_note"
  && absent_or (is_object (fun _ => true)) envelope "meta".

(** The note text of an envelope, empty when there is none. *)
Definition note_of (envelope : dict) : str :=
  match lookup envelope (lit "clinical_note") with
  | Some (VDict cn) =>
      match lookup cn (lit "text_preview") with
      | Some (VStr s) => s
      | _ => []
      end
  | _ => []
  end.

(** ** Reading a bundle *)

(** The [n]-th element of an array value, [VNone] when there is none. *)
Definition item_at (n : nat) (v : value) : value := nth n (elems v) VNone.

(** The resources of a bundle, in entry order. *)
Definition resources (bundle : value) : list value :=
  map (get "resource") (elems (bundle @> "entry")).

(** The resources of one type. *)
Definition of_type (t : string) (rs : list value) : list value :=
  filter (fun r => is_text (lit t) (r @> "resourceType")) rs.

(** The reference [ref] names a resource of the bundle: it reads
    [<resourceType>/<id>] for one of them. *)
Definition resolves (bundle : value) (ref : value) : bool :=
  existsb
    (fun r =>
       match r @> "resourceType", r @> "id" with
       | VStr t, VStr i => is_text (t ++ lit "/" ++ i) ref
       | _, _ => false
       end)
    (resources bundle).

Definition encounter_references (r : value) : list value :=
  [ r @> "subject" @> "reference" ].

Definition claim_references (r : value) : list value :=
  [ r @> "patient" @> "reference" ]
  ++ map (fun d => d @> "diagnosisReference" @> "reference")
         (elems (r @> "diagnosis"))
  ++ flat_map (fun line => map (get "reference") (elems (line @> "encounter")))
              (elems (r @> "item")).

Definition condition_references (r : value) : list value :=
  [ r @> "subject" @> "reference"; r @> "encounter" @> "reference" ].

(** The references of a bundle: the Encounter's subject, the Claim's
    patient, every Claim.diagnosis[] diagnosisReference, every Claim.item[]
    encounter reference, and every Condition's subject and encounter. *)
Definition references (bundle : value) : list value :=
  flat_map encounter_references (of_type "Encounter" (resources bundle))
  ++ flat_map claim_references (of_type "Claim" (resources bundle))
  ++ flat_map condition_references (of_type "Condition" (resources bundle)).

(** The code on a line of Claim.item[] and on an entry of
    Claim.procedure[]. *)
Definition line_code (line : value) : value :=
  item_at 0 (line @> "productOrService" @> "coding") @> "code".

Definition procedure_code (p : value) : value :=
  item_at 0 (p @> "procedureCodeableConcept" @> "coding") @> "code".

(** The sequence numbers [first, first + 1, ...], [n] of them. *)
Definition run_from (first n : nat) : list value :=
  map (fun k => VInt (Z.of_nat k)) (seq first n).

(** A code entry the builder accepts: an object with a [code] member. *)
Definition is_coded (c : value) : bool :=
  match c with
  | VDict d => match lookup d (lit "code") with Some _ => true | None => false end
  | _ => false
  end.

(** A visit code for which the builder adds the E/M line: an object whose
    [code] is true in a condition. *)
Definition is_visit_code (c : value) : bool :=
  match c with
  | VDict d => match lookup d (lit "code") with Some v => truthy v | None => false end
  | _ => false
  end.

(** The members of the envelope the builder reads, [{}] when absent. *)
Definition patient_of (envelope : dict) : value :=
  dict_get envelope (lit "patient") (VDict []).
Definition encounter_of (envelope : dict) : value :=
  dict_get envelope (lit "encounter") (VDict []).
Definition meta_of (envelope : dict) : value :=
  dict_get envelope (lit "meta") (VDict []).

(** [v @> k], with the fallback [default] when [v] has no member [k]. *)
Definition get_or (k : string) (default : value) (v : value) : value :=
  match v with
  | VDict d => dict_get d (lit k) default
  | _ => default
  end.

(** A world for examples: the k-th identifier is k in hexadecimal digits
    of a fixed width, the clock stands still. *)
Definition example_world : world :=
  {| uuid_hex8 := fun k => lit "0000000" ++ [ascii_of_nat (48 + k)];
     utcnow := fun _ => lit "2024-01-01T00:00:00Z";
     uuid_reads := 0;
     clock_reads := 0 |}.

(** A stand-in for [str] in examples: strings print as themselves. *)
Definition example_str (v : value) : str :=
  match v with
  | VStr s => s
  | VNone => lit "None"
  | _ => lit "?"
  end.

(** The [sex] member of a patient object, empty when absent. *)
Definition sex_of (patient : value) : str :=
  match get_or "sex" (VStr []) patient with
  | VStr s => s
  | _ => []
  end.

(** What links a Condition resource to the entry of Claim.diagnosis[] that
    points at it. *)
Definition condition_link (pat_id enc_id : str) (c diag : value) : Prop :=
  c @> "resourceType" = VStr (lit "Condition") /\
  c @> "subject" @> "reference" = VStr (lit "Patient/" ++ pat_id) /\
  c @> "encounter" @> "reference" = VStr (lit "Encounter/" ++ enc_id) /\
  exists cond_id,
    c @> "id" = VStr cond_id /\
    diag @> "diagnosisReference" @> "reference"
    = VStr (lit "Condition/" ++ cond_id).

(** A line of Claim.item[] for the code entry [c] of an encounter. *)
Definition line_for (encounter : value) (enc_id : str) (c line : value)
  : Prop :=
  line_code line = c @> "code" /\
  line @> "servicedDate" = get_or "date" VNone encounter /\
  line @> "encounter" = VList [ fhir_ref (lit "Encounter") enc_id ].

(** The members of a claim that the loops leave alone. *)
Definition claim_frame (claim claim' : dict) : Prop :=
  forall k,
    str_eqb (lit "procedure") k = false ->
    str_eqb (lit "item") k = false ->
    str_eqb (lit "supportingInfo") k = false ->
    lookup claim' k = lookup claim k.

(** The world after one more identifier, and after one more clock reading. *)
Definition tick_uuid (w : world) : world :=
  {| uuid_hex8 := uuid_hex8 w; utcnow := utcnow w;
     uuid_reads := S (uuid_reads w); clock_reads := clock_reads w |}.

Definition tick_clock (w : world) : world :=
  {| uuid_hex8 := uuid_hex8 w; utcnow := utcnow w;
     uuid_reads := uuid_reads w; clock_reads := S (clock_reads w) |}.

(** A bundle entry around a resource. *)
Definition entry_of (r : value) : value := VDict [ (lit "resource", r) ].

(** What the Patient resource [r] says, for the patient object [p]. *)
Definition patient_facts (pat_id : str) (p r : value) : Prop :=
  r @> "resourceType" = VStr (lit "Patient") /\
  r @> "id" = VStr pat_id /\
  r @> "gender"
  = VStr (gender_get GENDER_MAP (upper (sex_of p)) (lit "unknown")) /\
  item_at 0 (r @> "identifier") @> "value" = get_or "mrn" (VStr []) p /\
  item_at 0 (r @> "name") @> "family" = get_or "last_name" (VStr []) p /\
  item_at 0 (r @> "name") @> "given"
  = VList [ get_or "first_name" (VStr []) p ] /\
  r @> "birthDate" = get_or "dob" (VStr []) p.

(** What the Encounter resource [r] says, for the encounter object [e]. *)
Definition encounter_facts (pat_id enc_id : str) (e r : value) : Prop :=
  r @> "resourceType" = VStr (lit "Encounter") /\
  r @> "id" = VStr enc_id /\
  r @> "subject" @> "reference" = VStr (lit "Patient/" ++ pat_id) /\
  r @> "period" @> "start" = get_or "date" VNone e /\
  r @> "period" @> "end" = get_or "date" VNone e /\
  r @> "serviceProvider" @> "identifier" @> "value"
  = get_or "location_npi" (VStr []) e.

(** What the Claim resource [r] says outside its three lists. *)
Definition claim_facts (py_str : value -> str) (envelope : dict)
    (pat_id clm_id : str) (diags : list value) (r : value) : Prop :=
  r @> "resourceType" = VStr (lit "Claim") /\
  r @> "id" = VStr clm_id /\
  r @> "patient" @> "reference" = VStr (lit "Patient/" ++ pat_id) /\
  r @> "diagnosis" = VList diags /\
  r @> "enterer" @> "identifier" @> "value"
  = get_or "provider_npi" (VStr []) (encounter_of envelope) /\
  r @> "insurer" @> "display"
  = get_or "payer_name" (VStr []) (patient_of envelope) /\
  item_at 0 (item_at 0 (r @> "extension") @> "extension") @> "valueString"
  = VStr (py_str (py_or (dict_get envelope (lit "claim_id") VNone)
                        (VStr clm_id))) /\
  item_at 1 (item_at 0 (r @> "extension") @> "extension") @> "valueString"
  = VStr (py_str (get_or "source" (VStr []) (meta_of envelope))).

(** The layout of an assembled bundle: its four kinds of resources and how
    the lists of the Claim follow the inputs. *)
Definition layout (py_str : value -> str) (envelope : dict)
    (icd10 : list value) (cpt_em : value) (procedures hcpcs : list value)
    (bundle : value) : Prop :=
  exists pat_id enc_id clm_id pat enc claim conds diags entries lines,
    resources bundle = pat :: enc :: claim :: conds /\
    patient_facts pat_id (patient_of envelope) pat /\
    encounter_facts pat_id enc_id (encounter_of envelope) enc /\
    claim_facts py_str envelope pat_id clm_id diags claim /\
    claim @> "procedure" = VList entries /\
    claim @> "item" = VList lines /\
    Forall2 (condition_link pat_id enc_id) conds diags /\
    List.length conds = List.length icd10 /\
    map (get "sequence") lines
    = run_from 1 (1 + List.length procedures + List.length hcpcs) /\
    Forall2 (line_for (encounter_of envelope) enc_id)
            (cpt_em :: procedures ++ hcpcs) lines /\
    map (get "sequence") entries = run_from 1 (List.length procedures) /\
    map procedure_code entries = map (get "code") procedures.

(** ** Vocabulary of the further properties *)

(** The note of the envelope can be read: [clinical_note] is absent, or
    false in a condition (null, an empty object, ...), or an object whose
    [text_preview] is absent or a string. *)
Definition note_readable (envelope : dict) : bool :=
  match lookup envelope (lit "clinical_note") with
  | None => true
  | Some v =>
      if truthy v
      then is_object (fun cn => absent_or is_str cn "text_preview") v
      else true
  end.

(** [cpt_em] makes the builder skip the E/M line without raising: it is
    false in a condition, or an object whose [code] is. *)
Definition no_visit_code (cpt_em : value) : bool :=
  match cpt_em with
  | VDict d => negb (truthy (dict_get d (lit "code") VNone))
  | v => negb (truthy v)
  end.

(** The part of the input contract the builder depends on. *)
Definition builder_shape (envelope : dict) : bool :=
  absent_or (is_object (fun p => absent_or is_str p "sex")) envelope "patient"
  && absent_or (is_object (fun _ => true)) envelope "encounter"
  && absent_or (is_object (fun _ => true)) envelope "meta".

(** The world after [n] more identifiers. *)
Fixpoint ticks (n : nat) (w : world) : world :=
  match n with
  | O => w
  | S n' => ticks n' (tick_uuid w)
  end.

(** The [k]-th identifier drawn from the world [w] on. *)
Definition draw (w : world) (k : nat) : str :=
  uuid_hex8 w (uuid_reads w + k).

(** The [k]-th clock reading from the world [w] on. *)
Definition reading (w : world) (k : nat) : str :=
  utcnow w (clock_reads w + k).

(** The classification of an entry of Claim.diagnosis[]. *)
Definition diag_type (d : value) : value :=
  item_at 0 (item_at 0 (d @> "type") @> "coding") @> "code".

(** The coding [coding] is made from the code entry [c]: the code as it
    is, the system and the display with their fallbacks. *)
Definition coding_from (default_system : str) (c coding : value) : Prop :=
  coding @> "system" = get_or "system" (VStr default_system) c /\
  coding @> "code" = c @> "code" /\
  coding @> "display" = get_or "display" (VStr []) c.

(** The Condition resource [c] is made from the diagnosis [d]. *)
Definition condition_from (py_str : value -> str) (d c : value) : Prop :=
  coding_from ICD10_SYSTEM d (item_at 0 (c @> "code" @> "coding")) /\
  c @> "code" @> "text" = get_or "display" (VStr []) d /\
  item_at 0 (c @> "verificationStatus" @> "coding") @> "code"
  = VStr (lit "confirmed") /\
  item_at 0 (c @> "clinicalStatus" @> "coding") @> "code"
  = VStr (lit "active") /\
  item_at 0 (c @> "note") @> "text"
  = VStr (lit "rank=" ++ py_str (d @> "rank")
          ++ lit ", confidence=" ++ py_str (d @> "confidence")
          ++ lit ", rationale=" ++ py_str (get_or "rationale" (VStr []) d)).

(** The line [line] of Claim.item[] is made from the code entry [c]. *)
Definition line_from (default_system : str) (c line : value) : Prop :=
  coding_from default_system c
    (item_at 0 (line @> "productOrService" @> "coding")) /\
  line @> "productOrService" @> "text" = get_or "display" (VStr []) c.

(** The entry [entry] of Claim.procedure[] is made from the procedure [p]
    of an encounter. *)
Definition procedure_from (encounter p entry : value) : Prop :=
  coding_from CPT_SYSTEM p
    (item_at 0 (entry @> "procedureCodeableConcept" @> "coding")) /\
  entry @> "date" = get_or "date" VNone encounter.

(** The exception a code entry makes the builder raise, if any: an entry
    that is no object has no [get]; an object without [code] has no such
    key. *)
Definition entry_error (c : value) : option exn :=
  match c with
  | VDict d =>
      match lookup d (lit "code") with
      | Some _ => None
      | None => Some KeyError
      end
  | _ => Some AttributeError
  end.

(** The exception of the first entry of a list that has one. *)
Fixpoint first_error (l : list value) : option exn :=
  match l with
  | [] => None
  | c :: l' =>
      match entry_error c with
      | Some e => Some e
      | None => first_error l'
      end
  end.

(** The builder from the E/M block on, as a computation of its own: what
    [build_fhir_bundle] does once the Patient, the Encounter, the
    Conditions and the first Claim are made ([build_prefix] proves the
    equation). *)
Definition finish_bundle (py_str : value -> str)
    (fhir_patient fhir_encounter : value) (condition_entries : list value)
    (encounter : value) (enc_id : str) (cpt_em : value)
    (procedures hcpcs : list value) (claim : dict) : M value :=
  (claim <~ add_em py_str claim cpt_em encounter enc_id ;;
   claim <- for_enumerate (procedure_step encounter enc_id) 1 procedures claim ;;
   claim <- for_each (supply_step encounter enc_id) hcpcs claim ;;
   h <- uuid4_hex8 ;;
   timestamp <- utcnow_str ;;
   ret (VDict
          [ (lit "resourceType", VStr (lit "Bundle"));
            (lit "type", VStr (lit "collection"));
            (lit "id", VStr (lit "bundle-" ++ h));
            (lit "timestamp", VStr timestamp);
            (lit "entry",
             VList ([ VDict [ (lit "resource", fhir_patient) ];
                      VDict [ (lit "resource", fhir_encounter) ];
                      VDict [ (lit "resource", VDict claim) ] ]
                    ++ condition_entries)) ]))%M.

(** The world when the builder returns, for [n] diagnoses. *)
Definition final_world (n : nat) (w : world) : world :=
  tick_clock (tick_uuid (tick_clock (ticks (3 + n) w))).
Lemma starts_with_iff (s p : str) :
  starts_with s p = true <-> exists post, s = p ++ post.
Proof.
  revert s; induction p as [|c p IH]; intros s; simpl.
  - split; [intros _; now exists s | reflexivity].
  - destruct s as [|d s].
    + split; [discriminate | intros [post H]; discriminate].
    + rewrite andb_true_iff, Ascii.eqb_eq, IH. split.
      * intros [-> [post ->]]. now exists post.
      * intros [post H]. injection H as -> ->. split; [reflexivity | now exists post].
Qed.

Lemma occurs_at_0 (s t : str) : occurs_at s t 0 <-> starts_with s t = true.
Proof.
  rewrite starts_with_iff. split.
  - intros (pre & post & -> & Hl). destruct pre; [|discriminate]. now exists post.
  - intros [post ->]. now exists [], post.
Qed.

Lemma occurs_at_S (c : ascii) (s t : str) (p : nat) :
  occurs_at (c :: s) t (S p) <-> occurs_at s t p.
Proof.
  split.
  - intros (pre & post & H & Hl). destruct pre as [|d pre]; [discriminate|].
    injection H as -> ->. injection Hl as <-. now exists pre, post.
  - intros (pre & post & -> & <-). now exists (c :: pre), post.
Qed.

Lemma occurs_at_nil (t : str) (p : nat) : occurs_at [] t p -> p = 0%nat.
Proof.
  intros (pre & post & H & <-). symmetry in H.
  apply app_eq_nil in H. destruct H as [-> _]. reflexivity.
Qed.

Lemma contains_iff (s t : str) :
  contains s t = true <-> exists p, occurs_at s t p.
Proof.
  induction s as [|c s IH]; simpl; rewrite orb_true_iff.
  - split.
    + intros [H | H]; [|discriminate]. exists 0%nat. now apply occurs_at_0.
    + intros [p H]. left. pose proof (occurs_at_nil _ _ H) as ->.
      now apply occurs_at_0.
  - rewrite IH. split.
    + intros [H | [p H]].
      * exists 0%nat. now apply occurs_at_0.
      * exists (S p). now apply occurs_at_S.
    + intros [[|p] H].
      * left. now apply occurs_at_0.
      * right. exists p. now apply occurs_at_S in H.
Qed.

(** [find] returns -1 exactly when there is no occurrence, and otherwise
    the index of the first one. *)
Lemma find_spec (s t : str) :
  (find s t = -1 /\ forall p, ~ occurs_at s t p) \/
  (exists p, find s t = Z.of_nat p /\ occurs_at s t p /\
             forall q, (q < p)%nat -> ~ occurs_at s t q).
Proof.
  induction s as [|c s IH]; simpl.
  - destruct (starts_with [] t) eqn:E.
    + right. exists 0%nat. repeat split; [now apply occurs_at_0 | lia].
    + left. split; [reflexivity|]. intros p H.
      pose proof (occurs_at_nil _ _ H) as ->. apply occurs_at_0 in H. congruence.
  - destruct (starts_with (c :: s) t) eqn:E.
    + right. exists 0%nat. repeat split; [now apply occurs_at_0 | lia].
    + destruct IH as [[-> Hno] | (p & -> & Hp & Hmin)].
      * left. split; [reflexivity|]. intros [|p] H.
        -- apply occurs_at_0 in H. congruence.
        -- apply occurs_at_S in H. exact (Hno _ H).
      * right. exists (S p).
        assert ((Z.of_nat p =? -1) = false) as -> by (apply Z.eqb_neq; lia).
        repeat split; [lia | now apply occurs_at_S |].
        intros [|q] Hq H.
        -- apply occurs_at_0 in H. congruence.
        -- apply occurs_at_S in H. apply (Hmin q); [lia | exact H].
Qed.


(** ** Slices *)

Lemma slice_in_range (s : str) (i j : nat) :
  (i <= j <= List.length s)%nat ->
  slice s (Z.of_nat i) (Z.of_nat j) = firstn (j - i) (skipn i s).
Proof.
  intros H. unfold slice, slice_bound, len.
  assert ((Z.of_nat i <? 0) = false) as -> by (apply Z.ltb_ge; lia).
  assert ((Z.of_nat j <? 0) = false) as -> by (apply Z.ltb_ge; lia).
  rewrite !Z.min_l by lia. f_equal; [|f_equal]; lia.
Qed.

Lemma occurs_at_length (s t : str) (p : nat) :
  occurs_at s t p -> (p + List.length t <= List.length s)%nat.
Proof.
  intros (pre & post & -> & <-). rewrite !length_app. lia.
Qed.

(** An occurrence inside the slice [s[i:j]] is an occurrence in [s] that
    starts at or after [i] and ends at or before [j]. *)
Lemma occurs_in_window (s t : str) (i j : nat) :
  (i <= j <= List.length s)%nat ->
  (exists p, occurs_at (firstn (j - i) (skipn i s)) t p) <->
  (exists q, occurs_at s t q /\ (i <= q)%nat /\ (q + List.length t <= j)%nat).
Proof.
  intros Hij. split.
  - intros (p & pre & post & H & Hp). exists (i + p)%nat.
    pose proof (firstn_skipn i s) as Hs.
    pose proof (firstn_skipn (j - i) (skipn i s)) as Hw.
    assert (Hlen : List.length (firstn (j - i) (skipn i s)) = (j - i)%nat).
    { rewrite length_firstn, length_skipn. lia. }
    rewrite H in Hlen. rewrite !length_app in Hlen.
    repeat split; [|lia|lia].
    exists (firstn i s ++ pre), (post ++ skipn (j - i) (skipn i s)). split.
    + replace ((firstn i s ++ pre) ++ t ++ post ++ skipn (j - i) (skipn i s))
        with (firstn i s ++ (pre ++ t ++ post) ++ skipn (j - i) (skipn i s))
        by (now rewrite <- !app_assoc).
      now rewrite <- H, Hw, Hs.
    + rewrite length_app, length_firstn. lia.
  - intros (q & (pre & post & -> & Hq) & Hi & Hj). exists (q - i)%nat.
    rewrite length_app, length_app in Hij.
    exists (skipn i pre), (firstn (j - q - List.length t) post). split.
    + rewrite skipn_app. replace (i - List.length pre)%nat with 0%nat by lia.
      simpl skipn at 2. rewrite firstn_app, length_skipn.
      rewrite (firstn_all2 (skipn i pre)) by (rewrite length_skipn; lia).
      f_equal. rewrite firstn_app.
      rewrite (firstn_all2 t) by lia. f_equal. f_equal. lia.
    + rewrite length_skipn. lia.
Qed.

(** ** Lower-casing *)

Lemma lower_char_idem (c : ascii) : lower_char (lower_char c) = lower_char c.
Proof. destruct c as [[] [] [] [] [] [] [] []]; reflexivity. Qed.

Lemma lower_idem (s : str) : lower (lower s) = lower s.
Proof.
  unfold lower. rewrite map_map. apply map_ext. exact lower_char_idem.
Qed.

Lemma lower_app (s t : str) : lower (s ++ t) = lower s ++ lower t.
Proof. apply map_app. Qed.

Lemma lower_length (s : str) : List.length (lower s) = List.length s.
Proof. apply length_map. Qed.

Lemma len_lower (s : str) : len (lower s) = len s.
Proof. unfold len. now rewrite lower_length. Qed.

(** Searching the lower-cased text for the lower-cased term is searching
    the text up to case. *)
Lemma ci_occurs_at_lower (s t : str) (p : nat) :
  ci_occurs_at s t p <-> occurs_at (lower s) (lower t) p.
Proof.
  split.
  - intros (pre & mid & post & -> & <- & Hm).
    exists (lower pre), (lower post). rewrite !lower_app, Hm, lower_length.
    now split.
  - intros (pre & post & H & <-). unfold lower in H.
    apply map_eq_app in H. destruct H as (s1 & s2 & -> & <- & H).
    apply map_eq_app in H. destruct H as (s3 & s4 & -> & H3 & <-).
    exists s1, s3, s4. repeat split; [now rewrite length_map | exact H3].
Qed.



Lemma contains_lower_iff (s t : str) :
  contains (lower s) (lower t) = true <-> ci_occurs s t.
Proof.
  rewrite contains_iff. unfold ci_occurs.
  split; intros [p H]; exists p; now apply ci_occurs_at_lower.
Qed.

(** ** The proximity test [near] *)

Lemma ci_first_occurrence_unique (s t : str) (p q : nat) :
  ci_first_occurrence s t p -> ci_first_occurrence s t q -> p = q.
Proof.
  intros [Hp Hpm] [Hq Hqm].
  destruct (Nat.lt_trichotomy p q) as [H | [H | H]]; [|assumption|].
  - exfalso. exact (Hqm p H Hp).
  - exfalso. exact (Hpm q H Hq).
Qed.

(** What [find] on the lower-cased operands computes. *)
Lemma find_lower_spec (text a : str) :
  (find (lower text) (lower a) = -1 /\ forall p, ~ ci_occurs_at text a p) \/
  (exists p, find (lower text) (lower a) = Z.of_nat p /\
             ci_first_occurrence text a p).
Proof.
  destruct (find_spec (lower text) (lower a)) as [[E Hno] | (p & E & Hp & Hmin)].
  - left. split; [exact E|]. intros p H. apply (Hno p).
    now apply ci_occurs_at_lower.
  - right. exists p. split; [exact E|]. split.
    + now apply ci_occurs_at_lower.
    + intros q Hq H. apply (Hmin q Hq). now apply ci_occurs_at_lower.
Qed.

Lemma ci_occurs_at_length (s t : str) (p : nat) :
  ci_occurs_at s t p -> (p + List.length t <= List.length s)%nat.
Proof.
  intros H. apply ci_occurs_at_lower, occurs_at_length in H.
  now rewrite !lower_length in H.
Qed.

(** With the anchor first found at [p], [near] tests the slice between
    [p - window] and [p + len a + window]. *)
Lemma near_at_first (text a b : str) (window : Z) (p : nat) :
  0 <= window ->
  ci_first_occurrence text a p ->
  (near text a b window = true <->
   exists q, ci_occurs_at text b q /\
             Z.of_nat p - window <= Z.of_nat q /\
             Z.of_nat q + len b <= Z.of_nat p + len a + window).
Proof.
  intros Hw Hfirst. unfold near.
  destruct (find_lower_spec text a) as [[_ Hno] | (p' & E & Hfirst')].
  { exfalso. exact (Hno p (proj1 Hfirst)). }
  assert (p' = p) as -> by eauto using ci_first_occurrence_unique.
  rewrite E. assert ((Z.of_nat p =? -1) = false) as -> by (apply Z.eqb_neq; lia).
  pose proof (ci_occurs_at_length _ _ _ (proj1 Hfirst)) as Hlen.
  unfold len. rewrite lower_length.
  pose (i := Z.to_nat (Z.max 0 (Z.of_nat p - window))).
  pose (j := Z.to_nat (Z.min (Z.of_nat (List.length text))
                         (Z.of_nat p + Z.of_nat (List.length a) + window))).
  assert (Hi : Z.max 0 (Z.of_nat p - window) = Z.of_nat i) by (subst i; lia).
  assert (Hj : Z.min (Z.of_nat (List.length text))
                 (Z.of_nat p + Z.of_nat (List.length a) + window) = Z.of_nat j)
    by (subst j; lia).
  rewrite Hi, Hj.
  assert (Hij : (i <= j <= List.length (lower text))%nat)
    by (rewrite lower_length; lia).
  rewrite slice_in_range by exact Hij.
  rewrite contains_iff, occurs_in_window by exact Hij.
  rewrite lower_length.
  split; intros (q & Hq & H1 & H2); exists q.
  - apply ci_occurs_at_lower in Hq. split; [exact Hq|]. lia.
  - pose proof (ci_occurs_at_length _ _ _ Hq) as Hqlen.
    split; [now apply ci_occurs_at_lower|]. lia.
Qed.

Lemma near_no_anchor (text a b : str) (window : Z) :
  (forall p, ~ ci_occurs_at text a p) -> near text a b window = false.
Proof.
  intros Hno. unfold near.
  destruct (find_lower_spec text a) as [[-> _] | (p & _ & Hp & _)].
  - reflexivity.
  - exfalso. exact (Hno p Hp).
Qed.

Lemma near_iff_within_window (text a b : str) (window : Z) :
  0 <= window -> (near text a b window = true <-> within_window text a b window).
Proof.
  intros Hw. unfold within_window.
  destruct (find_lower_spec text a) as [[_ Hno] | (p & _ & Hfirst)].
  - rewrite near_no_anchor by exact Hno. split; [discriminate|].
    intros (p & q & [Hp _] & _). exfalso. exact (Hno p Hp).
  - rewrite (near_at_first text a b window p Hw Hfirst). split.
    + intros (q & H). now exists p, q.
    + intros (p' & q & Hfirst' & H).
      assert (p' = p) as -> by eauto using ci_first_occurrence_unique.
      now exists q.
Qed.

(** C6. [near] is false when the anchor does not occur in the text (up to
    case); when it does, with first occurrence at index [p], [near] is true
    exactly when the term occurs (up to case) at some index [q] that is no
    more than [window] characters before the anchor's start and whose end is
    no more than [window] characters after the anchor's end.  Only the first
    occurrence of the anchor counts.  [window] is a number of characters,
    hence not negative. *)
Theorem near_spec (text a b : str) (window : Z) :
  0 <= window ->
  ((forall p, ~ ci_occurs_at text a p) -> near text a b window = false) /\
  (forall p, ci_first_occurrence text a p ->
     (near text a b window = true <->
      exists q, ci_occurs_at text b q /\
                Z.of_nat p - window <= Z.of_nat q /\
                Z.of_nat q + len b <= Z.of_nat p + len a + window)).
Proof.
  intros Hw. split.
  - apply near_no_anchor.
  - intros p Hp. now apply near_at_first.
Qed.

Lemma near_spec_witness :
  let text := lit "CXR reviewed. Later, a second cxr was done." in
  0 <= 10 /\
  ci_first_occurrence text (lit "cxr") 0 /\
  (near text (lit "cxr") (lit "done") 10 = true <->
   exists q, ci_occurs_at text (lit "done") q /\
             Z.of_nat 0 - 10 <= Z.of_nat q /\
             Z.of_nat q + len (lit "done")
             <= Z.of_nat 0 + len (lit "cxr") + 10).
Proof.
  cbv zeta.
  assert (Hw : 0 <= 10) by lia.
  assert (Hfirst : ci_first_occurrence
                     (lit "CXR reviewed. Later, a second cxr was done.")
                     (lit "cxr") 0).
  { split; [|intros q Hq; lia].
    exists [], (lit "CXR"), (lit " reviewed. Later, a second cxr was done.").
    repeat split. }
  split; [exact Hw|]. split; [exact Hfirst|].
  exact (proj2 (near_spec (lit "CXR reviewed. Later, a second cxr was done.")
                  (lit "cxr") (lit "done") 10 Hw) 0%nat Hfirst).
Defined.

(** Only the first occurrence of the anchor is looked at: here the second
    "cxr" has "done" right after it, and [near] is still false. *)
Example near_first_occurrence_only :
  near (lit "CXR reviewed. Later, a second cxr was done.")
       (lit "cxr") (lit "done") 10 = false /\
  near (lit "Later, a second cxr was done.") (lit "cxr") (lit "done") 10 = true.
Proof. split; reflexivity. Qed.

(** The stretch that [near] searches includes the anchor itself: a term
    that overlaps the anchor, or lies inside it, is within the window. *)
Example near_term_inside_anchor :
  near (lit "injection given") (lit "injection given") (lit "given") 0 = true.
Proof. reflexivity. Qed.

(** A negative window is outside the intended use: the bounds of the slice
    cross or wrap around the end of the text. *)
Example near_negative_window :
  near (lit "abcdefghij") (lit "a") (lit "f") (-5) = true.
Proof. reflexivity. Qed.

(** ** The rule engine, run symbolically *)

Lemma has_note_text (envelope : dict) (note : str) :
  has_note envelope note ->
  py_get (py_or (dict_get envelope (lit "clinical_note") VNone) (VDict []))
         (lit "text_preview") (VStr []) = Ok (VStr note).
Proof.
  intros (cn & Hcn & Hnote). unfold dict_get, py_or. rewrite Hcn.
  destruct cn as [|kv cn]; [discriminate|]. simpl truthy. cbv iota.
  unfold py_get, dict_get. now rewrite Hnote.
Qed.

Lemma has_note_envelope (note : str) : has_note (note_envelope note) note.
Proof. now exists [ (lit "text_preview", VStr note) ]. Qed.

Lemma present_one (low t : str) :
  present (lower low) [t] = contains (lower low) t.
Proof. unfold present. simpl. now rewrite lower_idem, andb_true_r. Qed.

Lemma existsb_pointwise {A} (f g : A -> bool) (l : list A) :
  (forall x, f x = g x) -> existsb f l = existsb g l.
Proof. intros H. induction l as [|x l IH]; simpl; [reflexivity | now rewrite H, IH]. Qed.

Lemma find_absent_iff (s t : str) : find s t = -1 <-> contains s t = false.
Proof.
  destruct (find_spec s t) as [[E Hno] | (p & E & Hp & _)]; rewrite E.
  - split; [intros _ | reflexivity].
    apply not_true_is_false. rewrite contains_iff. intros [p H]. exact (Hno p H).
  - assert (contains s t = true) as -> by (apply contains_iff; now exists p).
    split; [lia | discriminate].
Qed.

Lemma near_absent (low a b : str) (window : Z) :
  contains (lower low) (lower a) = false -> near low a b window = false.
Proof.
  intros H. unfold near. apply find_absent_iff in H. now rewrite H.
Qed.

Lemma py_lower_str (note : str) : py_lower (VStr note) = Ok (lower note).
Proof. reflexivity. Qed.

Lemma detect_performed_cxr_closed (note : str) :
  detect_performed_cxr (VStr note) =
  Ok (if imaging_fires (lower note)
      then (if any_of TWO_VIEW_PHRASES (lower note) then CPT_71046 else CPT_71045)
      else VNone).
Proof.
  unfold detect_performed_cxr. rewrite py_lower_str. cbn [rbind].
  set (low := lower note).
  assert (Hfires : imaging_fires low =
            existsb (fun h => near low (lit "x-ray") h 40 || near low (lit "xray") h 40
                              || near low (lit "cxr") h 40) PERFORMED_HINTS).
  { unfold imaging_fires. apply existsb_pointwise. intros h. simpl.
    now rewrite orb_false_r, orb_assoc. }
  rewrite <- Hfires.
  assert (Htwo : any_of TWO_VIEW_PHRASES low =
            contains low (lit "two views") || contains low (lit "2 views")
            || contains low (lit "pa and lateral")).
  { unfold any_of. simpl. now rewrite orb_false_r, orb_assoc. }
  rewrite <- Htwo.
  destruct (contains low (lit "x-ray") || contains low (lit "xray")
            || contains low (lit "cxr")) eqn:Hanchor.
  - destruct (imaging_fires low); [|reflexivity].
    destruct (any_of TWO_VIEW_PHRASES low); reflexivity.
  - apply orb_false_iff in Hanchor. destruct Hanchor as [Hanchor H3].
    apply orb_false_iff in Hanchor. destruct Hanchor as [H1 H2].
    assert (imaging_fires low = false) as ->; [|reflexivity].
    rewrite Hfires. unfold low in *.
    rewrite <- (existsb_pointwise (fun _ => false)).
    + reflexivity.
    + intros h. rewrite !near_absent; [reflexivity | | |];
        rewrite lower_idem; assumption.
Qed.

Lemma detect_nebulizer_and_drug_closed (note : str) :
  detect_nebulizer_and_drug (VStr note) =
  Ok (if nebulizer_fires (lower note) then CPT_94640 else VNone,
      if nebulizer_fires (lower note) && contains (lower note) (lit "albuterol")
      then HCPCS_J7613 else VNone).
Proof.
  unfold detect_nebulizer_and_drug. rewrite py_lower_str. cbn [rbind].
  set (low := lower note).
  assert (nebulizer_fires low =
          (contains low (lit "nebulizer") || contains low (lit "neb"))
          && existsb (fun h => contains low h) PERFORMED_HINTS) as <-.
  { unfold nebulizer_fires, any_of. simpl existsb at 1. now rewrite orb_false_r. }
  destruct (nebulizer_fires low); [|reflexivity].
  destruct (contains low (lit "albuterol")); reflexivity.
Qed.

Lemma detect_injection_and_drug_closed (note : str) :
  detect_injection_and_drug (VStr note) =
  Ok (if injection_fires (lower note) then CPT_96372 else VNone,
      if injection_fires (lower note)
      then (if contains (lower note) (lit "ceftriaxone") then HCPCS_J0696
            else if contains (lower note) (lit "dexamethasone") then HCPCS_J1100
            else VNone)
      else VNone).
Proof.
  unfold detect_injection_and_drug. rewrite py_lower_str. cbn [rbind].
  set (low := lower note).
  assert (injection_fires low =
          (contains low (lit "intramuscular") || contains low (lit "im injection")
           || contains low (lit "injection given") || contains low (lit "shot given"))
          && existsb (fun h => contains low h) PERFORMED_HINTS) as <-.
  { unfold injection_fires, any_of. simpl existsb at 1.
    now rewrite orb_false_r, !orb_assoc. }
  destruct (injection_fires low); [|reflexivity].
  destruct (contains low (lit "ceftriaxone")); [reflexivity|].
  destruct (contains low (lit "dexamethasone")); reflexivity.
Qed.

(** The result of [tiny_rules] on an envelope whose note text is [note]. *)
Lemma tiny_rules_run (envelope : dict) (note : str) :
  py_get (py_or (dict_get envelope (lit "clinical_note") VNone) (VDict []))
         (lit "text_preview") (VStr []) = Ok (VStr note) ->
  tiny_rules envelope =
  Ok (diagnoses_for (lower note), CPT_EM, procedures_for (lower note),
      supplies_for (lower note)).
Proof.
  intros H. unfold tiny_rules. rewrite H. cbn [rbind]. rewrite py_lower_str.
  cbn [rbind]. rewrite !present_one.
  rewrite detect_performed_cxr_closed, detect_nebulizer_and_drug_closed,
    detect_injection_and_drug_closed.
  cbn [rbind]. unfold diagnoses_for, procedures_for, supplies_for, principal_fires.
  set (low := lower note).
  f_equal. f_equal; [f_equal; [f_equal|]|].
  - destruct (contains low (lit "cough")), (contains low (lit "wheez")),
      (contains low (lit "shortness of breath")), (contains low (lit "fever")),
      (contains low (lit "azithromycin")); reflexivity.
  - destruct (imaging_fires low), (any_of TWO_VIEW_PHRASES low),
      (nebulizer_fires low), (injection_fires low); reflexivity.
  - destruct (nebulizer_fires low), (contains low (lit "albuterol")),
      (injection_fires low), (contains low (lit "ceftriaxone")),
      (contains low (lit "dexamethasone")); reflexivity.
Qed.

Lemma tiny_rules_note (envelope : dict) (note : str) :
  has_note envelope note ->
  tiny_rules envelope =
  Ok (diagnoses_for (lower note), CPT_EM, procedures_for (lower note),
      supplies_for (lower note)).
Proof. intros H. apply tiny_rules_run. now apply has_note_text. Qed.

(** ** From the boolean tests to occurrences *)

Lemma contains_substring (s t : str) :
  contains s t = true <-> substring_of t s.
Proof. apply contains_iff. Qed.

Lemma contains_lower_literal (note t : str) :
  lower t = t -> (contains (lower note) t = true <-> ci_occurs note t).
Proof. intros H. rewrite <- H at 1. apply contains_lower_iff. Qed.

Lemma any_of_mentions (terms : list str) (note : str) :
  Forall (fun t => lower t = t) terms ->
  (any_of terms (lower note) = true <-> mentions note terms).
Proof.
  intros Hlow. unfold any_of, mentions. rewrite existsb_exists.
  rewrite Forall_forall in Hlow.
  split; intros (t & Hin & H); exists t; (split; [exact Hin|]);
    now apply (contains_lower_literal note t (Hlow t Hin)).
Qed.

Lemma near_lower_text (text a b : str) (window : Z) :
  near (lower text) a b window = near text a b window.
Proof. unfold near. now rewrite lower_idem, len_lower. Qed.

Lemma imaging_fires_iff (note : str) :
  imaging_fires (lower note) = true <-> imaging_evidence note.
Proof.
  unfold imaging_fires, imaging_evidence. rewrite existsb_exists. split.
  - intros (h & Hh & H). apply existsb_exists in H. destruct H as (a & Ha & H).
    exists a, h. repeat split; [exact Ha | exact Hh |].
    rewrite near_lower_text in H. apply near_iff_within_window in H; [exact H | lia].
  - intros (a & h & Ha & Hh & H). exists h. split; [exact Hh|].
    apply existsb_exists. exists a. split; [exact Ha|].
    rewrite near_lower_text. apply near_iff_within_window; [lia | exact H].
Qed.

Lemma imaging_evidence_mentions (note : str) :
  imaging_evidence note -> mentions note IMAGING_ANCHORS.
Proof.
  intros (a & h & Ha & _ & p & q & [Hp _] & _). exists a. split; [exact Ha|].
  now exists p.
Qed.

Lemma in_when (c : bool) (x d : value) : In d (when c x) <-> c = true /\ d = x.
Proof.
  destruct c; simpl.
  - split; [intros [<- | []]; now split | intros [_ ->]; now left].
  - split; [intros [] | intros [H _]; discriminate].
Qed.

Lemma in_diagnoses_for (low : str) (d : value) :
  In d (diagnoses_for low) <->
  (principal_fires low = true /\ d = DX_J20_9) \/
  (contains low (lit "wheez") = true /\ d = DX_R06_2) \/
  (contains low (lit "shortness of breath") = true /\ d = DX_R06_02) \/
  (contains low (lit "fever") = true /\ d = DX_R50_9) \/
  (contains low (lit "cough") = true /\ d = DX_R05_9).
Proof. unfold diagnoses_for. rewrite !in_app_iff, !in_when. tauto. Qed.

Lemma principal_fires_iff (low : str) :
  principal_fires low = true <->
  substring_of (lit "cough") low /\
  (substring_of (lit "wheez") low \/ substring_of (lit "shortness of breath") low) /\
  (substring_of (lit "fever") low \/ substring_of (lit "azithromycin") low).
Proof.
  unfold principal_fires.
  rewrite !andb_true_iff, !orb_true_iff, !contains_substring. tauto.
Qed.

Ltac dx_cases H :=
  apply in_diagnoses_for in H;
  destruct H as [[? ->] | [[? ->] | [[? ->] | [[? ->] | [? ->]]]]].

(** C4. On a note text, the principal entry (J20.9, rank 1, confidence
    0.72) is in the diagnoses exactly when the lower-cased text contains
    "cough", and "wheez" or "shortness of breath", and "fever" or
    "azithromycin"; each of the four symptom entries (R06.2 rank 2 0.62,
    R06.02 rank 3 0.60, R50.9 rank 4 0.58, R05.9 rank 5 0.56) is there
    exactly when its own stem occurs, whatever the principal rule did. *)
Theorem diagnosis_rules (envelope : dict) (note : str) :
  has_note envelope note ->
  exists icd10 cpt_em procedures hcpcs,
    tiny_rules envelope = Ok (icd10, cpt_em, procedures, hcpcs) /\
    let low := lower note in
    ((exists d, In d icd10 /\ dx_entry "J20.9" 1 0.72 d) <->
     substring_of (lit "cough") low /\
     (substring_of (lit "wheez") low \/
      substring_of (lit "shortness of breath") low) /\
     (substring_of (lit "fever") low \/ substring_of (lit "azithromycin") low)) /\
    ((exists d, In d icd10 /\ dx_entry "R06.2" 2 0.62 d) <->
     substring_of (lit "wheez") low) /\
    ((exists d, In d icd10 /\ dx_entry "R06.02" 3 0.60 d) <->
     substring_of (lit "shortness of breath") low) /\
    ((exists d, In d icd10 /\ dx_entry "R50.9" 4 0.58 d) <->
     substring_of (lit "fever") low) /\
    ((exists d, In d icd10 /\ dx_entry "R05.9" 5 0.56 d) <->
     substring_of (lit "cough") low).
Proof.
  intros Hnote. rewrite (tiny_rules_note envelope note Hnote).
  do 4 eexists. split; [reflexivity|]. cbv zeta.
  rewrite <- principal_fires_iff, <- !contains_substring.
  repeat split.
  all: try (intros (d & Hin & Hcode & _); dx_cases Hin;
            first [assumption | discriminate Hcode]).
  - intros H. exists DX_J20_9. split; [|repeat split].
    apply in_diagnoses_for. left. now split.
  - intros H. exists DX_R06_2. split; [|repeat split].
    apply in_diagnoses_for. right. left. now split.
  - intros H. exists DX_R06_02. split; [|repeat split].
    apply in_diagnoses_for. right. right. left. now split.
  - intros H. exists DX_R50_9. split; [|repeat split].
    apply in_diagnoses_for. right. right. right. left. now split.
  - intros H. exists DX_R05_9. split; [|repeat split].
    apply in_diagnoses_for. right. right. right. right. now split.
Qed.

Lemma diagnosis_rules_witness :
  let note := lit "Cough and wheezing for 3 days, low-grade fever." in
  has_note (note_envelope note) note /\
  exists icd10 cpt_em procedures hcpcs,
    tiny_rules (note_envelope note) = Ok (icd10, cpt_em, procedures, hcpcs) /\
    (exists d, In d icd10 /\ dx_entry "J20.9" 1 0.72 d) /\
    ~ (exists d, In d icd10 /\ dx_entry "R06.02" 3 0.60 d).
Proof.
  cbv zeta. split; [apply has_note_envelope|].
  destruct (diagnosis_rules _ _
              (has_note_envelope
                 (lit "Cough and wheezing for 3 days, low-grade fever.")))
    as (icd10 & cpt_em & procedures & hcpcs & Hrun & HJ & _ & HS & _).
  exists icd10, cpt_em, procedures, hcpcs. split; [exact Hrun|]. split.
  - apply HJ. repeat split; [| left | left]; apply contains_substring;
      vm_compute; reflexivity.
  - intros H. apply HS, contains_substring in H. vm_compute in H. discriminate H.
Defined.

(** ** Imaging *)


Lemma lower_two_view_phrases : Forall (fun t => lower t = t) TWO_VIEW_PHRASES.
Proof. repeat constructor. Qed.

Lemma lower_injection_anchors : Forall (fun t => lower t = t) INJECTION_ANCHORS.
Proof. repeat constructor. Qed.

Lemma lower_performed_hints : Forall (fun t => lower t = t) PERFORMED_HINTS.
Proof. repeat constructor. Qed.

Lemma imaging_of_procedures (low : str) :
  filter is_imaging (procedures_for low) =
  when (imaging_fires low)
       (if any_of TWO_VIEW_PHRASES low then CPT_71046 else CPT_71045).
Proof.
  unfold procedures_for.
  destruct (imaging_fires low), (any_of TWO_VIEW_PHRASES low),
    (nebulizer_fires low), (injection_fires low); reflexivity.
Qed.

(** C5. Among the procedures of a note there is at most one imaging code
    (71045 or 71046).  There is one exactly when an imaging anchor occurs
    in the text and some performed-hint lies within 40 characters of the
    first occurrence of one of the anchors; it is 71046 when the text has
    a two-view phrase and 71045 otherwise.  The note "Chest X-ray
    performed, two views, clear." gives the single procedure 71046. *)
Theorem imaging_rule (envelope : dict) (note : str) :
  has_note envelope note ->
  exists icd10 cpt_em procedures hcpcs,
    tiny_rules envelope = Ok (icd10, cpt_em, procedures, hcpcs) /\
    let imaging := filter is_imaging procedures in
    (List.length imaging <= 1)%nat /\
    (imaging <> [] <->
     mentions note IMAGING_ANCHORS /\ imaging_evidence note) /\
    (imaging_evidence note -> mentions note TWO_VIEW_PHRASES ->
     exists p, imaging = [p] /\ has_code "71046" p = true) /\
    (imaging_evidence note -> ~ mentions note TWO_VIEW_PHRASES ->
     exists p, imaging = [p] /\ has_code "71045" p = true) /\
    (note = lit "Chest X-ray performed, two views, clear." ->
     exists p, procedures = [p] /\ has_code "71046" p = true).
Proof.
  intros Hnote. rewrite (tiny_rules_note envelope note Hnote).
  do 4 eexists. split; [reflexivity|]. cbv zeta.
  rewrite imaging_of_procedures.
  pose proof (imaging_fires_iff note) as Hfires.
  pose proof (any_of_mentions TWO_VIEW_PHRASES note lower_two_view_phrases) as Htwo.
  split; [|split; [split|split; [|split]]].
  - destruct (imaging_fires (lower note)); simpl; lia.
  - destruct (imaging_fires (lower note)); [|intros H; now elim H].
    intros _. split; [apply imaging_evidence_mentions|]; now apply Hfires.
  - intros [_ H]. apply Hfires in H. rewrite H. discriminate.
  - intros He Hm. apply Hfires in He. apply Htwo in Hm. rewrite He, Hm.
    now exists CPT_71046.
  - intros He Hm. apply Hfires in He. rewrite He.
    destruct (any_of TWO_VIEW_PHRASES (lower note)).
    + exfalso. apply Hm. now apply Htwo.
    + now exists CPT_71045.
  - intros ->. exists CPT_71046. split; vm_compute; reflexivity.
Qed.

Lemma imaging_rule_witness :
  let note := lit "Chest X-ray performed, two views, clear." in
  has_note (note_envelope note) note /\
  exists icd10 cpt_em procedures hcpcs,
    tiny_rules (note_envelope note) = Ok (icd10, cpt_em, procedures, hcpcs) /\
    exists p, procedures = [p] /\ has_code "71046" p = true.
Proof.
  cbv zeta. split; [apply has_note_envelope|].
  destruct (imaging_rule _ _
              (has_note_envelope (lit "Chest X-ray performed, two views, clear.")))
    as (icd10 & cpt_em & procedures & hcpcs & Hrun & _ & _ & _ & _ & H).
  exists icd10, cpt_em, procedures, hcpcs. split; [exact Hrun|].
  apply H. reflexivity.
Defined.

(** A recommendation with no performed-hint near the anchor gives no
    procedure. *)
Example recommended_only :
  tiny_rules
    (note_envelope (lit "Recommend chest X-ray and prescribe azithromycin."))
  = Ok ([], CPT_EM, [], []).
Proof. vm_compute. reflexivity. Qed.

(** A nebulizer treatment that was administered, with its drug. *)
Example nebulizer_with_albuterol :
  tiny_rules
    (note_envelope (lit "Nebulizer treatment administered with albuterol."))
  = Ok ([], CPT_EM, [CPT_94640], [HCPCS_J7613]).
Proof. vm_compute. reflexivity. Qed.

(** ** Injection *)

Lemma injection_drug_of_supplies (low : str) :
  filter is_injection_drug (supplies_for low) =
  when (injection_fires low && contains low (lit "ceftriaxone")) HCPCS_J0696
  ++ when (injection_fires low && negb (contains low (lit "ceftriaxone"))
           && contains low (lit "dexamethasone")) HCPCS_J1100.
Proof.
  unfold supplies_for.
  destruct (nebulizer_fires low), (contains low (lit "albuterol")),
    (injection_fires low), (contains low (lit "ceftriaxone")),
    (contains low (lit "dexamethasone")); reflexivity.
Qed.

Lemma injection_fires_iff (note : str) :
  injection_fires (lower note) = true <->
  mentions note INJECTION_ANCHORS /\ mentions note PERFORMED_HINTS.
Proof.
  unfold injection_fires. rewrite andb_true_iff.
  now rewrite (any_of_mentions _ _ lower_injection_anchors),
    (any_of_mentions _ _ lower_performed_hints).
Qed.

(** C7. When an injection anchor and a performed-hint both occur in the
    note, the procedures contain the injection code 96372, and the rule
    emits at most one drug supply: J0696 when "ceftriaxone" occurs
    (whether or not "dexamethasone" does), else J1100 when "dexamethasone"
    occurs, else none. *)
Theorem injection_rule (envelope : dict) (note : str) :
  has_note envelope note ->
  mentions note INJECTION_ANCHORS ->
  mentions note PERFORMED_HINTS ->
  exists icd10 cpt_em procedures hcpcs,
    tiny_rules envelope = Ok (icd10, cpt_em, procedures, hcpcs) /\
    (exists p, In p procedures /\ has_code "96372" p = true) /\
    let drugs := filter is_injection_drug hcpcs in
    (List.length drugs <= 1)%nat /\
    (ci_occurs note (lit "ceftriaxone") ->
     exists h, drugs = [h] /\ has_code "J0696" h = true) /\
    (~ ci_occurs note (lit "ceftriaxone") ->
     ci_occurs note (lit "dexamethasone") ->
     exists h, drugs = [h] /\ has_code "J1100" h = true) /\
    (~ ci_occurs note (lit "ceftriaxone") ->
     ~ ci_occurs note (lit "dexamethasone") -> drugs = []).
Proof.
  intros Hnote Hanchor Hhint. rewrite (tiny_rules_note envelope note Hnote).
  do 4 eexists. split; [reflexivity|]. cbv zeta.
  rewrite injection_drug_of_supplies.
  assert (Hfires : injection_fires (lower note) = true)
    by now apply injection_fires_iff.
  pose proof (contains_lower_literal note (lit "ceftriaxone") eq_refl) as Hc.
  pose proof (contains_lower_literal note (lit "dexamethasone") eq_refl) as Hd.
  rewrite Hfires. split; [|split; [|split; [|split]]].
  - exists CPT_96372. split; [|reflexivity].
    unfold procedures_for. rewrite Hfires, !in_app_iff. right. right. now left.
  - destruct (contains (lower note) (lit "ceftriaxone")),
      (contains (lower note) (lit "dexamethasone")); simpl; lia.
  - intros H. apply Hc in H. rewrite H. now exists HCPCS_J0696.
  - intros Hn H. apply Hd in H. rewrite H.
    destruct (contains (lower note) (lit "ceftriaxone")).
    + exfalso. apply Hn. now apply Hc.
    + now exists HCPCS_J1100.
  - intros Hn Hm.
    destruct (contains (lower note) (lit "ceftriaxone")).
    + exfalso. apply Hn. now apply Hc.
    + destruct (contains (lower note) (lit "dexamethasone")); [|reflexivity].
      exfalso. apply Hm. now apply Hd.
Qed.

Lemma mentions_intro (note t : str) (terms : list str) :
  In t terms -> contains (lower note) (lower t) = true -> mentions note terms.
Proof. intros Hin H. exists t. split; [exact Hin | now apply contains_lower_iff]. Qed.

Lemma injection_rule_witness :
  let note := lit "Ceftriaxone and dexamethasone IM injection given in clinic." in
  has_note (note_envelope note) note /\
  exists icd10 cpt_em procedures hcpcs,
    tiny_rules (note_envelope note) = Ok (icd10, cpt_em, procedures, hcpcs) /\
    (exists p, In p procedures /\ has_code "96372" p = true) /\
    exists h, filter is_injection_drug hcpcs = [h] /\ has_code "J0696" h = true.
Proof.
  cbv zeta. split; [apply has_note_envelope|].
  assert (Ha : mentions
                 (lit "Ceftriaxone and dexamethasone IM injection given in clinic.")
                 INJECTION_ANCHORS).
  { apply (mentions_intro _ (lit "im injection")); [simpl; auto | reflexivity]. }
  assert (Hh : mentions
                 (lit "Ceftriaxone and dexamethasone IM injection given in clinic.")
                 PERFORMED_HINTS).
  { apply (mentions_intro _ (lit "given")); [simpl; auto 10 | reflexivity]. }
  destruct (injection_rule _ _ (has_note_envelope _) Ha Hh)
    as (icd10 & cpt_em & procedures & hcpcs & Hrun & Hp & _ & Hc & _).
  exists icd10, cpt_em, procedures, hcpcs. split; [exact Hrun|].
  split; [exact Hp|]. apply Hc.
  apply contains_lower_iff. vm_compute. reflexivity.
Defined.

(** ** The visit code *)

Lemma envelope_shape_note (envelope : dict) :
  envelope_shape envelope = true ->
  py_get (py_or (dict_get envelope (lit "clinical_note") VNone) (VDict []))
         (lit "text_preview") (VStr []) = Ok (VStr (note_of envelope)).
Proof.
  unfold envelope_shape, note_of, absent_or, dict_get, py_or.
  intros H. apply andb_true_iff in H. destruct H as [H _].
  apply andb_true_iff in H. destruct H as [_ H].
  destruct (lookup envelope (lit "clinical_note")) as [v|]; [|reflexivity].
  destruct v as [| | | | |l|cn]; try discriminate H. cbn [is_object] in H.
  destruct cn as [|kv cn]; [reflexivity|]. cbn [truthy].
  unfold py_get, dict_get.
  destruct (lookup (kv :: cn) (lit "text_preview")) as [v|]; [|reflexivity].
  destruct v; try discriminate H. reflexivity.
Qed.

Lemma tiny_rules_shape (envelope : dict) :
  envelope_shape envelope = true ->
  tiny_rules envelope =
  Ok (diagnoses_for (lower (note_of envelope)), CPT_EM,
      procedures_for (lower (note_of envelope)),
      supplies_for (lower (note_of envelope))).
Proof. intros H. apply tiny_rules_run. now apply envelope_shape_note. Qed.

Lemma lower_symptom_stems : Forall (fun t => lower t = t) SYMPTOM_STEMS.
Proof. repeat constructor. Qed.

(** C8. For every envelope of the input contract [tiny_rules] returns, and
    its visit code is 99213 with assumed patient status "established" and
    confidence 0.58; when no symptom stem occurs in the note the diagnoses
    are empty and the visit code is there all the same. *)
Theorem visit_code_always (envelope : dict) :
  envelope_shape envelope = true ->
  exists icd10 cpt_em procedures hcpcs,
    tiny_rules envelope = Ok (icd10, cpt_em, procedures, hcpcs) /\
    cpt_em @> "code" = VStr (lit "99213") /\
    cpt_em @> "assumed_patient_status" = VStr (lit "established") /\
    cpt_em @> "confidence" = VFloat 0.58 /\
    (~ mentions (note_of envelope) SYMPTOM_STEMS -> icd10 = []).
Proof.
  intros Hshape. rewrite (tiny_rules_shape envelope Hshape).
  do 4 eexists. split; [reflexivity|].
  split; [reflexivity|]. split; [reflexivity|]. split; [reflexivity|].
  intros Hno.
  pose proof (any_of_mentions SYMPTOM_STEMS (note_of envelope)
                lower_symptom_stems) as Hm.
  destruct (any_of SYMPTOM_STEMS (lower (note_of envelope))) eqn:E.
  { exfalso. apply Hno. now apply Hm. }
  unfold any_of, SYMPTOM_STEMS in E. cbn [existsb] in E.
  rewrite orb_false_r in E.
  apply orb_false_iff in E. destruct E as [Hc E].
  apply orb_false_iff in E. destruct E as [Hw E].
  apply orb_false_iff in E. destruct E as [Hs Hf].
  unfold diagnoses_for, principal_fires. now rewrite Hc, Hw, Hs, Hf.
Qed.

Lemma visit_code_always_witness :
  let envelope := [ (lit "claim_id", VStr (lit "CLM-1")) ] in
  envelope_shape envelope = true /\
  exists icd10 cpt_em procedures hcpcs,
    tiny_rules envelope = Ok (icd10, cpt_em, procedures, hcpcs) /\
    cpt_em @> "code" = VStr (lit "99213") /\ icd10 = [].
Proof.
  cbv zeta. split; [reflexivity|].
  destruct (visit_code_always [ (lit "claim_id", VStr (lit "CLM-1")) ] eq_refl)
    as (icd10 & cpt_em & procedures & hcpcs & Hrun & Hcode & _ & _ & Hempty).
  exists icd10, cpt_em, procedures, hcpcs. split; [exact Hrun|].
  split; [exact Hcode|]. apply Hempty.
  intros (t & Hin & p & pre & mid & post & Htext & _ & Hmid).
  simpl in Htext. destruct pre; [|discriminate Htext].
  destruct mid; [|discriminate Htext].
  simpl in Hin. destruct Hin as [<- | [<- | [<- | [<- | []]]]]; discriminate Hmid.
Defined.

(** ** Order of the diagnoses *)

Lemma principal_needs_cough (low : str) :
  principal_fires low = true -> contains low (lit "cough") = true.
Proof.
  unfold principal_fires. intros H.
  apply andb_true_iff in H. destruct H as [H _].
  apply andb_true_iff in H. now destruct H as [H _].
Qed.

(** C10. The diagnoses of a note come in the rule order J20.9, R06.2,
    R06.02, R50.9, R05.9, each at most once: rank grows and confidence
    falls strictly from each entry to the next; and when a J20.9 entry is
    present, an R05.9 entry follows it later in the list. *)
Theorem diagnoses_ordered (envelope : dict) (note : str) :
  has_note envelope note ->
  exists icd10 cpt_em procedures hcpcs,
    tiny_rules envelope = Ok (icd10, cpt_em, procedures, hcpcs) /\
    subsequence icd10 DX_ORDER same_code = true /\
    chain rank_ltb icd10 = true /\
    chain confidence_gtb icd10 = true /\
    ((exists d, In d icd10 /\ has_code "J20.9" d = true) ->
     exists before d between e after,
       icd10 = before ++ d :: between ++ e :: after /\
       has_code "J20.9" d = true /\ has_code "R05.9" e = true).
Proof.
  intros Hnote. rewrite (tiny_rules_note envelope note Hnote).
  do 4 eexists. split; [reflexivity|].
  set (low := lower note).
  assert (Hsorted :
            subsequence (diagnoses_for low) DX_ORDER same_code = true /\
            chain rank_ltb (diagnoses_for low) = true /\
            chain confidence_gtb (diagnoses_for low) = true).
  { unfold diagnoses_for.
    destruct (principal_fires low), (contains low (lit "wheez")),
      (contains low (lit "shortness of breath")), (contains low (lit "fever")),
      (contains low (lit "cough")); vm_compute; auto. }
  destruct Hsorted as (H1 & H2 & H3).
  split; [exact H1|]. split; [exact H2|]. split; [exact H3|].
  intros (d & Hin & Hcode).
  assert (Hp : principal_fires low = true).
  { dx_cases Hin; first [assumption | discriminate Hcode]. }
  pose proof (principal_needs_cough low Hp) as Hc.
  exists [], DX_J20_9,
    (when (contains low (lit "wheez")) DX_R06_2
     ++ when (contains low (lit "shortness of breath")) DX_R06_02
     ++ when (contains low (lit "fever")) DX_R50_9),
    DX_R05_9, [].
  split; [|split; reflexivity].
  unfold diagnoses_for. rewrite Hp, Hc. simpl. now rewrite <- !app_assoc.
Qed.

Lemma diagnoses_ordered_witness :
  let note := lit "Cough and wheezing for 3 days, low-grade fever." in
  has_note (note_envelope note) note /\
  exists icd10 cpt_em procedures hcpcs,
    tiny_rules (note_envelope note) = Ok (icd10, cpt_em, procedures, hcpcs) /\
    chain rank_ltb icd10 = true /\ chain confidence_gtb icd10 = true.
Proof.
  cbv zeta. split; [apply has_note_envelope|].
  destruct (diagnoses_ordered _ _
              (has_note_envelope
                 (lit "Cough and wheezing for 3 days, low-grade fever.")))
    as (icd10 & cpt_em & procedures & hcpcs & Hrun & _ & Hr & Hc & _).
  exists icd10, cpt_em, procedures, hcpcs. now repeat split.
Defined.

(** ** Dicts *)

Lemma str_eqb_eq (a b : str) : str_eqb a b = true <-> a = b.
Proof.
  revert b; induction a as [|c a IH]; intros [|d b]; simpl.
  - tauto.
  - split; discriminate.
  - split; discriminate.
  - rewrite andb_true_iff, Ascii.eqb_eq, IH.
    split; [intros [-> ->]; reflexivity | intros [= -> ->]; now split].
Qed.

Lemma str_eqb_refl (a : str) : str_eqb a a = true.
Proof. now apply str_eqb_eq. Qed.

Lemma lookup_dict_set_same (d : dict) (k : str) (v : value) :
  lookup (dict_set d k v) k = Some v.
Proof.
  induction d as [|[k' v'] d IH]; simpl.
  - now rewrite str_eqb_refl.
  - destruct (str_eqb k' k) eqn:E; simpl; rewrite E; [reflexivity | exact IH].
Qed.

Lemma lookup_dict_set_other (d : dict) (k k' : str) (v : value) :
  str_eqb k k' = false -> lookup (dict_set d k v) k' = lookup d k'.
Proof.
  intros Hne. induction d as [|[k0 v0] d IH]; simpl.
  - now rewrite Hne.
  - destruct (str_eqb k0 k) eqn:E; simpl.
    + apply str_eqb_eq in E. subst k0. now rewrite Hne.
    + now rewrite IH.
Qed.

Lemma append_at_ok (d : dict) (k : str) (x : value) (l : list value) :
  lookup d k = Some (VList l) ->
  append_at d k x = Ok (dict_set d k (VList (l ++ [x]))).
Proof. intros H. unfold append_at, py_getitem. now rewrite H. Qed.

(** ** The monad *)

Lemma bind_ok {A B} (m : M A) (k : A -> M B) (w w' : world) (a : A) :
  m w = Ok (a, w') -> bind m k w = k a w'.
Proof. intros H. unfold bind. now rewrite H. Qed.

Lemma bind_lift_ok {A B} (r : result A) (k : A -> M B) (w : world) (a : A) :
  r = Ok a -> bind (lift r) k w = k a w.
Proof. intros ->. reflexivity. Qed.

Lemma is_coded_inv (c : value) :
  is_coded c = true ->
  exists d code, c = VDict d /\ lookup d (lit "code") = Some code.
Proof.
  destruct c as [| | | | | |d]; try discriminate. unfold is_coded.
  destruct (lookup d (lit "code")) as [code|] eqn:E; [|discriminate].
  intros _. now exists d, code.
Qed.

Lemma is_object_inv (ok : dict -> bool) (d : dict) (k : string) (default : dict) :
  absent_or (is_object ok) d k = true ->
  exists o, dict_get d (lit k) (VDict default) = VDict o /\
            (o = default \/ ok o = true).
Proof.
  unfold absent_or, dict_get. destruct (lookup d (lit k)) as [v|].
  - destruct v; try discriminate. intros H. eexists. split; [reflexivity | now right].
  - intros _. exists default. split; [reflexivity | now left].
Qed.

(** ** The resource builders *)

Section BuilderFacts.

Variable py_str : value -> str.

Lemma sex_value (p : dict) :
  absent_or is_str p "sex" = true ->
  dict_get p (lit "sex") (VStr []) = VStr (sex_of (VDict p)).
Proof.
  unfold absent_or, sex_of, get_or, dict_get.
  destruct (lookup p (lit "sex")) as [v|]; [|reflexivity].
  destruct v; try discriminate. reflexivity.
Qed.

Lemma make_patient_ok (pat_id : str) (p : dict) :
  absent_or is_str p "sex" = true ->
  exists r,
    make_patient pat_id (VDict p) = Ok r /\
    r @> "resourceType" = VStr (lit "Patient") /\
    r @> "id" = VStr pat_id /\
    r @> "gender"
    = VStr (gender_get GENDER_MAP (upper (sex_of (VDict p))) (lit "unknown")) /\
    item_at 0 (r @> "identifier") @> "value" = dict_get p (lit "mrn") (VStr []) /\
    item_at 0 (r @> "name") @> "family" = dict_get p (lit "last_name") (VStr []) /\
    item_at 0 (r @> "name") @> "given"
    = VList [ dict_get p (lit "first_name") (VStr []) ] /\
    r @> "birthDate" = dict_get p (lit "dob") (VStr []).
Proof.
  intros Hsex. unfold make_patient, py_get. cbn [rbind].
  rewrite (sex_value p Hsex). cbn [py_upper rbind].
  eexists. split; [reflexivity|]. repeat split.
Qed.

Lemma make_encounter_ok (pat_id enc_id : str) (e : dict) :
  exists r,
    make_encounter pat_id enc_id (VDict e) = Ok r /\
    r @> "resourceType" = VStr (lit "Encounter") /\
    r @> "id" = VStr enc_id /\
    r @> "subject" @> "reference" = VStr (lit "Patient/" ++ pat_id) /\
    r @> "period" @> "start" = dict_get e (lit "date") VNone /\
    r @> "period" @> "end" = dict_get e (lit "date") VNone /\
    r @> "serviceProvider" @> "identifier" @> "value"
    = dict_get e (lit "location_npi") (VStr []).
Proof.
  unfold make_encounter, py_get. cbn [rbind].
  eexists. split; [reflexivity|]. repeat split.
Qed.

Lemma make_condition_ok (pat_id enc_id cond_id : str) (d : value) :
  is_coded d = true ->
  exists r,
    make_condition py_str pat_id enc_id cond_id d = Ok r /\
    r @> "resourceType" = VStr (lit "Condition") /\
    r @> "id" = VStr cond_id /\
    r @> "subject" @> "reference" = VStr (lit "Patient/" ++ pat_id) /\
    r @> "encounter" @> "reference" = VStr (lit "Encounter/" ++ enc_id).
Proof.
  intros Hd. apply is_coded_inv in Hd. destruct Hd as (o & code & -> & Hcode).
  unfold make_condition, py_get, py_getitem. rewrite Hcode. cbn [rbind].
  eexists. split; [reflexivity|]. repeat split.
Qed.

Lemma make_item_ok (claim : dict) (c : value) (default_system : str)
    (e : dict) (enc_id : str) (lines : list value) :
  lookup claim (lit "item") = Some (VList lines) ->
  is_coded c = true ->
  exists line,
    make_item claim c default_system (VDict e) enc_id = Ok line /\
    line @> "sequence" = VInt (Z.of_nat (List.length lines) + 1) /\
    line_for (VDict e) enc_id c line.
Proof.
  intros Hitem Hc. apply is_coded_inv in Hc. destruct Hc as (o & code & -> & Hcode).
  unfold make_item, py_get, py_getitem. rewrite Hitem, Hcode. cbn [rbind py_len].
  eexists. split; [reflexivity|]. split; [reflexivity|].
  unfold line_for, get, dict_get. rewrite Hcode. repeat split.
Qed.

Lemma make_procedure_ok (i : Z) (p : value) (e : dict) :
  is_coded p = true ->
  exists entry,
    make_procedure i p (VDict e) = Ok entry /\
    entry @> "sequence" = VInt i /\
    procedure_code entry = p @> "code" /\
    entry @> "date" = dict_get e (lit "date") VNone.
Proof.
  intros Hp. apply is_coded_inv in Hp. destruct Hp as (o & code & -> & Hcode).
  unfold make_procedure, py_get, py_getitem. rewrite Hcode. cbn [rbind].
  assert (Hget : VDict o @> "code" = code)
    by (unfold get, dict_get; now rewrite Hcode).
  rewrite Hget. eexists. split; [reflexivity|]. repeat split.
Qed.

Lemma claim_frame_refl (claim : dict) : claim_frame claim claim.
Proof. intros k _ _ _. reflexivity. Qed.

Lemma claim_frame_trans (a b c : dict) :
  claim_frame a b -> claim_frame b c -> claim_frame a c.
Proof. intros Hab Hbc k H1 H2 H3. now rewrite Hbc, Hab. Qed.

Lemma claim_frame_item (claim : dict) (v : value) :
  claim_frame claim (dict_set claim (lit "item") v).
Proof. intros k _ H _. now apply lookup_dict_set_other. Qed.

Lemma claim_frame_procedure (claim : dict) (v : value) :
  claim_frame claim (dict_set claim (lit "procedure") v).
Proof. intros k H _ _. now apply lookup_dict_set_other. Qed.

Lemma claim_frame_info (claim : dict) (v : value) :
  claim_frame claim (dict_set claim (lit "supportingInfo") v).
Proof. intros k _ _ H. now apply lookup_dict_set_other. Qed.

Lemma frame_get (claim claim' : dict) (k : string) :
  claim_frame claim claim' ->
  str_eqb (lit "procedure") (lit k) = false ->
  str_eqb (lit "item") (lit k) = false ->
  str_eqb (lit "supportingInfo") (lit k) = false ->
  VDict claim' @> k = VDict claim @> k.
Proof. intros H H1 H2 H3. unfold get, dict_get. now rewrite (H _ H1 H2 H3). Qed.

Lemma make_claim_ok (envelope : dict) (pat_id clm_id : str) (p e m : dict)
    (claim_id_input : value) (created : str) (claim_diagnosis : list value) :
  dict_get envelope (lit "meta") (VDict []) = VDict m ->
  exists claim,
    make_claim py_str envelope pat_id clm_id (VDict p) (VDict e)
      claim_id_input created claim_diagnosis = Ok claim /\
    (VDict claim @> "resourceType" = VStr (lit "Claim") /\
     VDict claim @> "id" = VStr clm_id /\
     VDict claim @> "patient" @> "reference" = VStr (lit "Patient/" ++ pat_id) /\
     VDict claim @> "diagnosis" = VList claim_diagnosis /\
     VDict claim @> "enterer" @> "identifier" @> "value"
     = dict_get e (lit "provider_npi") (VStr []) /\
     VDict claim @> "insurer" @> "display"
     = dict_get p (lit "payer_name") (VStr []) /\
     item_at 0 (item_at 0 (VDict claim @> "extension") @> "extension")
       @> "valueString" = VStr (py_str claim_id_input) /\
     item_at 1 (item_at 0 (VDict claim @> "extension") @> "extension")
       @> "valueString" = VStr (py_str (dict_get m (lit "source") (VStr [])))) /\
    lookup claim (lit "procedure") = Some (VList []) /\
    lookup claim (lit "item") = Some (VList []) /\
    lookup claim (lit "supportingInfo") = Some (VList []).
Proof.
  intros Hm. unfold make_claim. rewrite Hm. unfold py_get. cbn [rbind].
  eexists. split; [reflexivity|]. repeat split.
Qed.

Lemma is_visit_code_inv (cpt_em : value) :
  is_visit_code cpt_em = true ->
  is_coded cpt_em = true /\ em_present cpt_em = Ok true.
Proof.
  destruct cpt_em as [| | | | | |d]; try discriminate.
  unfold is_visit_code, is_coded, em_present, py_get, dict_get.
  destruct (lookup d (lit "code")) as [v|] eqn:E; [|discriminate].
  intros Hv. split; [reflexivity|].
  destruct d as [|kv d]; [discriminate E|]. cbn [truthy rbind]. now rewrite Hv.
Qed.

Lemma add_em_ok (claim : dict) (cpt_em : value) (e : dict) (enc_id : str) :
  is_visit_code cpt_em = true ->
  lookup claim (lit "item") = Some (VList []) ->
  lookup claim (lit "supportingInfo") = Some (VList []) ->
  exists claim' line info,
    add_em py_str claim cpt_em (VDict e) enc_id = Ok claim' /\
    lookup claim' (lit "item") = Some (VList [line]) /\
    lookup claim' (lit "supportingInfo") = Some (VList [info]) /\
    lookup claim' (lit "procedure") = lookup claim (lit "procedure") /\
    claim_frame claim claim' /\
    line @> "sequence" = VInt 1 /\
    line_for (VDict e) enc_id cpt_em line.
Proof.
  intros Hem Hitem Hinfo.
  destruct (is_visit_code_inv cpt_em Hem) as [Hcoded Hgo].
  destruct (make_item_ok claim cpt_em CPT_SYSTEM e enc_id [] Hitem Hcoded)
    as (line & Hline & Hseq & Hfor).
  unfold add_em. rewrite Hgo. cbn [rbind]. rewrite Hline. cbn [rbind].
  rewrite (append_at_ok _ _ _ _ Hitem). cbn [rbind app].
  set (claim1 := dict_set claim (lit "item") (VList [line])).
  assert (Hinfo1 : lookup claim1 (lit "supportingInfo") = Some (VList [])).
  { unfold claim1. rewrite lookup_dict_set_other; [exact Hinfo | reflexivity]. }
  destruct (is_coded_inv cpt_em Hcoded) as (d & code & -> & _).
  unfold make_supporting_info, py_getitem, py_get. rewrite Hinfo1.
  cbn [rbind py_len]. rewrite (append_at_ok _ _ _ _ Hinfo1). cbn [app].
  do 3 eexists. split; [reflexivity|].
  split.
  { rewrite lookup_dict_set_other by reflexivity. apply lookup_dict_set_same. }
  split; [apply lookup_dict_set_same|].
  split.
  { rewrite lookup_dict_set_other by reflexivity.
    unfold claim1. now rewrite lookup_dict_set_other by reflexivity. }
  split.
  { eapply claim_frame_trans; [apply claim_frame_item | apply claim_frame_info]. }
  split; [exact Hseq | exact Hfor].
Qed.

Lemma run_from_app (first n m : nat) :
  run_from first (n + m) = run_from first n ++ run_from (first + n) m.
Proof. unfold run_from. now rewrite seq_app, map_app. Qed.

Lemma run_from_cons (first n : nat) :
  run_from first (S n) = VInt (Z.of_nat first) :: run_from (S first) n.
Proof. reflexivity. Qed.

(** The loop over the procedures. *)
Lemma procedure_loop (e : dict) (enc_id : str) (w : world)
    (procedures : list value) :
  forallb is_coded procedures = true ->
  forall (i : nat) (claim : dict) (entries lines : list value),
    lookup claim (lit "procedure") = Some (VList entries) ->
    lookup claim (lit "item") = Some (VList lines) ->
    exists claim' new_entries new_lines,
      for_enumerate (procedure_step (VDict e) enc_id) (Z.of_nat i) procedures
        claim w = Ok (claim', w) /\
      lookup claim' (lit "procedure") = Some (VList (entries ++ new_entries)) /\
      lookup claim' (lit "item") = Some (VList (lines ++ new_lines)) /\
      lookup claim' (lit "supportingInfo") = lookup claim (lit "supportingInfo") /\
      claim_frame claim claim' /\
      map procedure_code new_entries = map (get "code") procedures /\
      map (get "sequence") new_entries = run_from i (List.length procedures) /\
      map (get "sequence") new_lines
      = run_from (S (List.length lines)) (List.length procedures) /\
      Forall2 (line_for (VDict e) enc_id) procedures new_lines.
Proof.
  induction procedures as [|p procedures IH]; intros Hall i claim entries lines Hp Hi.
  - exists claim, [], []. cbn [for_enumerate]. rewrite !app_nil_r.
    repeat split;
      first [assumption | apply claim_frame_refl | constructor | reflexivity].
  - cbn [forallb] in Hall. apply andb_true_iff in Hall. destruct Hall as [Hc Hall].
    destruct (make_procedure_ok (Z.of_nat i) p e Hc) as (entry & Hentry & Hes & Hec & _).
    set (claim1 := dict_set claim (lit "procedure") (VList (entries ++ [entry]))).
    assert (Hi1 : lookup claim1 (lit "item") = Some (VList lines)).
    { unfold claim1. rewrite lookup_dict_set_other; [exact Hi | reflexivity]. }
    destruct (make_item_ok claim1 p CPT_SYSTEM e enc_id lines Hi1 Hc)
      as (line & Hline & Hls & Hfor).
    set (claim2 := dict_set claim1 (lit "item") (VList (lines ++ [line]))).
    assert (Hstep : procedure_step (VDict e) enc_id (Z.of_nat i) p claim w
                    = Ok (claim2, w)).
    { unfold procedure_step, lift. rewrite Hentry. cbn [rbind].
      rewrite (append_at_ok _ _ _ _ Hp). cbn [rbind]. fold claim1.
      rewrite Hline. cbn [rbind]. now rewrite (append_at_ok _ _ _ _ Hi1). }
    assert (Hp2 : lookup claim2 (lit "procedure") = Some (VList (entries ++ [entry]))).
    { unfold claim2. rewrite lookup_dict_set_other by reflexivity.
      apply lookup_dict_set_same. }
    assert (Hi2 : lookup claim2 (lit "item") = Some (VList (lines ++ [line])))
      by apply lookup_dict_set_same.
    destruct (IH Hall (S i) claim2 _ _ Hp2 Hi2)
      as (claim' & new_entries & new_lines & Hrun & Hp' & Hi' & Hs' & Hf' & Hcodes
          & Hseqs & Hlseqs & Hlines).
    exists claim', (entry :: new_entries), (line :: new_lines).
    cbn [for_enumerate]. rewrite (bind_ok _ _ _ _ _ Hstep).
    replace (Z.of_nat i + 1) with (Z.of_nat (S i)) by lia.
    split; [exact Hrun|].
    split; [now rewrite Hp', <- app_assoc|].
    split; [now rewrite Hi', <- app_assoc|].
    split.
    { rewrite Hs'. unfold claim2, claim1.
      now rewrite !lookup_dict_set_other by reflexivity. }
    split.
    { eapply claim_frame_trans; [|exact Hf'].
      eapply claim_frame_trans; [apply claim_frame_procedure | apply claim_frame_item]. }
    split; [cbn [map]; now rewrite Hec, Hcodes|].
    split; [cbn [map List.length]; now rewrite run_from_cons, Hes, Hseqs|].
    split.
    { cbn [map List.length]. rewrite run_from_cons, Hls, Hlseqs.
      rewrite length_app. cbn [List.length].
      f_equal; [f_equal; lia | f_equal; lia]. }
    constructor; assumption.
Qed.

(** The loop over the supplies. *)
Lemma supply_loop (e : dict) (enc_id : str) (w : world) (hcpcs : list value) :
  forallb is_coded hcpcs = true ->
  forall (claim : dict) (lines : list value),
    lookup claim (lit "item") = Some (VList lines) ->
    exists claim' new_lines,
      for_each (supply_step (VDict e) enc_id) hcpcs claim w = Ok (claim', w) /\
      lookup claim' (lit "item") = Some (VList (lines ++ new_lines)) /\
      lookup claim' (lit "procedure") = lookup claim (lit "procedure") /\
      lookup claim' (lit "supportingInfo") = lookup claim (lit "supportingInfo") /\
      claim_frame claim claim' /\
      map (get "sequence") new_lines
      = run_from (S (List.length lines)) (List.length hcpcs) /\
      Forall2 (line_for (VDict e) enc_id) hcpcs new_lines.
Proof.
  induction hcpcs as [|h hcpcs IH]; intros Hall claim lines Hi.
  - exists claim, []. cbn [for_each]. rewrite app_nil_r.
    repeat split;
      first [assumption | apply claim_frame_refl | constructor | reflexivity].
  - cbn [forallb] in Hall. apply andb_true_iff in Hall. destruct Hall as [Hc Hall].
    destruct (make_item_ok claim h HCPCS_SYSTEM e enc_id lines Hi Hc)
      as (line & Hline & Hls & Hfor).
    set (claim1 := dict_set claim (lit "item") (VList (lines ++ [line]))).
    assert (Hstep : supply_step (VDict e) enc_id h claim w = Ok (claim1, w)).
    { unfold supply_step, lift. rewrite Hline. cbn [rbind].
      now rewrite (append_at_ok _ _ _ _ Hi). }
    assert (Hi1 : lookup claim1 (lit "item") = Some (VList (lines ++ [line])))
      by apply lookup_dict_set_same.
    destruct (IH Hall claim1 _ Hi1)
      as (claim' & new_lines & Hrun & Hi' & Hp' & Hs' & Hf' & Hseqs & Hlines).
    exists claim', (line :: new_lines).
    cbn [for_each]. rewrite (bind_ok _ _ _ _ _ Hstep).
    split; [exact Hrun|].
    split; [now rewrite Hi', <- app_assoc|].
    split; [rewrite Hp'; unfold claim1; now rewrite lookup_dict_set_other by reflexivity|].
    split; [rewrite Hs'; unfold claim1; now rewrite lookup_dict_set_other by reflexivity|].
    split; [eapply claim_frame_trans; [apply claim_frame_item | exact Hf']|].
    split.
    { cbn [map List.length]. rewrite run_from_cons, Hls, Hseqs.
      rewrite length_app. cbn [List.length].
      f_equal; [f_equal; lia | f_equal; lia]. }
    constructor; assumption.
Qed.

Lemma bind_uuid {B} (k : str -> M B) (w : world) :
  bind uuid4_hex8 k w = k (uuid_hex8 w (uuid_reads w)) (tick_uuid w).
Proof. reflexivity. Qed.

Lemma bind_utcnow {B} (k : str -> M B) (w : world) :
  bind utcnow_str k w = k (utcnow w (clock_reads w)) (tick_clock w).
Proof. reflexivity. Qed.

(** The loop over the diagnoses. *)
Lemma condition_loop (pat_id enc_id : str) (icd10 : list value) :
  forallb is_coded icd10 = true ->
  forall (i : Z) (w : world) (condition_entries claim_diagnosis : list value),
    exists w' conds diags,
      for_enumerate (condition_step py_str pat_id enc_id) i icd10
        (condition_entries, claim_diagnosis) w
      = Ok ((condition_entries ++ map entry_of conds, claim_diagnosis ++ diags), w') /\
      Forall2 (condition_link pat_id enc_id) conds diags /\
      List.length conds = List.length icd10.
Proof.
  induction icd10 as [|d icd10 IH]; intros Hall i w ces cds.
  - exists w, [], []. cbn [for_enumerate map]. rewrite !app_nil_r.
    repeat split; constructor.
  - cbn [forallb] in Hall. apply andb_true_iff in Hall. destruct Hall as [Hd Hall].
    set (cond_id := lit "cond-" ++ uuid_hex8 w (uuid_reads w)).
    destruct (make_condition_ok pat_id enc_id cond_id d Hd)
      as (c & Hc & Htype & Hid & Hsubject & Hencounter).
    destruct (IH Hall (i + 1) (tick_uuid w) (ces ++ [entry_of c])
                (cds ++ [make_claim_diagnosis i cond_id]))
      as (w' & conds & diags & Hrun & Hlinks & Hlen).
    exists w', (c :: conds), (make_claim_diagnosis i cond_id :: diags).
    split.
    + cbn [for_enumerate]. unfold condition_step at 1.
      unfold bind at 1. rewrite bind_uuid. fold cond_id.
      rewrite (bind_lift_ok _ _ _ _ Hc). unfold ret.
      fold (entry_of c). rewrite Hrun. cbn [map]. now rewrite <- !app_assoc.
    + split; [|cbn [List.length]; now rewrite Hlen].
      constructor; [|exact Hlinks].
      repeat split; try assumption. exists cond_id. now split.
Qed.

Lemma shape_objects (envelope : dict) :
  envelope_shape envelope = true ->
  exists p e m,
    patient_of envelope = VDict p /\ absent_or is_str p "sex" = true /\
    encounter_of envelope = VDict e /\ meta_of envelope = VDict m.
Proof.
  unfold envelope_shape. intros H.
  apply andb_true_iff in H. destruct H as [H Hm].
  apply andb_true_iff in H. destruct H as [H _].
  apply andb_true_iff in H. destruct H as [Hp He].
  apply (is_object_inv _ _ _ []) in Hp, He, Hm.
  destruct Hp as (p & Hp & Hsex), He as (e & He & _), Hm as (m & Hm & _).
  exists p, e, m. repeat split; try assumption.
  destruct Hsex as [-> | Hsex]; [reflexivity | exact Hsex].
Qed.

Lemma map_resource_entries (rs : list value) :
  map (get "resource") (map entry_of rs) = rs.
Proof. rewrite map_map. now rewrite <- (map_id rs) at 2. Qed.

(** [build_fhir_bundle] returns, and its bundle has the layout. *)
Lemma build_layout (envelope : dict) (icd10 : list value) (cpt_em : value)
    (procedures hcpcs : list value) (w : world) :
  envelope_shape envelope = true ->
  forallb is_coded icd10 = true ->
  is_visit_code cpt_em = true ->
  forallb is_coded procedures = true ->
  forallb is_coded hcpcs = true ->
  exists bundle w',
    build_fhir_bundle py_str envelope icd10 cpt_em procedures hcpcs w
    = Ok (bundle, w') /\
    layout py_str envelope icd10 cpt_em procedures hcpcs bundle.
Proof.
  intros Hshape Hicd Hem Hprocs Hsup.
  destruct (shape_objects envelope Hshape) as (p & e & m & Hp & Hsex & He & Hm).
  unfold build_fhir_bundle. rewrite !bind_uuid. cbv beta zeta.
  set (pat_id := lit "pat-" ++ uuid_hex8 w (uuid_reads w)).
  set (enc_id := lit "enc-" ++ uuid_hex8 (tick_uuid w) (uuid_reads (tick_uuid w))).
  set (clm_id := lit "clm-" ++ uuid_hex8 (tick_uuid (tick_uuid w))
                               (uuid_reads (tick_uuid (tick_uuid w)))).
  set (w3 := tick_uuid (tick_uuid (tick_uuid w))).
  fold (patient_of envelope). fold (encounter_of envelope). rewrite Hp, He.
  destruct (make_patient_ok pat_id p Hsex) as (pat & Hpat & Hpat_facts).
  destruct (make_encounter_ok pat_id enc_id e) as (enc & Henc & Henc_facts).
  rewrite (bind_lift_ok _ _ _ _ Hpat), (bind_lift_ok _ _ _ _ Henc).
  destruct (condition_loop pat_id enc_id icd10 Hicd 1 w3 [] [])
    as (w4 & conds & diags & Hloop & Hlinks & Hlen).
  rewrite (bind_ok _ _ _ _ _ Hloop). cbv beta iota zeta. cbn [app].
  rewrite bind_utcnow.
  destruct (make_claim_ok envelope pat_id clm_id p e m
              (py_or (dict_get envelope (lit "claim_id") VNone) (VStr clm_id))
              (utcnow w4 (clock_reads w4)) diags Hm)
    as (claim0 & Hclaim0 & Hfacts0 & Hp0 & Hi0 & Hs0).
  rewrite (bind_lift_ok _ _ _ _ Hclaim0).
  destruct (add_em_ok claim0 cpt_em e enc_id Hem Hi0 Hs0)
    as (claim1 & line & info & Hadd & Hi1 & Hs1 & Hp1 & Hf1 & Hseq1 & Hline1).
  rewrite (bind_lift_ok _ _ _ _ Hadd).
  rewrite Hp0 in Hp1.
  destruct (procedure_loop e enc_id (tick_clock w4) procedures Hprocs 1 claim1
              [] [line] Hp1 Hi1)
    as (claim2 & entries & lines2 & Hrun2 & Hp2 & Hi2 & Hs2 & Hf2 & Hcodes & Hseqs
        & Hlseqs & Hlines2).
  change 1 with (Z.of_nat 1) at 1. rewrite (bind_ok _ _ _ _ _ Hrun2).
  destruct (supply_loop e enc_id (tick_clock w4) hcpcs Hsup claim2 _ Hi2)
    as (claim3 & lines3 & Hrun3 & Hi3 & Hp3 & Hs3 & Hf3 & Hlseqs3 & Hlines3).
  rewrite (bind_ok _ _ _ _ _ Hrun3).
  rewrite bind_uuid, bind_utcnow. unfold ret.
  do 2 eexists. split; [reflexivity|].
  assert (Hframe : claim_frame claim0 claim3)
    by (eapply claim_frame_trans; [|exact Hf3];
        eapply claim_frame_trans; [exact Hf1 | exact Hf2]).
  exists pat_id, enc_id, clm_id, pat, enc, (VDict claim3), conds, diags, entries,
    ([line] ++ lines2 ++ lines3).
  split.
  { unfold resources. cbn [get dict_get lookup]. cbn. now rewrite map_resource_entries. }
  split.
  { rewrite Hp. unfold patient_facts, get_or. exact Hpat_facts. }
  split.
  { rewrite He. unfold encounter_facts, get_or. exact Henc_facts. }
  split.
  { unfold claim_facts.
    rewrite !(frame_get claim0 claim3 _ Hframe) by reflexivity.
    rewrite Hp, He, Hm. unfold get_or. exact Hfacts0. }
  split.
  { unfold get, dict_get. rewrite Hp3, Hp2. reflexivity. }
  split.
  { unfold get, dict_get. rewrite Hi3. now rewrite <- app_assoc. }
  split; [exact Hlinks|].
  split; [exact Hlen|].
  split.
  { apply Forall2_length in Hlines2.
    rewrite !map_app, Hlseqs, Hlseqs3, length_app, <- Hlines2.
    cbn [map List.length]. rewrite Hseq1.
    replace (1 + List.length procedures + List.length hcpcs)%nat
      with (1 + (List.length procedures + List.length hcpcs))%nat by lia.
    rewrite (run_from_app 1 1), (run_from_app 2 (List.length procedures)).
    reflexivity. }
  split.
  { rewrite He. constructor; [exact Hline1|]. now apply Forall2_app. }
  split; [exact Hseqs | exact Hcodes].
Qed.

End BuilderFacts.

(** ** Reading the layout *)

Lemma of_type_cons_yes (t : string) (r : value) (rs : list value) :
  r @> "resourceType" = VStr (lit t) ->
  of_type t (r :: rs) = r :: of_type t rs.
Proof.
  intros H. unfold of_type. cbn [filter]. rewrite H. cbn [is_text].
  now rewrite str_eqb_refl.
Qed.

Lemma of_type_cons_no (t t' : string) (r : value) (rs : list value) :
  r @> "resourceType" = VStr (lit t') ->
  str_eqb (lit t') (lit t) = false ->
  of_type t (r :: rs) = of_type t rs.
Proof.
  intros H Hne. unfold of_type. cbn [filter]. rewrite H. cbn [is_text].
  now rewrite Hne.
Qed.

Lemma of_type_all (t : string) (rs : list value) :
  Forall (fun r => r @> "resourceType" = VStr (lit t)) rs -> of_type t rs = rs.
Proof.
  induction 1 as [|r rs Hr _ IH]; [reflexivity|].
  now rewrite (of_type_cons_yes t r rs Hr), IH.
Qed.

Lemma of_type_none (t t' : string) (rs : list value) :
  Forall (fun r => r @> "resourceType" = VStr (lit t')) rs ->
  str_eqb (lit t') (lit t) = false ->
  of_type t rs = [].
Proof.
  intros Hall Hne. induction Hall as [|r rs Hr _ IH]; [reflexivity|].
  now rewrite (of_type_cons_no t t' r rs Hr Hne).
Qed.

Lemma resources_by_type (bundle pat enc claim : value) (conds : list value) :
  resources bundle = pat :: enc :: claim :: conds ->
  pat @> "resourceType" = VStr (lit "Patient") ->
  enc @> "resourceType" = VStr (lit "Encounter") ->
  claim @> "resourceType" = VStr (lit "Claim") ->
  Forall (fun r => r @> "resourceType" = VStr (lit "Condition")) conds ->
  of_type "Patient" (resources bundle) = [pat] /\
  of_type "Encounter" (resources bundle) = [enc] /\
  of_type "Claim" (resources bundle) = [claim] /\
  of_type "Condition" (resources bundle) = conds.
Proof.
  intros Hres Hpt Het Hct Hconds. rewrite Hres. repeat split.
  - rewrite (of_type_cons_yes "Patient" _ _ Hpt),
      (of_type_cons_no "Patient" _ _ _ Het eq_refl),
      (of_type_cons_no "Patient" _ _ _ Hct eq_refl).
    now rewrite (of_type_none "Patient" _ _ Hconds eq_refl).
  - rewrite (of_type_cons_no "Encounter" _ _ _ Hpt eq_refl),
      (of_type_cons_yes "Encounter" _ _ Het),
      (of_type_cons_no "Encounter" _ _ _ Hct eq_refl).
    now rewrite (of_type_none "Encounter" _ _ Hconds eq_refl).
  - rewrite (of_type_cons_no "Claim" _ _ _ Hpt eq_refl),
      (of_type_cons_no "Claim" _ _ _ Het eq_refl),
      (of_type_cons_yes "Claim" _ _ Hct).
    now rewrite (of_type_none "Claim" _ _ Hconds eq_refl).
  - rewrite (of_type_cons_no "Condition" _ _ _ Hpt eq_refl),
      (of_type_cons_no "Condition" _ _ _ Het eq_refl),
      (of_type_cons_no "Condition" _ _ _ Hct eq_refl).
    now apply of_type_all.
Qed.

Lemma links_are_conditions (pat_id enc_id : str) (conds diags : list value) :
  Forall2 (condition_link pat_id enc_id) conds diags ->
  Forall (fun r => r @> "resourceType" = VStr (lit "Condition")) conds.
Proof.
  induction 1 as [|c d conds diags [Hc _] _ IH]; constructor; assumption.
Qed.

Lemma link_of_diag (pat_id enc_id : str) (conds diags : list value) (d : value) :
  Forall2 (condition_link pat_id enc_id) conds diags ->
  In d diags ->
  exists c, In c conds /\ condition_link pat_id enc_id c d.
Proof.
  induction 1 as [|c d' conds diags Hlink _ IH]; intros Hin; [destruct Hin|].
  destruct Hin as [<- | Hin].
  - exists c. split; [now left | exact Hlink].
  - destruct (IH Hin) as (c' & Hc' & Hl). exists c'. split; [now right | exact Hl].
Qed.

Lemma link_of_condition (pat_id enc_id : str) (conds diags : list value)
    (c : value) :
  Forall2 (condition_link pat_id enc_id) conds diags ->
  In c conds ->
  exists d, condition_link pat_id enc_id c d.
Proof.
  induction 1 as [|c' d conds diags Hlink _ IH]; intros Hin; [destruct Hin|].
  destruct Hin as [<- | Hin]; [now exists d | exact (IH Hin)].
Qed.

Lemma line_of_lines (encounter : value) (enc_id : str)
    (codes lines : list value) (line : value) :
  Forall2 (line_for encounter enc_id) codes lines ->
  In line lines ->
  exists c, In c codes /\ line_for encounter enc_id c line.
Proof.
  induction 1 as [|c line' codes lines Hline _ IH]; intros Hin; [destruct Hin|].
  destruct Hin as [<- | Hin].
  - exists c. split; [now left | exact Hline].
  - destruct (IH Hin) as (c' & Hc' & Hl). exists c'. split; [now right | exact Hl].
Qed.

(** A reference [<type>/<id>] resolves when a resource of the bundle has
    that type and that id. *)
Lemma resolves_intro (bundle r : value) (t : string) (i : str) :
  In r (resources bundle) ->
  r @> "resourceType" = VStr (lit t) ->
  r @> "id" = VStr i ->
  resolves bundle (VStr (lit t ++ lit "/" ++ i)) = true.
Proof.
  intros Hin Ht Hi. unfold resolves. apply existsb_exists. exists r.
  split; [exact Hin|]. rewrite Ht, Hi. cbn [is_text]. apply str_eqb_refl.
Qed.

Lemma flat_map_singletons {A B} (f : A -> B) (g : A -> list B) (l : list A) :
  (forall x, In x l -> g x = [f x]) -> flat_map g l = map f l.
Proof.
  induction l as [|x l IH]; intros H; [reflexivity|].
  cbn [flat_map map]. rewrite (H x) by now left.
  rewrite IH; [reflexivity|]. intros y Hy. apply H. now right.
Qed.

Lemma length_flat_map_pairs {A B} (g : A -> list B) (l : list A) :
  (forall x, List.length (g x) = 2%nat) ->
  List.length (flat_map g l) = (2 * List.length l)%nat.
Proof.
  intros H. induction l as [|x l IH]; [reflexivity|].
  cbn [flat_map List.length]. rewrite length_app, H, IH. lia.
Qed.

(** In a bundle with the layout there is one Patient, one Encounter, one
    Claim and one Condition per diagnosis, and every reference resolves. *)
Lemma layout_references (py_str : value -> str) (envelope : dict)
    (icd10 : list value) (cpt_em : value) (procedures hcpcs : list value)
    (bundle : value) :
  layout py_str envelope icd10 cpt_em procedures hcpcs bundle ->
  let rs := resources bundle in
  List.length (of_type "Patient" rs) = 1%nat /\
  List.length (of_type "Encounter" rs) = 1%nat /\
  List.length (of_type "Claim" rs) = 1%nat /\
  List.length (of_type "Condition" rs) = List.length icd10 /\
  List.length rs = (3 + List.length icd10)%nat /\
  forallb (resolves bundle) (references bundle) = true /\
  List.length (references bundle)
  = (2 + 3 * List.length icd10
     + (1 + List.length procedures + List.length hcpcs))%nat.
Proof.
  intros (pat_id & enc_id & clm_id & pat & enc & claim & conds & diags & entries
          & lines & Hres & Hpat & Henc & Hclaim & _ & Hitem & Hlinks & Hlen
          & Hseqs & Hlines & _).
  destruct Hpat as (Hpt & Hpi & _).
  destruct Henc as (Het & Hei & Hes & _).
  destruct Hclaim as (Hct & Hci & Hcp & Hcd & _).
  pose proof (links_are_conditions _ _ _ _ Hlinks) as Hconds.
  cbv zeta.
  destruct (resources_by_type _ _ _ _ _ Hres Hpt Het Hct Hconds)
    as (HP & HE & HC & HD).
  assert (Hin_pat : In pat (resources bundle)) by (rewrite Hres; now left).
  assert (Hin_enc : In enc (resources bundle))
    by (rewrite Hres; right; now left).
  assert (Hin_cond : forall c, In c conds -> In c (resources bundle))
    by (intros c Hc; rewrite Hres; now do 3 right).
  pose proof (resolves_intro bundle pat "Patient" pat_id Hin_pat Hpt Hpi) as Rpat.
  pose proof (resolves_intro bundle enc "Encounter" enc_id Hin_enc Het Hei) as Renc.
  assert (Hline_refs :
            flat_map (fun line => map (get "reference") (elems (line @> "encounter")))
                     lines
            = map (fun _ => VStr (lit "Encounter" ++ lit "/" ++ enc_id)) lines).
  { apply flat_map_singletons. intros line Hin.
    destruct (line_of_lines _ _ _ _ _ Hlines Hin) as (c & _ & _ & _ & Hl).
    now rewrite Hl. }
  rewrite HP, HE, HC, HD, Hres. cbn [List.length].
  split; [reflexivity|]. split; [reflexivity|]. split; [reflexivity|].
  split; [exact Hlen|]. split; [now rewrite Hlen|].
  unfold references. rewrite HE, HC, HD. cbn [flat_map].
  unfold encounter_references, claim_references.
  rewrite Hcd, Hitem, !app_nil_r. cbn [elems]. rewrite Hline_refs.
  split.
  - apply forallb_forall. intros ref Hin.
    rewrite !in_app_iff in Hin.
    destruct Hin as [Hin | [[Hin | [Hin | Hin]] | Hin]].
    + destruct Hin as [<- | []]. rewrite Hes. exact Rpat.
    + destruct Hin as [<- | []]. rewrite Hcp. exact Rpat.
    + apply in_map_iff in Hin. destruct Hin as (d & <- & Hd).
      destruct (link_of_diag _ _ _ _ _ Hlinks Hd)
        as (c & Hc & Hctype & _ & _ & cond_id & Hcid & Href).
      rewrite Href.
      exact (resolves_intro bundle c "Condition" cond_id (Hin_cond c Hc) Hctype Hcid).
    + apply in_map_iff in Hin. destruct Hin as (line & <- & _). exact Renc.
    + apply in_flat_map in Hin. destruct Hin as (c & Hc & Hin).
      destruct (link_of_condition _ _ _ _ _ Hlinks Hc)
        as (d & _ & Hsub & Henc_ref & _).
      destruct Hin as [<- | [<- | []]].
      * rewrite Hsub. exact Rpat.
      * rewrite Henc_ref. exact Renc.
  - rewrite !length_app, !length_map. cbn [List.length].
    rewrite (length_flat_map_pairs condition_references conds) by reflexivity.
    apply Forall2_length in Hlinks, Hlines.
    rewrite <- Hlinks, Hlen, <- Hlines. cbn [List.length].
    rewrite length_app. lia.
Qed.

(** What [tiny_rules] returns is what [build_fhir_bundle] accepts. *)
Lemma detection_coded (low : str) :
  forallb is_coded (diagnoses_for low) = true /\
  is_visit_code CPT_EM = true /\
  forallb is_coded (procedures_for low) = true /\
  forallb is_coded (supplies_for low) = true.
Proof.
  unfold diagnoses_for, procedures_for, supplies_for.
  repeat split.
  - destruct (principal_fires low), (contains low (lit "wheez")),
      (contains low (lit "shortness of breath")), (contains low (lit "fever")),
      (contains low (lit "cough")); reflexivity.
  - destruct (imaging_fires low), (any_of TWO_VIEW_PHRASES low),
      (nebulizer_fires low), (injection_fires low); reflexivity.
  - destruct (nebulizer_fires low), (contains low (lit "albuterol")),
      (injection_fires low), (contains low (lit "ceftriaxone")),
      (contains low (lit "dexamethasone")); reflexivity.
Qed.

(** Detection followed by assembly returns a bundle with the layout. *)
Lemma detect_then_assemble (py_str : value -> str) (envelope : dict) (w : world) :
  envelope_shape envelope = true ->
  exists icd10 cpt_em procedures hcpcs bundle w',
    tiny_rules envelope = Ok (icd10, cpt_em, procedures, hcpcs) /\
    build_fhir_bundle py_str envelope icd10 cpt_em procedures hcpcs w
    = Ok (bundle, w') /\
    layout py_str envelope icd10 cpt_em procedures hcpcs bundle.
Proof.
  intros Hshape.
  destruct (detection_coded (lower (note_of envelope))) as (Hd & Hem & Hp & Hs).
  destruct (build_layout py_str envelope _ _ _ _ w Hshape Hd Hem Hp Hs)
    as (bundle & w' & Hrun & Hlayout).
  do 4 eexists. exists bundle, w'.
  split; [now apply tiny_rules_shape|]. split; [exact Hrun | exact Hlayout].
Qed.

(** C1. For every envelope of the input contract and the detection result
    produced from it, [build_fhir_bundle] returns a bundle whose resources
    are exactly one Patient, one Encounter, one Claim and one Condition per
    diagnosis, and every reference in it (the Encounter's subject, the
    Claim's patient, each Claim.diagnosis[] diagnosisReference, each
    Claim.item[] encounter reference, each Condition's subject and
    encounter) names the type and id of a resource of the same bundle. *)
Theorem bundle_references_resolve (py_str : value -> str) (envelope : dict)
    (w : world) :
  envelope_shape envelope = true ->
  exists icd10 cpt_em procedures hcpcs bundle w',
    tiny_rules envelope = Ok (icd10, cpt_em, procedures, hcpcs) /\
    build_fhir_bundle py_str envelope icd10 cpt_em procedures hcpcs w
    = Ok (bundle, w') /\
    let rs := resources bundle in
    List.length (of_type "Patient" rs) = 1%nat /\
    List.length (of_type "Encounter" rs) = 1%nat /\
    List.length (of_type "Claim" rs) = 1%nat /\
    List.length (of_type "Condition" rs) = List.length icd10 /\
    List.length rs = (3 + List.length icd10)%nat /\
    forallb (resolves bundle) (references bundle) = true /\
    List.length (references bundle)
    = (2 + 3 * List.length icd10
       + (1 + List.length procedures + List.length hcpcs))%nat.
Proof.
  intros Hshape.
  destruct (detect_then_assemble py_str envelope w Hshape)
    as (icd10 & cpt_em & procedures & hcpcs & bundle & w' & Hdetect & Hrun & Hlayout).
  exists icd10, cpt_em, procedures, hcpcs, bundle, w'.
  split; [exact Hdetect|]. split; [exact Hrun|].
  exact (layout_references _ _ _ _ _ _ _ Hlayout).
Qed.

Lemma bundle_references_resolve_witness :
  let envelope :=
    note_envelope (lit "Cough and wheezing for 3 days, low-grade fever.") in
  envelope_shape envelope = true /\
  exists icd10 cpt_em procedures hcpcs bundle w',
    tiny_rules envelope = Ok (icd10, cpt_em, procedures, hcpcs) /\
    build_fhir_bundle example_str envelope icd10 cpt_em procedures hcpcs
      example_world = Ok (bundle, w') /\
    List.length (of_type "Condition" (resources bundle)) = List.length icd10 /\
    forallb (resolves bundle) (references bundle) = true.
Proof.
  cbv zeta. split; [reflexivity|].
  destruct (bundle_references_resolve example_str
              (note_envelope (lit "Cough and wheezing for 3 days, low-grade fever."))
              example_world eq_refl)
    as (icd10 & cpt_em & procedures & hcpcs & bundle & w' & Hdetect & Hrun
        & _ & _ & _ & Hconds & _ & Hrefs & _).
  exists icd10, cpt_em, procedures, hcpcs, bundle, w'. now repeat split.
Defined.

(** ** Claim.item[] and Claim.procedure[] *)

Lemma lines_carry_codes (encounter : value) (enc_id : str)
    (codes lines : list value) :
  Forall2 (line_for encounter enc_id) codes lines ->
  map line_code lines = map (get "code") codes.
Proof.
  induction 1 as [|c line codes lines [Hcode _] _ IH]; [reflexivity|].
  cbn [map]. now rewrite Hcode, IH.
Qed.

(** C2. For every envelope of the input contract, Claim.item[] of the
    assembled bundle carries, in this order, the visit code, then the codes
    of the detected procedures, then the codes of the detected supplies: it
    has 1 + len(procedures) + len(supplies) lines, whose sequence numbers
    are 1, 2, ..., n; Claim.procedure[] carries the codes of the procedures
    with sequence numbers 1, 2, ..., m of its own. *)
Theorem claim_lines_in_order (py_str : value -> str) (envelope : dict)
    (w : world) :
  envelope_shape envelope = true ->
  exists icd10 cpt_em procedures hcpcs bundle w' claim,
    tiny_rules envelope = Ok (icd10, cpt_em, procedures, hcpcs) /\
    build_fhir_bundle py_str envelope icd10 cpt_em procedures hcpcs w
    = Ok (bundle, w') /\
    of_type "Claim" (resources bundle) = [claim] /\
    let lines := elems (claim @> "item") in
    let entries := elems (claim @> "procedure") in
    map line_code lines = map (get "code") (cpt_em :: procedures ++ hcpcs) /\
    List.length lines
    = (1 + List.length procedures + List.length hcpcs)%nat /\
    map (get "sequence") lines = run_from 1 (List.length lines) /\
    map procedure_code entries = map (get "code") procedures /\
    map (get "sequence") entries = run_from 1 (List.length procedures).
Proof.
  intros Hshape.
  destruct (detect_then_assemble py_str envelope w Hshape)
    as (icd10 & cpt_em & procedures & hcpcs & bundle & w' & Hdetect & Hrun & Hlayout).
  destruct Hlayout
    as (pat_id & enc_id & clm_id & pat & enc & claim & conds & diags & entries
        & lines & Hres & Hpat & Henc & Hclaim & Hproc & Hitem & Hlinks & _
        & Hseqs & Hlines & Heseqs & Hecodes).
  destruct (resources_by_type _ _ _ _ _ Hres (proj1 Hpat) (proj1 Henc)
              (proj1 Hclaim) (links_are_conditions _ _ _ _ Hlinks))
    as (_ & _ & HC & _).
  exists icd10, cpt_em, procedures, hcpcs, bundle, w', claim.
  split; [exact Hdetect|]. split; [exact Hrun|]. split; [exact HC|].
  cbv zeta. rewrite Hitem, Hproc. cbn [elems].
  assert (Hn : List.length lines
               = (1 + List.length procedures + List.length hcpcs)%nat).
  { apply Forall2_length in Hlines. rewrite <- Hlines.
    cbn [List.length]. rewrite length_app. lia. }
  split; [exact (lines_carry_codes _ _ _ _ Hlines)|].
  split; [exact Hn|]. split; [now rewrite Hn|].
  split; [exact Hecodes | exact Heseqs].
Qed.

Lemma claim_lines_in_order_witness :
  let envelope :=
    note_envelope
      (lit "Chest X-ray performed, two views. Nebulizer treatment administered with albuterol.") in
  envelope_shape envelope = true /\
  exists icd10 cpt_em procedures hcpcs bundle w' claim,
    tiny_rules envelope = Ok (icd10, cpt_em, procedures, hcpcs) /\
    build_fhir_bundle example_str envelope icd10 cpt_em procedures hcpcs
      example_world = Ok (bundle, w') /\
    of_type "Claim" (resources bundle) = [claim] /\
    map line_code (elems (claim @> "item"))
    = map (get "code") (cpt_em :: procedures ++ hcpcs) /\
    map (get "sequence") (elems (claim @> "item"))
    = run_from 1 (List.length (elems (claim @> "item"))).
Proof.
  cbv zeta. split; [reflexivity|].
  destruct (claim_lines_in_order example_str
              (note_envelope
                 (lit "Chest X-ray performed, two views. Nebulizer treatment administered with albuterol."))
              example_world eq_refl)
    as (icd10 & cpt_em & procedures & hcpcs & bundle & w' & claim & Hdetect & Hrun
        & Hclaim & Hcodes & _ & Hseqs & _).
  exists icd10, cpt_em, procedures, hcpcs, bundle, w', claim. now repeat split.
Defined.

(** The lines of a concrete bundle: visit code, two procedures, one supply. *)
Example claim_lines_example :
  match build_fhir_bundle example_str [] [] CPT_EM [CPT_71046; CPT_94640]
          [HCPCS_J7613] example_world with
  | Ok (bundle, _) =>
      let claim := item_at 2 (bundle @> "entry") @> "resource" in
      map line_code (elems (claim @> "item"))
      = [ VStr (lit "99213"); VStr (lit "71046"); VStr (lit "94640");
          VStr (lit "J7613") ] /\
      map (get "sequence") (elems (claim @> "item"))
      = [ VInt 1; VInt 2; VInt 3; VInt 4 ] /\
      map (get "sequence") (elems (claim @> "procedure")) = [ VInt 1; VInt 2 ]
  | Raise _ => False
  end.
Proof. vm_compute. repeat split. Qed.

(** ** The gender of the Patient *)

Lemma code_points_eqb_eq (a b : list N) : code_points_eqb a b = true -> a = b.
Proof.
  revert b; induction a as [|x a IH]; intros [|y b]; cbn [code_points_eqb];
    try discriminate; [reflexivity|].
  intros H. apply andb_true_iff in H. destruct H as [Hx Hab].
  apply N.eqb_eq in Hx. now rewrite Hx, (IH b Hab).
Qed.

Lemma upper_char_nonempty (c : ascii) : upper_char c <> [].
Proof. destruct c as [[] [] [] [] [] [] [] []]; discriminate. Qed.

Lemma upper_single (s : str) (n : N) :
  upper s = [n] -> exists c, s = [c] /\ upper_char c = [n].
Proof.
  destruct s as [|c [|c' s]]; unfold upper; cbn [flat_map].
  - discriminate.
  - rewrite app_nil_r. intros H. now exists c.
  - intros H. exfalso.
    pose proof (upper_char_nonempty c) as Hc.
    pose proof (upper_char_nonempty c') as Hc'.
    apply (f_equal (@List.length N)) in H.
    rewrite !length_app in H. cbn [List.length] in H.
    destruct (upper_char c); [now apply Hc|].
    destruct (upper_char c'); [now apply Hc'|].
    cbn [List.length] in H. lia.
Qed.

Lemma upper_char_M (c : ascii) :
  upper_char c = [77%N] -> c = "M"%char \/ c = "m"%char.
Proof.
  destruct c as [[] [] [] [] [] [] [] []]; intros H; vm_compute in H;
    first [discriminate H | now left | now right].
Qed.

Lemma upper_char_F (c : ascii) :
  upper_char c = [70%N] -> c = "F"%char \/ c = "f"%char.
Proof.
  destruct c as [[] [] [] [] [] [] [] []]; intros H; vm_compute in H;
    first [discriminate H | now left | now right].
Qed.

(** The table lookup on the upper-cased [sex]. *)
Lemma gender_of_sex (sex : str) :
  let gender := gender_get GENDER_MAP (upper sex) (lit "unknown") in
  ((sex = lit "M" \/ sex = lit "m") -> gender = lit "male") /\
  ((sex = lit "F" \/ sex = lit "f") -> gender = lit "female") /\
  (sex <> lit "M" -> sex <> lit "m" -> sex <> lit "F" -> sex <> lit "f" ->
   gender = lit "unknown").
Proof.
  cbv zeta. split; [|split].
  - intros [-> | ->]; reflexivity.
  - intros [-> | ->]; reflexivity.
  - intros HM Hm HF Hf. unfold GENDER_MAP. cbn [gender_get].
    destruct (code_points_eqb (code_points (lit "M")) (upper sex)) eqn:EM.
    { apply code_points_eqb_eq in EM. symmetry in EM.
      apply upper_single in EM. destruct EM as (c & -> & Hc).
      apply upper_char_M in Hc. destruct Hc as [-> | ->]; [now elim HM | now elim Hm]. }
    destruct (code_points_eqb (code_points (lit "F")) (upper sex)) eqn:EF.
    { apply code_points_eqb_eq in EF. symmetry in EF.
      apply upper_single in EF. destruct EF as (c & -> & Hc).
      apply upper_char_F in Hc. destruct Hc as [-> | ->]; [now elim HF | now elim Hf]. }
    reflexivity.
Qed.

(** C9, as the code has it.  The Patient's gender is "male" when the sex
    member of the envelope's patient is "M" or "m", "female" when it is "F"
    or "f", and "unknown" for every other string and when the member (or
    the patient) is absent: the sex is upper-cased before the lookup. *)
Theorem patient_gender (py_str : value -> str) (envelope : dict) (w : world) :
  envelope_shape envelope = true ->
  exists icd10 cpt_em procedures hcpcs bundle w' patient,
    tiny_rules envelope = Ok (icd10, cpt_em, procedures, hcpcs) /\
    build_fhir_bundle py_str envelope icd10 cpt_em procedures hcpcs w
    = Ok (bundle, w') /\
    of_type "Patient" (resources bundle) = [patient] /\
    let sex := sex_of (patient_of envelope) in
    ((sex = lit "M" \/ sex = lit "m") ->
     patient @> "gender" = VStr (lit "male")) /\
    ((sex = lit "F" \/ sex = lit "f") ->
     patient @> "gender" = VStr (lit "female")) /\
    (sex <> lit "M" -> sex <> lit "m" -> sex <> lit "F" -> sex <> lit "f" ->
     patient @> "gender" = VStr (lit "unknown")).
Proof.
  intros Hshape.
  destruct (detect_then_assemble py_str envelope w Hshape)
    as (icd10 & cpt_em & procedures & hcpcs & bundle & w' & Hdetect & Hrun & Hlayout).
  destruct Hlayout
    as (pat_id & enc_id & clm_id & pat & enc & claim & conds & diags & entries
        & lines & Hres & Hpat & Henc & Hclaim & _ & _ & Hlinks & _).
  destruct (resources_by_type _ _ _ _ _ Hres (proj1 Hpat) (proj1 Henc)
              (proj1 Hclaim) (links_are_conditions _ _ _ _ Hlinks))
    as (HP & _).
  exists icd10, cpt_em, procedures, hcpcs, bundle, w', pat.
  split; [exact Hdetect|]. split; [exact Hrun|]. split; [exact HP|].
  destruct Hpat as (_ & _ & Hgender & _). cbv zeta. rewrite Hgender.
  destruct (gender_of_sex (sex_of (patient_of envelope))) as (HM & HF & HU).
  split; [|split].
  - intros H. now rewrite (HM H).
  - intros H. now rewrite (HF H).
  - intros H1 H2 H3 H4. now rewrite (HU H1 H2 H3 H4).
Qed.

Lemma patient_gender_witness :
  let envelope := [ (lit "patient", VDict [ (lit "sex", VStr (lit "F")) ]) ] in
  envelope_shape envelope = true /\
  exists icd10 cpt_em procedures hcpcs bundle w' patient,
    tiny_rules envelope = Ok (icd10, cpt_em, procedures, hcpcs) /\
    build_fhir_bundle example_str envelope icd10 cpt_em procedures hcpcs
      example_world = Ok (bundle, w') /\
    of_type "Patient" (resources bundle) = [patient] /\
    patient @> "gender" = VStr (lit "female").
Proof.
  cbv zeta. split; [reflexivity|].
  destruct (patient_gender example_str
              [ (lit "patient", VDict [ (lit "sex", VStr (lit "F")) ]) ]
              example_world eq_refl)
    as (icd10 & cpt_em & procedures & hcpcs & bundle & w' & patient & Hdetect
        & Hrun & Hpat & _ & HF & _).
  exists icd10, cpt_em, procedures, hcpcs, bundle, w', patient.
  split; [exact Hdetect|]. split; [exact Hrun|]. split; [exact Hpat|].
  apply HF. now left.
Defined.

(** C9 as the specification states it fails: the sex "m" is a value other
    than "M" and "F", and the gender is "male", not "unknown". *)
Lemma gender_of_lowercase_sex :
  let envelope := [ (lit "patient", VDict [ (lit "sex", VStr (lit "m")) ]) ] in
  envelope_shape envelope = true /\
  get_or "sex" (VStr []) (patient_of envelope) = VStr (lit "m") /\
  is_text (lit "M") (VStr (lit "m")) = false /\
  is_text (lit "F") (VStr (lit "m")) = false /\
  tiny_rules envelope = Ok ([], CPT_EM, [], []) /\
  match build_fhir_bundle example_str envelope [] CPT_EM [] [] example_world with
  | Ok (bundle, _) =>
      item_at 0 (bundle @> "entry") @> "resource" @> "resourceType"
      = VStr (lit "Patient") /\
      item_at 0 (bundle @> "entry") @> "resource" @> "gender"
      = VStr (lit "male")
  | Raise _ => False
  end.
Proof. vm_compute. repeat split. Qed.

(** ** Absent members of the envelope *)

Lemma empty_note_detects_nothing :
  diagnoses_for (lower []) = [] /\ procedures_for (lower []) = [] /\
  supplies_for (lower []) = [].
Proof. vm_compute. repeat split. Qed.

Lemma lines_dated (encounter : value) (enc_id : str)
    (codes lines : list value) :
  Forall2 (line_for encounter enc_id) codes lines ->
  Forall (fun line => line @> "servicedDate" = get_or "date" VNone encounter)
         lines.
Proof.
  induction 1 as [|c line codes lines (_ & Hdate & _) _ IH]; constructor;
    assumption.
Qed.

(** C3, as the code has it.  For every envelope of the input contract,
    with any of its members absent, [tiny_rules] and [build_fhir_bundle]
    return without raising.  An absent note text counts as the empty
    text; absent mrn, last_name, first_name, dob, payer_name,
    location_npi, provider_npi and source fall back to the empty string;
    an absent sex gives the gender "unknown"; an absent encounter date
    gives null for the period and for servicedDate; an absent claim_id
    falls back to the identifier generated for the Claim. *)
Theorem absent_fields_default (py_str : value -> str) (envelope : dict)
    (w : world) :
  envelope_shape envelope = true ->
  exists icd10 cpt_em procedures hcpcs bundle w' patient encounter claim,
    tiny_rules envelope = Ok (icd10, cpt_em, procedures, hcpcs) /\
    build_fhir_bundle py_str envelope icd10 cpt_em procedures hcpcs w
    = Ok (bundle, w') /\
    of_type "Patient" (resources bundle) = [patient] /\
    of_type "Encounter" (resources bundle) = [encounter] /\
    of_type "Claim" (resources bundle) = [claim] /\
    let p := patient_of envelope in
    let e := encounter_of envelope in
    (note_of envelope = [] -> icd10 = [] /\ procedures = [] /\ hcpcs = []) /\
    item_at 0 (patient @> "identifier") @> "value"
    = get_or "mrn" (VStr []) p /\
    item_at 0 (patient @> "name") @> "family"
    = get_or "last_name" (VStr []) p /\
    item_at 0 (patient @> "name") @> "given"
    = VList [ get_or "first_name" (VStr []) p ] /\
    patient @> "birthDate" = get_or "dob" (VStr []) p /\
    (sex_of p = [] -> patient @> "gender" = VStr (lit "unknown")) /\
    encounter @> "serviceProvider" @> "identifier" @> "value"
    = get_or "location_npi" (VStr []) e /\
    claim @> "enterer" @> "identifier" @> "value"
    = get_or "provider_npi" (VStr []) e /\
    claim @> "insurer" @> "display" = get_or "payer_name" (VStr []) p /\
    item_at 1 (item_at 0 (claim @> "extension") @> "extension") @> "valueString"
    = VStr (py_str (get_or "source" (VStr []) (meta_of envelope))) /\
    encounter @> "period" @> "start" = get_or "date" VNone e /\
    encounter @> "period" @> "end" = get_or "date" VNone e /\
    Forall (fun line => line @> "servicedDate" = get_or "date" VNone e)
           (elems (claim @> "item")) /\
    item_at 0 (item_at 0 (claim @> "extension") @> "extension") @> "valueString"
    = VStr (py_str (py_or (dict_get envelope (lit "claim_id") VNone)
                          (claim @> "id"))).
Proof.
  intros Hshape.
  destruct (detect_then_assemble py_str envelope w Hshape)
    as (icd10 & cpt_em & procedures & hcpcs & bundle & w' & Hdetect & Hrun & Hlayout).
  destruct Hlayout
    as (pat_id & enc_id & clm_id & pat & enc & claim & conds & diags & entries
        & lines & Hres & Hpat & Henc & Hclaim & _ & Hitem & Hlinks & _ & _
        & Hlines & _).
  destruct (resources_by_type _ _ _ _ _ Hres (proj1 Hpat) (proj1 Henc)
              (proj1 Hclaim) (links_are_conditions _ _ _ _ Hlinks))
    as (HP & HE & HC & _).
  exists icd10, cpt_em, procedures, hcpcs, bundle, w', pat, enc, claim.
  split; [exact Hdetect|]. split; [exact Hrun|].
  split; [exact HP|]. split; [exact HE|]. split; [exact HC|].
  destruct Hpat as (_ & _ & Hgender & Hmrn & Hfamily & Hgiven & Hdob).
  destruct Henc as (_ & _ & _ & Hstart & Hend & Hlocation).
  destruct Hclaim as (_ & Hid & _ & _ & Hprovider & Hpayer & Hext0 & Hext1).
  cbv zeta.
  split.
  { intros Hnote. rewrite (tiny_rules_shape envelope Hshape), Hnote in Hdetect.
    destruct empty_note_detects_nothing as (H1 & H2 & H3).
    rewrite H1, H2, H3 in Hdetect. now injection Hdetect as <- _ <- <-. }
  split; [exact Hmrn|]. split; [exact Hfamily|]. split; [exact Hgiven|].
  split; [exact Hdob|].
  split.
  { intros Hsex. now rewrite Hgender, Hsex. }
  split; [exact Hlocation|]. split; [exact Hprovider|]. split; [exact Hpayer|].
  split; [exact Hext1|]. split; [exact Hstart|]. split; [exact Hend|].
  split.
  { rewrite Hitem. cbn [elems]. exact (lines_dated _ _ _ _ Hlines). }
  now rewrite Hid.
Qed.

Lemma absent_fields_default_witness :
  envelope_shape [] = true /\
  exists icd10 cpt_em procedures hcpcs bundle w' patient encounter claim,
    tiny_rules [] = Ok (icd10, cpt_em, procedures, hcpcs) /\
    build_fhir_bundle example_str [] icd10 cpt_em procedures hcpcs
      example_world = Ok (bundle, w') /\
    of_type "Patient" (resources bundle) = [patient] /\
    of_type "Encounter" (resources bundle) = [encounter] /\
    of_type "Claim" (resources bundle) = [claim] /\
    icd10 = [] /\
    item_at 0 (patient @> "identifier") @> "value" = VStr [] /\
    patient @> "gender" = VStr (lit "unknown") /\
    encounter @> "period" @> "start" = VNone.
Proof.
  split; [reflexivity|].
  destruct (absent_fields_default example_str [] example_world eq_refl)
    as (icd10 & cpt_em & procedures & hcpcs & bundle & w' & patient & encounter
        & claim & Hdetect & Hrun & HP & HE & HC & Hnote & Hmrn & _ & _ & _
        & Hsex & _ & _ & _ & _ & Hstart & _).
  exists icd10, cpt_em, procedures, hcpcs, bundle, w', patient, encounter, claim.
  split; [exact Hdetect|]. split; [exact Hrun|].
  split; [exact HP|]. split; [exact HE|]. split; [exact HC|].
  split; [exact (proj1 (Hnote eq_refl))|].
  split; [exact Hmrn|]. split; [exact (Hsex eq_refl) | exact Hstart].
Defined.

(** C3 as the specification states it fails on the fallbacks: with every
    member absent, the Encounter's period start is null, which is neither
    an empty string nor an empty collection, and the echoed claim
    identifier is the generated one, not an empty string. *)
Lemma absent_date_is_null :
  envelope_shape [] = true /\
  lookup [] (lit "encounter") = None /\
  lookup [] (lit "claim_id") = None /\
  tiny_rules [] = Ok ([], CPT_EM, [], []) /\
  match build_fhir_bundle example_str [] [] CPT_EM [] [] example_world with
  | Ok (bundle, _) =>
      let encounter := item_at 1 (bundle @> "entry") @> "resource" in
      let claim := item_at 2 (bundle @> "entry") @> "resource" in
      encounter @> "resourceType" = VStr (lit "Encounter") /\
      encounter @> "period" @> "start" = VNone /\
      item_at 0 (claim @> "item") @> "servicedDate" = VNone /\
      item_at 0 (item_at 0 (claim @> "extension") @> "extension")
        @> "valueString" = VStr (lit "clm-00000002")
  | Raise _ => False
  end.
Proof. vm_compute. repeat split. Qed.

(** An envelope outside the contract makes the builder raise: here the
    patient is a string, and [patient.get] does not exist. *)
Example malformed_patient_raises :
  build_fhir_bundle example_str [ (lit "patient", VStr (lit "Jane Doe")) ]
    [] CPT_EM [] [] example_world = Raise AttributeError.
Proof. reflexivity. Qed.

(** * Further properties of the rule engine *)

(** ** [present] and [near] *)

Lemma occurs_in_lowered_is_lower (s t : str) (p : nat) :
  occurs_at (lower s) t p -> lower t = t.
Proof.
  intros (pre & post & H & _). unfold lower in H.
  apply map_eq_app in H. destruct H as (s1 & s2 & _ & _ & H).
  apply map_eq_app in H. destruct H as (s3 & s4 & _ & <- & _).
  apply lower_idem.
Qed.

Lemma contains_lowered_iff (text t : str) :
  contains (lower text) t = true <-> lower t = t /\ ci_occurs text t.
Proof.
  split.
  - intros H. assert (Hlow : lower t = t).
    { apply contains_iff in H. destruct H as [p H].
      exact (occurs_in_lowered_is_lower _ _ _ H). }
    split; [exact Hlow|]. now apply (contains_lower_literal text t Hlow).
  - intros [Hlow H]. now apply (contains_lower_literal text t Hlow).
Qed.

(** X1. [present] lower-cases the text but not the terms: it is true
    exactly when every term is already in lower case and occurs in the
    text up to case.  A term with an upper-case letter is never present. *)
Theorem present_spec (text : str) (terms : list str) :
  present text terms = true <->
  forall t, In t terms -> lower t = t /\ ci_occurs text t.
Proof.
  unfold present. rewrite forallb_forall.
  split; intros H t Hin; apply contains_lowered_iff; now apply H.
Qed.

Lemma contains_window (s t : str) (n m : nat) :
  contains (firstn n (skipn m s)) t = true -> contains s t = true.
Proof.
  rewrite !contains_iff. intros (p & pre & post & H & _).
  exists (List.length (firstn m s ++ pre)).
  exists (firstn m s ++ pre), (post ++ skipn n (skipn m s)). split; [|reflexivity].
  rewrite <- (firstn_skipn m s) at 1.
  rewrite <- (firstn_skipn n (skipn m s)) at 1.
  rewrite H. now rewrite <- !app_assoc.
Qed.

Lemma contains_slice (s t : str) (i j : Z) :
  contains (slice s i j) t = true -> contains s t = true.
Proof. unfold slice. apply contains_window. Qed.

(** X2. Whatever the window, negative ones included, [near] is true only
    when both the anchor and the term occur in the text (up to case). *)
Theorem near_needs_both (text a b : str) (window : Z) :
  near text a b window = true -> ci_occurs text a /\ ci_occurs text b.
Proof.
  unfold near.
  destruct (find_lower_spec text a) as [[-> _] | (p & -> & [Hp _])].
  - discriminate.
  - assert ((Z.of_nat p =? -1) = false) as -> by (apply Z.eqb_neq; lia).
    intros H. split; [now exists p|].
    apply contains_slice in H. now apply contains_lower_iff.
Qed.

Lemma near_needs_both_witness :
  near (lit "Chest X-ray performed") (lit "x-ray") (lit "performed") 40 = true /\
  ci_occurs (lit "Chest X-ray performed") (lit "x-ray") /\
  ci_occurs (lit "Chest X-ray performed") (lit "performed").
Proof.
  split; [reflexivity|].
  apply (near_needs_both (lit "Chest X-ray performed") (lit "x-ray")
           (lit "performed") 40).
  reflexivity.
Defined.

(** X3. Widening a window that is not negative keeps [near] true. *)
Theorem near_window_monotone (text a b : str) (window window' : Z) :
  0 <= window -> window <= window' ->
  near text a b window = true -> near text a b window' = true.
Proof.
  intros H0 Hle H.
  apply (near_iff_within_window text a b window H0) in H.
  apply near_iff_within_window; [lia|].
  destruct H as (p & q & Hp & Hq & H1 & H2). exists p, q.
  split; [exact Hp|]. split; [exact Hq|]. lia.
Qed.

Lemma near_window_monotone_witness :
  0 <= 10 /\ 10 <= 40 /\
  near (lit "Later, a second cxr was done.") (lit "cxr") (lit "done") 10 = true /\
  near (lit "Later, a second cxr was done.") (lit "cxr") (lit "done") 40 = true.
Proof.
  assert (H0 : 0 <= 10) by lia.
  assert (Hle : 10 <= 40) by lia.
  assert (H : near (lit "Later, a second cxr was done.") (lit "cxr")
                (lit "done") 10 = true) by reflexivity.
  split; [exact H0|]. split; [exact Hle|]. split; [exact H|].
  exact (near_window_monotone _ _ _ 10 40 H0 Hle H).
Defined.

(** X4. With a window at least as long as the text, [near] is plain
    co-occurrence: it is true exactly when the anchor and the term both
    occur in the text (up to case). *)
Theorem near_wide_window (text a b : str) (window : Z) :
  len text <= window ->
  (near text a b window = true <-> ci_occurs text a /\ ci_occurs text b).
Proof.
  intros Hw. split; [apply near_needs_both|].
  intros [Ha [q Hq]].
  assert (H0 : 0 <= window) by (unfold len in Hw; lia).
  apply near_iff_within_window; [exact H0|].
  destruct (find_lower_spec text a) as [[_ Hno] | (p & _ & Hp)].
  { destruct Ha as [p Hp]. exfalso. exact (Hno p Hp). }
  exists p, q. split; [exact Hp|]. split; [exact Hq|].
  pose proof (ci_occurs_at_length _ _ _ (proj1 Hp)) as Hpl.
  pose proof (ci_occurs_at_length _ _ _ Hq) as Hql.
  unfold len in *. lia.
Qed.

Lemma near_wide_window_witness :
  len (lit "cxr, much later, done") <= 40 /\
  (near (lit "cxr, much later, done") (lit "cxr") (lit "done") 40 = true <->
   ci_occurs (lit "cxr, much later, done") (lit "cxr") /\
   ci_occurs (lit "cxr, much later, done") (lit "done")).
Proof.
  assert (H : len (lit "cxr, much later, done") <= 40) by (vm_compute; discriminate).
  split; [exact H|].
  exact (near_wide_window (lit "cxr, much later, done") (lit "cxr") (lit "done")
           40 H).
Defined.

(** ** The nebulizer and injection rules, and the result as a whole *)

Lemma contains_trans (s t u : str) :
  contains s t = true -> contains t u = true -> contains s u = true.
Proof.
  rewrite !contains_iff.
  intros (p & pre & post & -> & _) (q & pre' & post' & -> & _).
  exists (List.length (pre ++ pre')), (pre ++ pre'), (post' ++ post).
  split; [|reflexivity]. now rewrite <- !app_assoc.
Qed.

Lemma in_procedures_for (low : str) (p : value) :
  In p (procedures_for low) <->
  (imaging_fires low = true /\
   p = (if any_of TWO_VIEW_PHRASES low then CPT_71046 else CPT_71045)) \/
  (nebulizer_fires low = true /\ p = CPT_94640) \/
  (injection_fires low = true /\ p = CPT_96372).
Proof. unfold procedures_for. rewrite !in_app_iff, !in_when. tauto. Qed.

Lemma in_supplies_for (low : str) (h : value) :
  In h (supplies_for low) <->
  (nebulizer_fires low && contains low (lit "albuterol") = true
   /\ h = HCPCS_J7613) \/
  (injection_fires low && contains low (lit "ceftriaxone") = true
   /\ h = HCPCS_J0696) \/
  (injection_fires low && negb (contains low (lit "ceftriaxone"))
   && contains low (lit "dexamethasone") = true /\ h = HCPCS_J1100).
Proof. unfold supplies_for. rewrite !in_app_iff, !in_when. tauto. Qed.

Lemma nebulizer_fires_iff (note : str) :
  nebulizer_fires (lower note) = true <->
  ci_occurs note (lit "neb") /\ mentions note PERFORMED_HINTS.
Proof.
  unfold nebulizer_fires. rewrite andb_true_iff.
  rewrite (any_of_mentions _ _ lower_performed_hints).
  rewrite <- (contains_lower_literal note (lit "neb") eq_refl).
  unfold any_of, NEBULIZER_ANCHORS. cbn [existsb]. rewrite orb_false_r.
  split; intros [H Hh]; (split; [|exact Hh]).
  - apply orb_true_iff in H. destruct H as [H | H]; [|exact H].
    apply (contains_trans _ _ _ H). reflexivity.
  - apply orb_true_iff. now right.
Qed.

(** X5. The nebulizer code 94640 is among the procedures exactly when
    "neb" occurs in the note (the anchor "nebulizer" adds nothing to it)
    and a performed-hint occurs anywhere; the albuterol supply J7613 is
    among the supplies exactly when, on top of that, "albuterol" occurs. *)
Theorem nebulizer_rule (envelope : dict) (note : str) :
  has_note envelope note ->
  exists icd10 cpt_em procedures hcpcs,
    tiny_rules envelope = Ok (icd10, cpt_em, procedures, hcpcs) /\
    ((exists p, In p procedures /\ has_code "94640" p = true) <->
     ci_occurs note (lit "neb") /\ mentions note PERFORMED_HINTS) /\
    ((exists h, In h hcpcs /\ has_code "J7613" h = true) <->
     ci_occurs note (lit "neb") /\ mentions note PERFORMED_HINTS /\
     ci_occurs note (lit "albuterol")).
Proof.
  intros Hnote. rewrite (tiny_rules_note envelope note Hnote).
  do 4 eexists. split; [reflexivity|].
  rewrite <- (contains_lower_literal note (lit "albuterol") eq_refl).
  pose proof (nebulizer_fires_iff note) as Hneb.
  split; split.
  - intros (p & Hin & Hcode). apply Hneb.
    apply in_procedures_for in Hin.
    destruct Hin as [[_ ->] | [[H _] | [_ ->]]]; [|exact H|discriminate Hcode].
    destruct (any_of TWO_VIEW_PHRASES (lower note)); discriminate Hcode.
  - intros H. apply Hneb in H. exists CPT_94640. split; [|reflexivity].
    apply in_procedures_for. right. left. now split.
  - intros (h & Hin & Hcode). apply in_supplies_for in Hin.
    destruct Hin as [[H _] | [[_ ->] | [_ ->]]]; try discriminate Hcode.
    apply andb_true_iff in H. destruct H as [Hf Ha].
    apply Hneb in Hf. destruct Hf as [H1 H2]. now repeat split.
  - intros (H1 & H2 & Ha). exists HCPCS_J7613. split; [|reflexivity].
    apply in_supplies_for. left. split; [|reflexivity].
    apply andb_true_iff. split; [apply Hneb; now split | exact Ha].
Qed.

Lemma nebulizer_rule_witness :
  let note := lit "Nebraska visit; flu shot done." in
  has_note (note_envelope note) note /\
  exists icd10 cpt_em procedures hcpcs,
    tiny_rules (note_envelope note) = Ok (icd10, cpt_em, procedures, hcpcs) /\
    exists p, In p procedures /\ has_code "94640" p = true.
Proof.
  cbv zeta. split; [apply has_note_envelope|].
  destruct (nebulizer_rule _ _
              (has_note_envelope (lit "Nebraska visit; flu shot done.")))
    as (icd10 & cpt_em & procedures & hcpcs & Hrun & Hneb & _).
  exists icd10, cpt_em, procedures, hcpcs. split; [exact Hrun|].
  apply Hneb. split.
  - apply contains_lower_iff. reflexivity.
  - apply (mentions_intro _ (lit "done")); [simpl; auto | reflexivity].
Defined.

(** X6. The injection code 96372 is among the procedures exactly when an
    injection anchor occurs in the note and a performed-hint occurs
    anywhere in it. *)
Theorem injection_code_iff (envelope : dict) (note : str) :
  has_note envelope note ->
  exists icd10 cpt_em procedures hcpcs,
    tiny_rules envelope = Ok (icd10, cpt_em, procedures, hcpcs) /\
    ((exists p, In p procedures /\ has_code "96372" p = true) <->
     mentions note INJECTION_ANCHORS /\ mentions note PERFORMED_HINTS).
Proof.
  intros Hnote. rewrite (tiny_rules_note envelope note Hnote).
  do 4 eexists. split; [reflexivity|].
  rewrite <- injection_fires_iff. split.
  - intros (p & Hin & Hcode). apply in_procedures_for in Hin.
    destruct Hin as [[_ ->] | [[_ ->] | [H _]]]; [|discriminate Hcode|exact H].
    destruct (any_of TWO_VIEW_PHRASES (lower note)); discriminate Hcode.
  - intros H. exists CPT_96372. split; [|reflexivity].
    apply in_procedures_for. right. right. now split.
Qed.

Lemma injection_code_iff_witness :
  let note := lit "Intramuscular dose planned." in
  has_note (note_envelope note) note /\
  exists icd10 cpt_em procedures hcpcs,
    tiny_rules (note_envelope note) = Ok (icd10, cpt_em, procedures, hcpcs) /\
    ((exists p, In p procedures /\ has_code "96372" p = true) <->
     mentions note INJECTION_ANCHORS /\ mentions note PERFORMED_HINTS).
Proof.
  cbv zeta. split; [apply has_note_envelope|].
  exact (injection_code_iff _ _
           (has_note_envelope (lit "Intramuscular dose planned."))).
Defined.

(** X7. The anchors "injection given" and "shot given" contain the
    performed-hint "given": either of them in the note is enough for the
    injection code 96372, with no other sign that it was performed. *)
Theorem given_anchor_suffices (envelope : dict) (note : str) :
  has_note envelope note ->
  mentions note [ lit "injection given"; lit "shot given" ] ->
  exists icd10 cpt_em procedures hcpcs,
    tiny_rules envelope = Ok (icd10, cpt_em, procedures, hcpcs) /\
    exists p, In p procedures /\ has_code "96372" p = true.
Proof.
  intros Hnote (t & Hin & Ht).
  rewrite (tiny_rules_note envelope note Hnote).
  do 4 eexists. split; [reflexivity|].
  exists CPT_96372. split; [|reflexivity].
  apply in_procedures_for. right. right. split; [|reflexivity].
  apply injection_fires_iff.
  assert (Hlow : lower t = t /\ contains t (lit "given") = true /\
                 In t INJECTION_ANCHORS).
  { destruct Hin as [<- | [<- | []]]; repeat split; simpl; auto. }
  destruct Hlow as (Hlow & Hgiven & Hanchor).
  split; [exists t; now split|].
  apply (mentions_intro _ (lit "given")); [simpl; auto 10|].
  apply (contains_lower_literal note t Hlow) in Ht.
  exact (contains_trans _ _ _ Ht Hgiven).
Qed.

Lemma given_anchor_suffices_witness :
  let note := lit "Flu shot given." in
  has_note (note_envelope note) note /\
  exists icd10 cpt_em procedures hcpcs,
    tiny_rules (note_envelope note) = Ok (icd10, cpt_em, procedures, hcpcs) /\
    exists p, In p procedures /\ has_code "96372" p = true.
Proof.
  cbv zeta. split; [apply has_note_envelope|].
  apply (given_anchor_suffices _ _ (has_note_envelope (lit "Flu shot given."))).
  apply (mentions_intro _ (lit "shot given")); [simpl; auto | reflexivity].
Defined.

(** X8. There are at most three procedures and at most two supplies, never
    more supplies than procedures, and no supply comes without the
    procedure that administers it: J7613 only with 94640, and J0696 or
    J1100 only with 96372. *)
Theorem supplies_need_procedures (envelope : dict) (note : str) :
  has_note envelope note ->
  exists icd10 cpt_em procedures hcpcs,
    tiny_rules envelope = Ok (icd10, cpt_em, procedures, hcpcs) /\
    (List.length procedures <= 3)%nat /\
    (List.length hcpcs <= 2)%nat /\
    (List.length hcpcs <= List.length procedures)%nat /\
    ((exists h, In h hcpcs /\ has_code "J7613" h = true) ->
     exists p, In p procedures /\ has_code "94640" p = true) /\
    ((exists h, In h hcpcs /\ is_injection_drug h = true) ->
     exists p, In p procedures /\ has_code "96372" p = true).
Proof.
  intros Hnote. rewrite (tiny_rules_note envelope note Hnote).
  do 4 eexists. split; [reflexivity|].
  set (low := lower note).
  assert (Hlen : (List.length (procedures_for low) <= 3)%nat /\
                 (List.length (supplies_for low) <= 2)%nat /\
                 (List.length (supplies_for low)
                  <= List.length (procedures_for low))%nat).
  { unfold procedures_for, supplies_for.
    destruct (imaging_fires low), (nebulizer_fires low), (injection_fires low),
      (contains low (lit "albuterol")), (contains low (lit "ceftriaxone")),
      (contains low (lit "dexamethasone")); cbn; lia. }
  destruct Hlen as (H1 & H2 & H3).
  split; [exact H1|]. split; [exact H2|]. split; [exact H3|]. split.
  - intros (h & Hin & Hcode). apply in_supplies_for in Hin.
    destruct Hin as [[H _] | [[_ ->] | [_ ->]]]; try discriminate Hcode.
    apply andb_true_iff in H. destruct H as [Hf _].
    exists CPT_94640. split; [|reflexivity].
    apply in_procedures_for. right. left. now split.
  - intros (h & Hin & Hcode). apply in_supplies_for in Hin.
    assert (Hf : injection_fires low = true).
    { destruct Hin as [[_ ->] | [[H _] | [H _]]]; [discriminate Hcode| |].
      - apply andb_true_iff in H. now destruct H.
      - apply andb_true_iff in H. destruct H as [H _].
        apply andb_true_iff in H. now destruct H. }
    exists CPT_96372. split; [|reflexivity].
    apply in_procedures_for. right. right. now split.
Qed.

Lemma supplies_need_procedures_witness :
  let note :=
    lit "Nebulizer given with albuterol; IM injection of ceftriaxone." in
  has_note (note_envelope note) note /\
  exists icd10 cpt_em procedures hcpcs,
    tiny_rules (note_envelope note) = Ok (icd10, cpt_em, procedures, hcpcs) /\
    (List.length hcpcs <= List.length procedures)%nat.
Proof.
  cbv zeta. split; [apply has_note_envelope|].
  destruct (supplies_need_procedures _ _
              (has_note_envelope
                 (lit "Nebulizer given with albuterol; IM injection of ceftriaxone.")))
    as (icd10 & cpt_em & procedures & hcpcs & Hrun & _ & _ & H & _).
  exists icd10, cpt_em, procedures, hcpcs. now split.
Defined.

(** X9. The result of [tiny_rules] depends on the envelope through the
    lower-cased note text only: two envelopes whose notes differ in letter
    case at most, whatever else they hold, get the same result. *)
Theorem detection_ignores_case (envelope envelope' : dict) (note note' : str) :
  has_note envelope note -> has_note envelope' note' ->
  lower note = lower note' ->
  tiny_rules envelope = tiny_rules envelope'.
Proof.
  intros H H' Hlow.
  now rewrite (tiny_rules_note _ _ H), (tiny_rules_note _ _ H'), Hlow.
Qed.

Lemma detection_ignores_case_witness :
  tiny_rules (note_envelope (lit "COUGH and Fever"))
  = tiny_rules
      ((lit "claim_id", VInt 7) :: note_envelope (lit "cough and fever")).
Proof.
  apply (detection_ignores_case _ _ (lit "COUGH and Fever")
           (lit "cough and fever")).
  - apply has_note_envelope.
  - now exists [ (lit "text_preview", VStr (lit "cough and fever")) ].
  - reflexivity.
Defined.

(** ** When [tiny_rules] raises *)

(** X10. [tiny_rules] returns exactly when the note can be read (a
    [clinical_note] that is absent, false in a condition, or an object
    whose [text_preview] is absent or a string), and otherwise raises
    [AttributeError]; it raises nothing else. *)
Theorem tiny_rules_raises (envelope : dict) :
  (note_readable envelope = true -> exists r, tiny_rules envelope = Ok r) /\
  (note_readable envelope = false -> tiny_rules envelope = Raise AttributeError).
Proof.
  set (X := py_get (py_or (dict_get envelope (lit "clinical_note") VNone)
                          (VDict []))
                   (lit "text_preview") (VStr [])).
  assert (Hok : note_readable envelope = true -> exists s, X = Ok (VStr s)).
  { unfold X, note_readable, dict_get, py_or.
    destruct (lookup envelope (lit "clinical_note")) as [v|]; [|now exists []].
    destruct (truthy v); [|now exists []].
    destruct v as [| | | | | |cn]; try discriminate. cbn [is_object py_get].
    unfold absent_or, dict_get.
    destruct (lookup cn (lit "text_preview")) as [t|]; [|now exists []].
    destruct t; try discriminate. intros _. now eexists. }
  assert (Hbad : note_readable envelope = false ->
                 X = Raise AttributeError \/
                 exists t, X = Ok t /\ py_lower t = Raise AttributeError).
  { unfold X, note_readable, dict_get, py_or.
    destruct (lookup envelope (lit "clinical_note")) as [v|]; [|discriminate].
    destruct (truthy v); [|discriminate].
    destruct v as [| | | | | |cn]; try (intros _; now left).
    cbn [is_object py_get]. unfold absent_or, dict_get.
    destruct (lookup cn (lit "text_preview")) as [t|]; [|discriminate].
    destruct t; try discriminate; intros _; right; now eexists. }
  split.
  - intros H. destruct (Hok H) as [s Hs]. eexists.
    apply (tiny_rules_run envelope s). exact Hs.
  - intros H. unfold tiny_rules. fold X.
    destruct (Hbad H) as [-> | (t & -> & Ht)]; [reflexivity|].
    cbn [rbind]. now rewrite Ht.
Qed.

Lemma tiny_rules_raises_witness :
  note_readable [ (lit "clinical_note", VNone) ] = true /\
  (exists r, tiny_rules [ (lit "clinical_note", VNone) ] = Ok r) /\
  note_readable [ (lit "clinical_note", VStr (lit "cough")) ] = false /\
  tiny_rules [ (lit "clinical_note", VStr (lit "cough")) ]
  = Raise AttributeError.
Proof.
  split; [reflexivity|]. split.
  - now apply (tiny_rules_raises [ (lit "clinical_note", VNone) ]).
  - split; [reflexivity|].
    now apply (tiny_rules_raises [ (lit "clinical_note", VStr (lit "cough")) ]).
Defined.

(** * Further properties of the builder *)

Section BuilderRuns.

Variable py_str : value -> str.

(** ** What the makers put in *)

Lemma make_condition_from (pat_id enc_id cond_id : str) (d c : value) :
  make_condition py_str pat_id enc_id cond_id d = Ok c ->
  condition_from py_str d c.
Proof.
  destruct d as [| | | | | |o]; try discriminate.
  unfold make_condition, py_get, py_getitem.
  destruct (lookup o (lit "code")) as [code|] eqn:Hcode; [|discriminate].
  cbn [rbind]. intros [= <-].
  assert (Hget : VDict o @> "code" = code)
    by (unfold get, dict_get; now rewrite Hcode).
  unfold condition_from, coding_from. rewrite Hget. repeat split.
Qed.

Lemma make_item_from (claim : dict) (c : value) (default_system : str)
    (encounter : value) (enc_id : str) (line : value) :
  make_item claim c default_system encounter enc_id = Ok line ->
  line_from default_system c line.
Proof.
  unfold make_item.
  destruct (py_getitem (VDict claim) (lit "item")) as [items|]; [|discriminate].
  cbn [rbind]. destruct (py_len items) as [n|]; [|discriminate]. cbn [rbind].
  destruct c as [| | | | | |o]; try discriminate.
  unfold py_get at 1 2 3. unfold py_getitem.
  destruct (lookup o (lit "code")) as [code|] eqn:Hcode; [|discriminate].
  cbn [rbind]. destruct (py_get encounter (lit "date") VNone); [|discriminate].
  cbn [rbind]. intros [= <-].
  assert (Hget : VDict o @> "code" = code)
    by (unfold get, dict_get; now rewrite Hcode).
  unfold line_from, coding_from. rewrite Hget. repeat split.
Qed.

Lemma make_procedure_from (i : Z) (p : value) (e : dict) (entry : value) :
  make_procedure i p (VDict e) = Ok entry ->
  procedure_from (VDict e) p entry.
Proof.
  unfold make_procedure. unfold py_get at 1. cbn [rbind].
  destruct p as [| | | | | |o]; try discriminate.
  unfold py_get, py_getitem.
  destruct (lookup o (lit "code")) as [code|] eqn:Hcode; [|discriminate].
  cbn [rbind]. intros [= <-].
  assert (Hget : VDict o @> "code" = code)
    by (unfold get, dict_get; now rewrite Hcode).
  unfold procedure_from, coding_from. rewrite Hget. repeat split.
Qed.

(** ** The loops, with what each round makes *)

Lemma draw_tick (w : world) (k : nat) : draw (tick_uuid w) k = draw w (S k).
Proof. unfold draw. cbn [tick_uuid uuid_hex8 uuid_reads]. f_equal. lia. Qed.

Lemma draw_0 (w : world) : draw w 0 = uuid_hex8 w (uuid_reads w).
Proof. unfold draw. f_equal. lia. Qed.

Lemma draw_ticks (n : nat) (w : world) (k : nat) :
  draw (ticks n w) k = draw w (n + k).
Proof.
  revert w; induction n as [|n IH]; intros w; [reflexivity|].
  cbn [ticks]. now rewrite IH, draw_tick.
Qed.

Lemma ticks_add (n m : nat) (w : world) : ticks (n + m) w = ticks m (ticks n w).
Proof. revert w; induction n as [|n IH]; intros w; [reflexivity | apply IH]. Qed.

Lemma ticks_counts (n : nat) (w : world) :
  uuid_reads (ticks n w) = (uuid_reads w + n)%nat /\
  clock_reads (ticks n w) = clock_reads w /\
  uuid_hex8 (ticks n w) = uuid_hex8 w /\
  utcnow (ticks n w) = utcnow w.
Proof.
  revert w; induction n as [|n IH]; intros w.
  - repeat split. cbn [ticks]. lia.
  - cbn [ticks]. destruct (IH (tick_uuid w)) as (H1 & H2 & H3 & H4).
    rewrite H1, H2, H3, H4. cbn [tick_uuid uuid_reads clock_reads uuid_hex8 utcnow].
    repeat split. lia.
Qed.

Lemma of_nat_is_one (i : nat) : (Z.of_nat i =? 1) = (i =? 1)%nat.
Proof.
  destruct (Nat.eqb_spec i 1) as [-> | H]; [reflexivity|].
  apply Z.eqb_neq. lia.
Qed.

(** The loop over the diagnoses: the identifiers it draws, and what it
    puts into the Conditions and into Claim.diagnosis[]. *)
Lemma condition_loop_full (pat_id enc_id : str) (icd10 : list value) :
  forallb is_coded icd10 = true ->
  forall (i : nat) (w : world) (condition_entries claim_diagnosis : list value),
    exists conds diags,
      for_enumerate (condition_step py_str pat_id enc_id) (Z.of_nat i) icd10
        (condition_entries, claim_diagnosis) w
      = Ok ((condition_entries ++ map entry_of conds, claim_diagnosis ++ diags),
            ticks (List.length icd10) w) /\
      Forall2 (condition_link pat_id enc_id) conds diags /\
      Forall2 (condition_from py_str) icd10 conds /\
      map (get "id") conds
      = map (fun k => VStr (lit "cond-" ++ draw w k))
            (seq 0 (List.length icd10)) /\
      map (get "sequence") diags = run_from i (List.length icd10) /\
      map diag_type diags
      = map (fun k => VStr (if (k =? 1)%nat then lit "principal"
                            else lit "additional"))
            (seq i (List.length icd10)).
Proof.
  induction icd10 as [|d icd10 IH]; intros Hall i w ces cds.
  - exists [], []. cbn [for_enumerate map List.length ticks seq].
    rewrite !app_nil_r. repeat split; constructor.
  - cbn [forallb] in Hall. apply andb_true_iff in Hall. destruct Hall as [Hd Hall].
    set (cond_id := lit "cond-" ++ uuid_hex8 w (uuid_reads w)).
    destruct (make_condition_ok py_str pat_id enc_id cond_id d Hd)
      as (c & Hc & Htype & Hid & Hsubject & Hencounter).
    destruct (IH Hall (S i) (tick_uuid w) (ces ++ [entry_of c])
                (cds ++ [make_claim_diagnosis (Z.of_nat i) cond_id]))
      as (conds & diags & Hrun & Hlinks & Hfrom & Hids & Hseqs & Htypes).
    exists (c :: conds), (make_claim_diagnosis (Z.of_nat i) cond_id :: diags).
    split.
    { cbn [for_enumerate]. unfold condition_step at 1.
      unfold bind at 1. rewrite bind_uuid. fold cond_id.
      rewrite (bind_lift_ok _ _ _ _ Hc). unfold ret.
      fold (entry_of c). replace (Z.of_nat i + 1) with (Z.of_nat (S i)) by lia.
      rewrite Hrun. cbn [map List.length ticks]. now rewrite <- !app_assoc. }
    split.
    { constructor; [|exact Hlinks].
      repeat split; try assumption. exists cond_id. now split. }
    split; [constructor; [exact (make_condition_from _ _ _ _ _ Hc) | exact Hfrom]|].
    split.
    { cbn [map List.length seq]. rewrite Hid, Hids, <- seq_shift, map_map.
      unfold cond_id. rewrite <- draw_0. f_equal.
      apply map_ext. intros k. now rewrite draw_tick. }
    split.
    { cbn [map List.length]. now rewrite run_from_cons, Hseqs. }
    cbn [map List.length seq]. rewrite Htypes. f_equal.
    unfold diag_type, make_claim_diagnosis. cbn. now rewrite of_nat_is_one.
Qed.

(** The loop over the procedures, with what each round makes. *)
Lemma procedure_loop_made (e : dict) (enc_id : str) (w : world)
    (procedures : list value) :
  forallb is_coded procedures = true ->
  forall (i : nat) (claim : dict) (entries lines : list value),
    lookup claim (lit "procedure") = Some (VList entries) ->
    lookup claim (lit "item") = Some (VList lines) ->
    exists claim' new_entries new_lines,
      for_enumerate (procedure_step (VDict e) enc_id) (Z.of_nat i) procedures
        claim w = Ok (claim', w) /\
      lookup claim' (lit "procedure") = Some (VList (entries ++ new_entries)) /\
      lookup claim' (lit "item") = Some (VList (lines ++ new_lines)) /\
      lookup claim' (lit "supportingInfo") = lookup claim (lit "supportingInfo") /\
      claim_frame claim claim' /\
      map (get "sequence") new_entries = run_from i (List.length procedures) /\
      map (get "sequence") new_lines
      = run_from (S (List.length lines)) (List.length procedures) /\
      Forall2 (procedure_from (VDict e)) procedures new_entries /\
      Forall2 (line_from CPT_SYSTEM) procedures new_lines /\
      Forall2 (line_for (VDict e) enc_id) procedures new_lines.
Proof.
  induction procedures as [|p procedures IH]; intros Hall i claim entries lines Hp Hi.
  - exists claim, [], []. cbn [for_enumerate]. rewrite !app_nil_r.
    repeat split;
      first [assumption | apply claim_frame_refl | constructor | reflexivity].
  - cbn [forallb] in Hall. apply andb_true_iff in Hall. destruct Hall as [Hc Hall].
    destruct (make_procedure_ok (Z.of_nat i) p e Hc) as (entry & Hentry & Hes & _).
    set (claim1 := dict_set claim (lit "procedure") (VList (entries ++ [entry]))).
    assert (Hi1 : lookup claim1 (lit "item") = Some (VList lines)).
    { unfold claim1. rewrite lookup_dict_set_other; [exact Hi | reflexivity]. }
    destruct (make_item_ok claim1 p CPT_SYSTEM e enc_id lines Hi1 Hc)
      as (line & Hline & Hls & Hfor).
    set (claim2 := dict_set claim1 (lit "item") (VList (lines ++ [line]))).
    assert (Hstep : procedure_step (VDict e) enc_id (Z.of_nat i) p claim w
                    = Ok (claim2, w)).
    { unfold procedure_step, lift. rewrite Hentry. cbn [rbind].
      rewrite (append_at_ok _ _ _ _ Hp). cbn [rbind]. fold claim1.
      rewrite Hline. cbn [rbind]. now rewrite (append_at_ok _ _ _ _ Hi1). }
    assert (Hp2 : lookup claim2 (lit "procedure") = Some (VList (entries ++ [entry]))).
    { unfold claim2. rewrite lookup_dict_set_other by reflexivity.
      apply lookup_dict_set_same. }
    assert (Hi2 : lookup claim2 (lit "item") = Some (VList (lines ++ [line])))
      by apply lookup_dict_set_same.
    destruct (IH Hall (S i) claim2 _ _ Hp2 Hi2)
      as (claim' & new_entries & new_lines & Hrun & Hp' & Hi' & Hs' & Hf' & Hseqs
          & Hlseqs & Hpfrom & Hlfrom & Hlines).
    exists claim', (entry :: new_entries), (line :: new_lines).
    cbn [for_enumerate]. rewrite (bind_ok _ _ _ _ _ Hstep).
    replace (Z.of_nat i + 1) with (Z.of_nat (S i)) by lia.
    split; [exact Hrun|].
    split; [now rewrite Hp', <- app_assoc|].
    split; [now rewrite Hi', <- app_assoc|].
    split.
    { rewrite Hs'. unfold claim2, claim1.
      now rewrite !lookup_dict_set_other by reflexivity. }
    split.
    { eapply claim_frame_trans; [|exact Hf'].
      eapply claim_frame_trans; [apply claim_frame_procedure | apply claim_frame_item]. }
    split; [cbn [map List.length]; now rewrite run_from_cons, Hes, Hseqs|].
    split.
    { cbn [map List.length]. rewrite run_from_cons, Hls, Hlseqs.
      rewrite length_app. cbn [List.length].
      f_equal; [f_equal; lia | f_equal; lia]. }
    split; [constructor; [exact (make_procedure_from _ _ _ _ Hentry) | exact Hpfrom]|].
    split; [constructor; [exact (make_item_from _ _ _ _ _ _ Hline) | exact Hlfrom]|].
    constructor; assumption.
Qed.

(** The loop over the supplies, with what each round makes. *)
Lemma supply_loop_made (e : dict) (enc_id : str) (w : world)
    (hcpcs : list value) :
  forallb is_coded hcpcs = true ->
  forall (claim : dict) (lines : list value),
    lookup claim (lit "item") = Some (VList lines) ->
    exists claim' new_lines,
      for_each (supply_step (VDict e) enc_id) hcpcs claim w = Ok (claim', w) /\
      lookup claim' (lit "item") = Some (VList (lines ++ new_lines)) /\
      lookup claim' (lit "procedure") = lookup claim (lit "procedure") /\
      lookup claim' (lit "supportingInfo") = lookup claim (lit "supportingInfo") /\
      claim_frame claim claim' /\
      map (get "sequence") new_lines
      = run_from (S (List.length lines)) (List.length hcpcs) /\
      Forall2 (line_from HCPCS_SYSTEM) hcpcs new_lines /\
      Forall2 (line_for (VDict e) enc_id) hcpcs new_lines.
Proof.
  induction hcpcs as [|h hcpcs IH]; intros Hall claim lines Hi.
  - exists claim, []. cbn [for_each]. rewrite app_nil_r.
    repeat split;
      first [assumption | apply claim_frame_refl | constructor | reflexivity].
  - cbn [forallb] in Hall. apply andb_true_iff in Hall. destruct Hall as [Hc Hall].
    destruct (make_item_ok claim h HCPCS_SYSTEM e enc_id lines Hi Hc)
      as (line & Hline & Hls & Hfor).
    set (claim1 := dict_set claim (lit "item") (VList (lines ++ [line]))).
    assert (Hstep : supply_step (VDict e) enc_id h claim w = Ok (claim1, w)).
    { unfold supply_step, lift. rewrite Hline. cbn [rbind].
      now rewrite (append_at_ok _ _ _ _ Hi). }
    assert (Hi1 : lookup claim1 (lit "item") = Some (VList (lines ++ [line])))
      by apply lookup_dict_set_same.
    destruct (IH Hall claim1 _ Hi1)
      as (claim' & new_lines & Hrun & Hi' & Hp' & Hs' & Hf' & Hseqs & Hlfrom
          & Hlines).
    exists claim', (line :: new_lines).
    cbn [for_each]. rewrite (bind_ok _ _ _ _ _ Hstep).
    split; [exact Hrun|].
    split; [now rewrite Hi', <- app_assoc|].
    split; [rewrite Hp'; unfold claim1; now rewrite lookup_dict_set_other by reflexivity|].
    split; [rewrite Hs'; unfold claim1; now rewrite lookup_dict_set_other by reflexivity|].
    split; [eapply claim_frame_trans; [apply claim_frame_item | exact Hf']|].
    split.
    { cbn [map List.length]. rewrite run_from_cons, Hls, Hseqs.
      rewrite length_app. cbn [List.length].
      f_equal; [f_equal; lia | f_equal; lia]. }
    split; [constructor; [exact (make_item_from _ _ _ _ _ _ Hline) | exact Hlfrom]|].
    constructor; assumption.
Qed.

(** ** The E/M block *)

Lemma add_em_made (claim : dict) (cpt_em : value) (e : dict) (enc_id : str) :
  is_visit_code cpt_em = true ->
  lookup claim (lit "item") = Some (VList []) ->
  lookup claim (lit "supportingInfo") = Some (VList []) ->
  exists claim' line info,
    add_em py_str claim cpt_em (VDict e) enc_id = Ok claim' /\
    lookup claim' (lit "item") = Some (VList [line]) /\
    lookup claim' (lit "supportingInfo") = Some (VList [info]) /\
    lookup claim' (lit "procedure") = lookup claim (lit "procedure") /\
    claim_frame claim claim' /\
    line @> "sequence" = VInt 1 /\
    line_for (VDict e) enc_id cpt_em line /\
    line_from CPT_SYSTEM cpt_em line /\
    info @> "sequence" = VInt 1 /\
    item_at 0 (info @> "category" @> "coding") @> "code" = VStr (lit "info") /\
    info @> "valueString"
    = VStr (lit "E/M assumes patient status="
            ++ py_str (get_or "assumed_patient_status" (VStr (lit "unknown")) cpt_em)
            ++ lit " (confidence=" ++ py_str (cpt_em @> "confidence") ++ lit ")").
Proof.
  intros Hem Hitem Hinfo.
  destruct (is_visit_code_inv cpt_em Hem) as [Hcoded Hgo].
  destruct (make_item_ok claim cpt_em CPT_SYSTEM e enc_id [] Hitem Hcoded)
    as (line & Hline & Hseq & Hfor).
  pose proof (make_item_from _ _ _ _ _ _ Hline) as Hfrom.
  unfold add_em. rewrite Hgo. cbn [rbind]. rewrite Hline. cbn [rbind].
  rewrite (append_at_ok _ _ _ _ Hitem). cbn [rbind app].
  set (claim1 := dict_set claim (lit "item") (VList [line])).
  assert (Hinfo1 : lookup claim1 (lit "supportingInfo") = Some (VList [])).
  { unfold claim1. rewrite lookup_dict_set_other; [exact Hinfo | reflexivity]. }
  destruct (is_coded_inv cpt_em Hcoded) as (d & code & -> & _).
  unfold make_supporting_info, py_getitem, py_get. rewrite Hinfo1.
  cbn [rbind py_len]. rewrite (append_at_ok _ _ _ _ Hinfo1). cbn [app].
  do 3 eexists. split; [reflexivity|].
  split.
  { rewrite lookup_dict_set_other by reflexivity. apply lookup_dict_set_same. }
  split; [apply lookup_dict_set_same|].
  split.
  { rewrite lookup_dict_set_other by reflexivity.
    unfold claim1. now rewrite lookup_dict_set_other by reflexivity. }
  split.
  { eapply claim_frame_trans; [apply claim_frame_item | apply claim_frame_info]. }
  split; [exact Hseq|]. split; [exact Hfor|]. split; [exact Hfrom|].
  repeat split.
Qed.

Lemma add_em_none (claim : dict) (cpt_em encounter : value) (enc_id : str) :
  no_visit_code cpt_em = true ->
  add_em py_str claim cpt_em encounter enc_id = Ok claim.
Proof.
  unfold no_visit_code, add_em, em_present.
  destruct cpt_em as [|b|z|f|s|l|d]; cbn [truthy]; intros H.
  - reflexivity.
  - destruct b; [discriminate H | reflexivity].
  - destruct (z =? 0); [reflexivity | discriminate H].
  - destruct (PrimFloat.eqb f 0); [reflexivity | discriminate H].
  - destruct s; [reflexivity | discriminate H].
  - destruct l; [reflexivity | discriminate H].
  - destruct d as [|kv d]; [reflexivity|].
    unfold py_get. cbn [rbind]. apply negb_true_iff in H. now rewrite H.
Qed.

(** ** The builder up to the first Claim *)

Lemma builder_shape_objects (envelope : dict) :
  builder_shape envelope = true ->
  exists p e m,
    patient_of envelope = VDict p /\ absent_or is_str p "sex" = true /\
    encounter_of envelope = VDict e /\ meta_of envelope = VDict m.
Proof.
  unfold builder_shape. intros H.
  apply andb_true_iff in H. destruct H as [H Hm].
  apply andb_true_iff in H. destruct H as [Hp He].
  apply (is_object_inv _ _ _ []) in Hp, He, Hm.
  destruct Hp as (p & Hp & Hsex), He as (e & He & _), Hm as (m & Hm & _).
  exists p, e, m. repeat split; try assumption.
  destruct Hsex as [-> | Hsex]; [reflexivity | exact Hsex].
Qed.

Lemma envelope_shape_builder (envelope : dict) :
  envelope_shape envelope = true -> builder_shape envelope = true.
Proof.
  unfold envelope_shape, builder_shape. intros H.
  apply andb_true_iff in H. destruct H as [H Hm].
  apply andb_true_iff in H. destruct H as [H _].
  now rewrite H, Hm.
Qed.

Lemma make_claim_created (envelope : dict) (pat_id clm_id : str)
    (patient encounter claim_id_input : value) (created : str)
    (claim_diagnosis : list value) (claim : dict) :
  make_claim py_str envelope pat_id clm_id patient encounter claim_id_input
    created claim_diagnosis = Ok claim ->
  VDict claim @> "created" = VStr created.
Proof.
  unfold make_claim.
  destruct (py_get encounter (lit "provider_npi") (VStr [])); [|discriminate].
  cbn [rbind].
  destruct (py_get patient (lit "payer_name") (VStr [])); [|discriminate].
  cbn [rbind].
  destruct (py_get (dict_get envelope (lit "meta") (VDict [])) (lit "source")
              (VStr [])); [|discriminate].
  cbn [rbind]. now intros [= <-].
Qed.

Lemma build_prefix (envelope : dict) (icd10 : list value) (w : world) :
  builder_shape envelope = true ->
  forallb is_coded icd10 = true ->
  let pat_id := lit "pat-" ++ draw w 0 in
  let enc_id := lit "enc-" ++ draw w 1 in
  let clm_id := lit "clm-" ++ draw w 2 in
  exists pat enc conds diags claim0,
    (forall cpt_em procedures hcpcs,
        build_fhir_bundle py_str envelope icd10 cpt_em procedures hcpcs w
        = finish_bundle py_str pat enc (map entry_of conds)
            (encounter_of envelope) enc_id cpt_em procedures hcpcs claim0
            (tick_clock (ticks (3 + List.length icd10) w))) /\
    (exists e, encounter_of envelope = VDict e) /\
    patient_facts pat_id (patient_of envelope) pat /\
    encounter_facts pat_id enc_id (encounter_of envelope) enc /\
    claim_facts py_str envelope pat_id clm_id diags (VDict claim0) /\
    VDict claim0 @> "created" = VStr (reading w 0) /\
    lookup claim0 (lit "procedure") = Some (VList []) /\
    lookup claim0 (lit "item") = Some (VList []) /\
    lookup claim0 (lit "supportingInfo") = Some (VList []) /\
    Forall2 (condition_link pat_id enc_id) conds diags /\
    Forall2 (condition_from py_str) icd10 conds /\
    map (get "id") conds
    = map (fun k => VStr (lit "cond-" ++ draw w (3 + k)))
          (seq 0 (List.length icd10)) /\
    map (get "sequence") diags = run_from 1 (List.length icd10) /\
    map diag_type diags
    = map (fun k => VStr (if (k =? 1)%nat then lit "principal"
                          else lit "additional"))
          (seq 1 (List.length icd10)).
Proof.
  intros Hshape Hicd. cbv zeta.
  destruct (builder_shape_objects envelope Hshape) as (p & e & m & Hp & Hsex & He & Hm).
  assert (E0 : draw w 0 = uuid_hex8 w (uuid_reads w)) by apply draw_0.
  assert (E1 : draw w 1 = uuid_hex8 (tick_uuid w) (uuid_reads (tick_uuid w)))
    by (rewrite <- draw_0, draw_tick; reflexivity).
  assert (E2 : draw w 2 = uuid_hex8 (tick_uuid (tick_uuid w))
                            (uuid_reads (tick_uuid (tick_uuid w))))
    by (rewrite <- draw_0, !draw_tick; reflexivity).
  rewrite E0, E1, E2.
  set (pat_id := lit "pat-" ++ uuid_hex8 w (uuid_reads w)).
  set (enc_id := lit "enc-" ++ uuid_hex8 (tick_uuid w) (uuid_reads (tick_uuid w))).
  set (clm_id := lit "clm-" ++ uuid_hex8 (tick_uuid (tick_uuid w))
                               (uuid_reads (tick_uuid (tick_uuid w)))).
  destruct (make_patient_ok pat_id p Hsex) as (pat & Hpat & Hpat_facts).
  destruct (make_encounter_ok pat_id enc_id e) as (enc & Henc & Henc_facts).
  destruct (condition_loop_full pat_id enc_id icd10 Hicd 1 (ticks 3 w) [] [])
    as (conds & diags & Hloop & Hlinks & Hfrom & Hids & Hseqs & Htypes).
  rewrite <- ticks_add in Hloop.
  set (w4 := ticks (3 + List.length icd10) w) in *.
  destruct (ticks_counts (3 + List.length icd10) w) as (_ & Hclock & _ & Hnow).
  fold w4 in Hclock, Hnow.
  destruct (make_claim_ok py_str envelope pat_id clm_id p e m
              (py_or (dict_get envelope (lit "claim_id") VNone) (VStr clm_id))
              (utcnow w4 (clock_reads w4)) diags Hm)
    as (claim0 & Hclaim0 & Hfacts0 & Hp0 & Hi0 & Hs0).
  exists pat, enc, conds, diags, claim0.
  split.
  { intros cpt_em procedures hcpcs.
    unfold build_fhir_bundle. rewrite !bind_uuid. cbv beta zeta.
    fold pat_id enc_id clm_id.
    fold (patient_of envelope). fold (encounter_of envelope). rewrite Hp, He.
    rewrite (bind_lift_ok _ _ _ _ Hpat), (bind_lift_ok _ _ _ _ Henc).
    change 1 with (Z.of_nat 1) at 1.
    change (tick_uuid (tick_uuid (tick_uuid w))) with (ticks 3 w).
    rewrite (bind_ok _ _ _ _ _ Hloop). cbv beta iota zeta. cbn [app].
    rewrite bind_utcnow. fold w4.
    rewrite (bind_lift_ok _ _ _ _ Hclaim0). reflexivity. }
  split; [now exists e|].
  split; [rewrite Hp; unfold patient_facts, get_or; exact Hpat_facts|].
  split; [rewrite He; unfold encounter_facts, get_or; exact Henc_facts|].
  split.
  { unfold claim_facts. rewrite Hp, He, Hm. unfold get_or. exact Hfacts0. }
  split.
  { rewrite (make_claim_created _ _ _ _ _ _ _ _ _ Hclaim0).
    unfold reading. now rewrite Nat.add_0_r, <- Hclock, <- Hnow. }
  split; [exact Hp0|]. split; [exact Hi0|]. split; [exact Hs0|].
  split; [exact Hlinks|]. split; [exact Hfrom|].
  split.
  { rewrite Hids. apply map_ext. intros k. now rewrite draw_ticks. }
  split; [exact Hseqs | exact Htypes].
Qed.

(** ** The builder from the E/M block on *)

Lemma finish_run (pat enc : value) (ces : list value) (e : dict)
    (enc_id : str) (cpt_em : value) (procedures hcpcs : list value)
    (claim0 claim1 : dict) (lines : list value) (w : world) :
  add_em py_str claim0 cpt_em (VDict e) enc_id = Ok claim1 ->
  lookup claim1 (lit "procedure") = Some (VList []) ->
  lookup claim1 (lit "item") = Some (VList lines) ->
  forallb is_coded procedures = true ->
  forallb is_coded hcpcs = true ->
  exists bundle claim entries plines slines,
    finish_bundle py_str pat enc ces (VDict e) enc_id cpt_em procedures hcpcs
      claim0 w = Ok (bundle, tick_clock (tick_uuid w)) /\
    resources bundle = pat :: enc :: VDict claim :: map (get "resource") ces /\
    bundle @> "resourceType" = VStr (lit "Bundle") /\
    bundle @> "type" = VStr (lit "collection") /\
    bundle @> "id" = VStr (lit "bundle-" ++ draw w 0) /\
    bundle @> "timestamp" = VStr (reading w 0) /\
    claim_frame claim1 claim /\
    lookup claim (lit "supportingInfo") = lookup claim1 (lit "supportingInfo") /\
    lookup claim (lit "procedure") = Some (VList entries) /\
    lookup claim (lit "item") = Some (VList (lines ++ plines ++ slines)) /\
    map (get "sequence") entries = run_from 1 (List.length procedures) /\
    map (get "sequence") (plines ++ slines)
    = run_from (S (List.length lines))
        (List.length procedures + List.length hcpcs) /\
    Forall2 (procedure_from (VDict e)) procedures entries /\
    Forall2 (line_from CPT_SYSTEM) procedures plines /\
    Forall2 (line_from HCPCS_SYSTEM) hcpcs slines /\
    Forall2 (line_for (VDict e) enc_id) (procedures ++ hcpcs) (plines ++ slines).
Proof.
  intros Hadd Hp1 Hi1 Hprocs Hsup.
  destruct (procedure_loop_made e enc_id w procedures Hprocs 1 claim1 [] lines
              Hp1 Hi1)
    as (claim2 & entries & plines & Hrun2 & Hp2 & Hi2 & Hs2 & Hf2 & Hseqs
        & Hlseqs & Hpfrom & Hlfrom & Hlines2).
  destruct (supply_loop_made e enc_id w hcpcs Hsup claim2 _ Hi2)
    as (claim3 & slines & Hrun3 & Hi3 & Hp3 & Hs3 & Hf3 & Hlseqs3 & Hsfrom
        & Hlines3).
  unfold finish_bundle. rewrite (bind_lift_ok _ _ _ _ Hadd).
  change 1 with (Z.of_nat 1) at 1. rewrite (bind_ok _ _ _ _ _ Hrun2).
  rewrite (bind_ok _ _ _ _ _ Hrun3). rewrite bind_uuid, bind_utcnow. unfold ret.
  eexists. exists claim3, entries, plines, slines.
  split; [reflexivity|].
  split; [reflexivity|]. split; [reflexivity|]. split; [reflexivity|].
  split; [now rewrite draw_0|].
  split; [unfold reading; now rewrite Nat.add_0_r|].
  split; [eapply claim_frame_trans; [exact Hf2 | exact Hf3]|].
  split; [now rewrite Hs3, Hs2|].
  split; [now rewrite Hp3, Hp2|].
  split; [now rewrite Hi3, <- app_assoc|].
  split; [exact Hseqs|].
  split.
  { apply Forall2_length in Hlines2.
    rewrite map_app, Hlseqs, Hlseqs3, length_app, <- Hlines2.
    now rewrite (run_from_app (S (List.length lines)) (List.length procedures)). }
  split; [exact Hpfrom|]. split; [exact Hlfrom|]. split; [exact Hsfrom|].
  now apply Forall2_app.
Qed.

Lemma final_world_counts (n : nat) (w : world) :
  uuid_reads (final_world n w) = (uuid_reads w + 4 + n)%nat /\
  clock_reads (final_world n w) = (clock_reads w + 2)%nat /\
  uuid_hex8 (final_world n w) = uuid_hex8 w /\
  utcnow (final_world n w) = utcnow w.
Proof.
  unfold final_world.
  destruct (ticks_counts (3 + n) w) as (H1 & H2 & H3 & H4).
  cbn [tick_clock tick_uuid uuid_reads clock_reads uuid_hex8 utcnow].
  rewrite H1, H2, H3, H4. repeat split; lia.
Qed.

Lemma draw_after_prefix (n : nat) (w : world) :
  draw (tick_clock (ticks (3 + n) w)) 0 = draw w (3 + n).
Proof.
  unfold draw. destruct (ticks_counts (3 + n) w) as (H1 & _ & H3 & _).
  cbn [tick_clock uuid_hex8 uuid_reads]. rewrite H1, H3. f_equal. lia.
Qed.

Lemma reading_after_prefix (n : nat) (w : world) :
  reading (tick_clock (ticks (3 + n) w)) 0 = reading w 1.
Proof.
  unfold reading. destruct (ticks_counts (3 + n) w) as (_ & H2 & _ & H4).
  cbn [tick_clock utcnow clock_reads]. rewrite H2, H4. f_equal. lia.
Qed.

Lemma frame_claim_facts (envelope : dict) (pat_id clm_id : str)
    (diags : list value) (claim0 claim : dict) :
  claim_frame claim0 claim ->
  claim_facts py_str envelope pat_id clm_id diags (VDict claim0) ->
  claim_facts py_str envelope pat_id clm_id diags (VDict claim).
Proof.
  intros Hframe H. unfold claim_facts.
  now rewrite !(frame_get claim0 claim _ Hframe) by reflexivity.
Qed.

(** The whole run on inputs the builder accepts, with a visit code. *)
Lemma build_assembly (envelope : dict) (icd10 : list value) (cpt_em : value)
    (procedures hcpcs : list value) (w : world) :
  builder_shape envelope = true ->
  forallb is_coded icd10 = true ->
  is_visit_code cpt_em = true ->
  forallb is_coded procedures = true ->
  forallb is_coded hcpcs = true ->
  let pat_id := lit "pat-" ++ draw w 0 in
  let enc_id := lit "enc-" ++ draw w 1 in
  let clm_id := lit "clm-" ++ draw w 2 in
  exists bundle pat enc claim conds diags entries line0 plines slines info,
    build_fhir_bundle py_str envelope icd10 cpt_em procedures hcpcs w
    = Ok (bundle, final_world (List.length icd10) w) /\
    resources bundle = pat :: enc :: claim :: conds /\
    (bundle @> "resourceType" = VStr (lit "Bundle") /\
     bundle @> "type" = VStr (lit "collection") /\
     bundle @> "id" = VStr (lit "bundle-" ++ draw w (3 + List.length icd10)) /\
     bundle @> "timestamp" = VStr (reading w 1)) /\
    patient_facts pat_id (patient_of envelope) pat /\
    encounter_facts pat_id enc_id (encounter_of envelope) enc /\
    claim_facts py_str envelope pat_id clm_id diags claim /\
    claim @> "created" = VStr (reading w 0) /\
    claim @> "procedure" = VList entries /\
    claim @> "item" = VList (line0 :: plines ++ slines) /\
    claim @> "supportingInfo" = VList [info] /\
    (Forall2 (condition_link pat_id enc_id) conds diags /\
     Forall2 (condition_from py_str) icd10 conds /\
     map (get "id") conds
     = map (fun k => VStr (lit "cond-" ++ draw w (3 + k)))
           (seq 0 (List.length icd10)) /\
     map (get "sequence") diags = run_from 1 (List.length icd10) /\
     map diag_type diags
     = map (fun k => VStr (if (k =? 1)%nat then lit "principal"
                           else lit "additional"))
           (seq 1 (List.length icd10))) /\
    (line_from CPT_SYSTEM cpt_em line0 /\
     Forall2 (line_from CPT_SYSTEM) procedures plines /\
     Forall2 (line_from HCPCS_SYSTEM) hcpcs slines /\
     Forall2 (procedure_from (encounter_of envelope)) procedures entries) /\
    (info @> "sequence" = VInt 1 /\
     item_at 0 (info @> "category" @> "coding") @> "code" = VStr (lit "info") /\
     info @> "valueString"
     = VStr (lit "E/M assumes patient status="
             ++ py_str (get_or "assumed_patient_status" (VStr (lit "unknown"))
                          cpt_em)
             ++ lit " (confidence=" ++ py_str (cpt_em @> "confidence")
             ++ lit ")")).
Proof.
  intros Hshape Hicd Hem Hprocs Hsup. cbv zeta.
  destruct (build_prefix envelope icd10 w Hshape Hicd)
    as (pat & enc & conds & diags & claim0 & Hbuild & [e He] & Hpat & Henc
        & Hclaim & Hcreated & Hp0 & Hi0 & Hs0 & Hconds).
  destruct (add_em_made claim0 cpt_em e (lit "enc-" ++ draw w 1) Hem Hi0 Hs0)
    as (claim1 & line0 & info & Hadd & Hi1 & Hs1 & Hp1 & Hf1 & _ & _ & Hfrom0
        & Hinfo).
  rewrite Hp0 in Hp1.
  destruct (finish_run pat enc (map entry_of conds) e (lit "enc-" ++ draw w 1)
              cpt_em procedures hcpcs claim0 claim1 [line0]
              (tick_clock (ticks (3 + List.length icd10) w))
              Hadd Hp1 Hi1 Hprocs Hsup)
    as (bundle & claim & entries & plines & slines & Hrun & Hres & Hb1 & Hb2
        & Hb3 & Hb4 & Hf & Hs & Hp & Hi & _ & _ & Hpfrom & Hlfrom & Hsfrom & _).
  assert (Hframe : claim_frame claim0 claim)
    by (eapply claim_frame_trans; [exact Hf1 | exact Hf]).
  exists bundle, pat, enc, (VDict claim), conds, diags, entries, line0, plines,
    slines, info.
  split; [rewrite Hbuild, He; exact Hrun|].
  split; [now rewrite Hres, map_resource_entries|].
  split.
  { rewrite draw_after_prefix in Hb3. rewrite reading_after_prefix in Hb4.
    now repeat split. }
  split; [exact Hpat|]. split; [exact Henc|].
  split; [exact (frame_claim_facts _ _ _ _ _ _ Hframe Hclaim)|].
  split; [now rewrite (frame_get claim0 claim _ Hframe) by reflexivity|].
  split; [unfold get, dict_get; now rewrite Hp|].
  split; [unfold get, dict_get; now rewrite Hi|].
  split; [unfold get, dict_get; now rewrite Hs, Hs1|].
  split; [exact Hconds|].
  split.
  { rewrite He. split; [exact Hfrom0|]. split; [exact Hlfrom|].
    split; [exact Hsfrom | exact Hpfrom]. }
  exact Hinfo.
Qed.

End BuilderRuns.

(** ** The lists of the Claim and the Conditions *)

Lemma types_after_first (f : nat -> value) (rest : list value) (s : nat) (v : value) :
  (forall k, (s <= k)%nat -> f k = v) ->
  map f (seq s (List.length rest)) = map (fun _ => v) rest.
Proof.
  intros H. revert s H. induction rest as [|x rest IH]; intros s H; [reflexivity|].
  cbn [List.length seq map]. rewrite (H s) by lia. f_equal.
  apply IH. intros k Hk. apply H. lia.
Qed.

Lemma diag_types_from_one (icd10 : list value) :
  map (fun k => VStr (if (k =? 1)%nat then lit "principal" else lit "additional"))
      (seq 1 (List.length icd10))
  = match icd10 with
    | [] => []
    | _ :: rest =>
        VStr (lit "principal") :: map (fun _ => VStr (lit "additional")) rest
    end.
Proof.
  destruct icd10 as [|d rest]; [reflexivity|].
  cbn [List.length seq map Nat.eqb]. f_equal.
  apply types_after_first. intros k Hk.
  destruct (Nat.eqb_spec k 1) as [-> | _]; [lia | reflexivity].
Qed.

Lemma links_pair_ids (pat_id enc_id : str) (conds diags : list value) :
  Forall2 (condition_link pat_id enc_id) conds diags ->
  Forall2 (fun c d =>
             exists cond_id,
               c @> "id" = VStr cond_id /\
               d @> "diagnosisReference" @> "reference"
               = VStr (lit "Condition/" ++ cond_id))
          conds diags.
Proof.
  induction 1 as [|c d conds diags (_ & _ & _ & H) _ IH]; constructor; assumption.
Qed.

(** X11. Claim.diagnosis[] has one entry per diagnosis, in order: the
    sequence numbers are 1, 2, ..., n, the first entry is typed
    "principal" and every later one "additional", and the k-th entry
    refers to the k-th Condition of the bundle. *)
Theorem claim_diagnosis_list (py_str : value -> str) (envelope : dict)
    (icd10 : list value) (cpt_em : value) (procedures hcpcs : list value)
    (w : world) :
  builder_shape envelope = true ->
  forallb is_coded icd10 = true ->
  is_visit_code cpt_em = true ->
  forallb is_coded procedures = true ->
  forallb is_coded hcpcs = true ->
  exists bundle w' claim conds,
    build_fhir_bundle py_str envelope icd10 cpt_em procedures hcpcs w
    = Ok (bundle, w') /\
    of_type "Claim" (resources bundle) = [claim] /\
    of_type "Condition" (resources bundle) = conds /\
    let diags := elems (claim @> "diagnosis") in
    map (get "sequence") diags = run_from 1 (List.length icd10) /\
    map diag_type diags
    = match icd10 with
      | [] => []
      | _ :: rest =>
          VStr (lit "principal") :: map (fun _ => VStr (lit "additional")) rest
      end /\
    Forall2 (fun c d =>
               exists cond_id,
                 c @> "id" = VStr cond_id /\
                 d @> "diagnosisReference" @> "reference"
                 = VStr (lit "Condition/" ++ cond_id))
            conds diags.
Proof.
  intros Hshape Hicd Hem Hprocs Hsup.
  destruct (build_assembly py_str envelope icd10 cpt_em procedures hcpcs w
              Hshape Hicd Hem Hprocs Hsup)
    as (bundle & pat & enc & claim & conds & diags & entries & line0 & plines
        & slines & info & Hrun & Hres & _ & Hpat & Henc & Hclaim & _ & _ & _ & _
        & (Hlinks & _ & _ & Hseqs & Htypes) & _).
  destruct (resources_by_type _ _ _ _ _ Hres (proj1 Hpat) (proj1 Henc)
              (proj1 Hclaim) (links_are_conditions _ _ _ _ Hlinks))
    as (_ & _ & HC & HD).
  exists bundle, (final_world (List.length icd10) w), claim, conds.
  split; [exact Hrun|]. split; [exact HC|]. split; [exact HD|].
  destruct Hclaim as (_ & _ & _ & Hdiag & _). cbv zeta. rewrite Hdiag.
  cbn [elems]. split; [exact Hseqs|].
  split; [now rewrite Htypes, diag_types_from_one|].
  exact (links_pair_ids _ _ _ _ Hlinks).
Qed.

Lemma claim_diagnosis_list_witness :
  builder_shape [] = true /\
  forallb is_coded [DX_J20_9; DX_R06_2; DX_R05_9] = true /\
  is_visit_code CPT_EM = true /\
  exists bundle w' claim conds,
    build_fhir_bundle example_str [] [DX_J20_9; DX_R06_2; DX_R05_9] CPT_EM
      [] [] example_world = Ok (bundle, w') /\
    of_type "Claim" (resources bundle) = [claim] /\
    of_type "Condition" (resources bundle) = conds /\
    map diag_type (elems (claim @> "diagnosis"))
    = [ VStr (lit "principal"); VStr (lit "additional");
        VStr (lit "additional") ].
Proof.
  split; [reflexivity|]. split; [reflexivity|]. split; [reflexivity|].
  destruct (claim_diagnosis_list example_str [] [DX_J20_9; DX_R06_2; DX_R05_9]
              CPT_EM [] [] example_world eq_refl eq_refl eq_refl eq_refl eq_refl)
    as (bundle & w' & claim & conds & Hrun & HC & HD & _ & Htypes & _).
  exists bundle, w', claim, conds. now repeat split.
Defined.

(** X12. The Conditions of the bundle follow the diagnoses in order; each
    carries its diagnosis's code in a coding whose system falls back to
    the ICD-10-CM system and whose display falls back to the empty
    string, the statuses "confirmed" and "active", and a note made of the
    rank, confidence and rationale. *)
Theorem conditions_from_diagnoses (py_str : value -> str) (envelope : dict)
    (icd10 : list value) (cpt_em : value) (procedures hcpcs : list value)
    (w : world) :
  builder_shape envelope = true ->
  forallb is_coded icd10 = true ->
  is_visit_code cpt_em = true ->
  forallb is_coded procedures = true ->
  forallb is_coded hcpcs = true ->
  exists bundle w',
    build_fhir_bundle py_str envelope icd10 cpt_em procedures hcpcs w
    = Ok (bundle, w') /\
    Forall2 (condition_from py_str) icd10
            (of_type "Condition" (resources bundle)).
Proof.
  intros Hshape Hicd Hem Hprocs Hsup.
  destruct (build_assembly py_str envelope icd10 cpt_em procedures hcpcs w
              Hshape Hicd Hem Hprocs Hsup)
    as (bundle & pat & enc & claim & conds & diags & entries & line0 & plines
        & slines & info & Hrun & Hres & _ & Hpat & Henc & Hclaim & _ & _ & _ & _
        & (Hlinks & Hfrom & _) & _).
  destruct (resources_by_type _ _ _ _ _ Hres (proj1 Hpat) (proj1 Henc)
              (proj1 Hclaim) (links_are_conditions _ _ _ _ Hlinks))
    as (_ & _ & _ & HD).
  exists bundle, (final_world (List.length icd10) w).
  split; [exact Hrun|]. now rewrite HD.
Qed.

Lemma conditions_from_diagnoses_witness :
  builder_shape [] = true /\
  forallb is_coded [ VDict [ (lit "code", VStr (lit "Z00.0")) ] ] = true /\
  is_visit_code CPT_EM = true /\
  exists bundle w',
    build_fhir_bundle example_str [] [ VDict [ (lit "code", VStr (lit "Z00.0")) ] ]
      CPT_EM [] [] example_world = Ok (bundle, w') /\
    Forall2 (condition_from example_str)
            [ VDict [ (lit "code", VStr (lit "Z00.0")) ] ]
            (of_type "Condition" (resources bundle)).
Proof.
  split; [reflexivity|]. split; [reflexivity|]. split; [reflexivity|].
  exact (conditions_from_diagnoses example_str []
           [ VDict [ (lit "code", VStr (lit "Z00.0")) ] ] CPT_EM [] []
           example_world eq_refl eq_refl eq_refl eq_refl eq_refl).
Defined.

(** X13. With a visit code, Claim.supportingInfo[] has exactly one entry:
    sequence 1, category "info", and the text "E/M assumes patient
    status=S (confidence=C)" where S is the visit code's
    assumed_patient_status, "unknown" when it has none, and C its
    confidence. *)
Theorem supporting_info_entry (py_str : value -> str) (envelope : dict)
    (icd10 : list value) (cpt_em : value) (procedures hcpcs : list value)
    (w : world) :
  builder_shape envelope = true ->
  forallb is_coded icd10 = true ->
  is_visit_code cpt_em = true ->
  forallb is_coded procedures = true ->
  forallb is_coded hcpcs = true ->
  exists bundle w' claim info,
    build_fhir_bundle py_str envelope icd10 cpt_em procedures hcpcs w
    = Ok (bundle, w') /\
    of_type "Claim" (resources bundle) = [claim] /\
    claim @> "supportingInfo" = VList [info] /\
    info @> "sequence" = VInt 1 /\
    item_at 0 (info @> "category" @> "coding") @> "code" = VStr (lit "info") /\
    info @> "valueString"
    = VStr (lit "E/M assumes patient status="
            ++ py_str (get_or "assumed_patient_status" (VStr (lit "unknown"))
                         cpt_em)
            ++ lit " (confidence=" ++ py_str (cpt_em @> "confidence")
            ++ lit ")").
Proof.
  intros Hshape Hicd Hem Hprocs Hsup.
  destruct (build_assembly py_str envelope icd10 cpt_em procedures hcpcs w
              Hshape Hicd Hem Hprocs Hsup)
    as (bundle & pat & enc & claim & conds & diags & entries & line0 & plines
        & slines & info & Hrun & Hres & _ & Hpat & Henc & Hclaim & _ & _ & _
        & Hinfos & (Hlinks & _) & _ & Hinfo).
  destruct (resources_by_type _ _ _ _ _ Hres (proj1 Hpat) (proj1 Henc)
              (proj1 Hclaim) (links_are_conditions _ _ _ _ Hlinks))
    as (_ & _ & HC & _).
  exists bundle, (final_world (List.length icd10) w), claim, info.
  split; [exact Hrun|]. split; [exact HC|]. split; [exact Hinfos | exact Hinfo].
Qed.

Lemma supporting_info_entry_witness :
  builder_shape [] = true /\
  is_visit_code (VDict [ (lit "code", VStr (lit "99214")) ]) = true /\
  exists bundle w' claim info,
    build_fhir_bundle example_str [] []
      (VDict [ (lit "code", VStr (lit "99214")) ]) [] [] example_world
    = Ok (bundle, w') /\
    of_type "Claim" (resources bundle) = [claim] /\
    claim @> "supportingInfo" = VList [info] /\
    info @> "valueString"
    = VStr (lit "E/M assumes patient status=unknown (confidence=None)").
Proof.
  split; [reflexivity|]. split; [reflexivity|].
  destruct (supporting_info_entry example_str [] []
              (VDict [ (lit "code", VStr (lit "99214")) ]) [] [] example_world
              eq_refl eq_refl eq_refl eq_refl eq_refl)
    as (bundle & w' & claim & info & Hrun & HC & Hinfos & _ & _ & Htext).
  exists bundle, w', claim, info. now repeat split.
Defined.

(** X14. Every coding the Claim carries is made from its code entry: the
    code as it is, the display with the empty string as fallback, and the
    system with a fallback that depends on the list: the CPT system for
    the visit code and the procedures (in item[] and in procedure[]), the
    HCPCS system for the supplies.  Each entry of procedure[] is dated
    with the encounter date, null when there is none. *)
Theorem codings_from_entries (py_str : value -> str) (envelope : dict)
    (icd10 : list value) (cpt_em : value) (procedures hcpcs : list value)
    (w : world) :
  builder_shape envelope = true ->
  forallb is_coded icd10 = true ->
  is_visit_code cpt_em = true ->
  forallb is_coded procedures = true ->
  forallb is_coded hcpcs = true ->
  exists bundle w' claim line0 plines slines,
    build_fhir_bundle py_str envelope icd10 cpt_em procedures hcpcs w
    = Ok (bundle, w') /\
    of_type "Claim" (resources bundle) = [claim] /\
    elems (claim @> "item") = line0 :: plines ++ slines /\
    line_from CPT_SYSTEM cpt_em line0 /\
    Forall2 (line_from CPT_SYSTEM) procedures plines /\
    Forall2 (line_from HCPCS_SYSTEM) hcpcs slines /\
    Forall2 (procedure_from (encounter_of envelope)) procedures
            (elems (claim @> "procedure")).
Proof.
  intros Hshape Hicd Hem Hprocs Hsup.
  destruct (build_assembly py_str envelope icd10 cpt_em procedures hcpcs w
              Hshape Hicd Hem Hprocs Hsup)
    as (bundle & pat & enc & claim & conds & diags & entries & line0 & plines
        & slines & info & Hrun & Hres & _ & Hpat & Henc & Hclaim & _ & Hentries
        & Hitems & _ & (Hlinks & _) & (H0 & Hp & Hs & He) & _).
  destruct (resources_by_type _ _ _ _ _ Hres (proj1 Hpat) (proj1 Henc)
              (proj1 Hclaim) (links_are_conditions _ _ _ _ Hlinks))
    as (_ & _ & HC & _).
  exists bundle, (final_world (List.length icd10) w), claim, line0, plines, slines.
  split; [exact Hrun|]. split; [exact HC|].
  rewrite Hitems, Hentries. cbn [elems].
  split; [reflexivity|]. split; [exact H0|]. split; [exact Hp|].
  split; [exact Hs | exact He].
Qed.

Lemma codings_from_entries_witness :
  builder_shape [] = true /\
  forallb is_coded [ VDict [ (lit "code", VStr (lit "A9999")) ] ] = true /\
  is_visit_code CPT_EM = true /\
  exists bundle w' claim line0 plines slines,
    build_fhir_bundle example_str [] [] CPT_EM []
      [ VDict [ (lit "code", VStr (lit "A9999")) ] ] example_world
    = Ok (bundle, w') /\
    of_type "Claim" (resources bundle) = [claim] /\
    elems (claim @> "item") = line0 :: plines ++ slines /\
    Forall2 (line_from HCPCS_SYSTEM)
            [ VDict [ (lit "code", VStr (lit "A9999")) ] ] slines.
Proof.
  split; [reflexivity|]. split; [reflexivity|]. split; [reflexivity|].
  destruct (codings_from_entries example_str [] [] CPT_EM []
              [ VDict [ (lit "code", VStr (lit "A9999")) ] ] example_world
              eq_refl eq_refl eq_refl eq_refl eq_refl)
    as (bundle & w' & claim & line0 & plines & slines & Hrun & HC & Hitems & _
        & _ & Hs & _).
  exists bundle, w', claim, line0, plines, slines. now repeat split.
Defined.

(** ** Identifiers *)

(** X15. The identifiers are successive draws of the random source: the
    Patient gets "pat-" and the first draw, the Encounter "enc-" and the
    second, the Claim "clm-" and the third, the k-th Condition "cond-"
    and the next one each, the bundle "bundle-" and the last; the Claim's
    creation time and the bundle's timestamp are two successive clock
    readings.  A run with n diagnoses makes 4 + n draws and 2 readings. *)
Theorem identifiers_are_draws (py_str : value -> str) (envelope : dict)
    (icd10 : list value) (cpt_em : value) (procedures hcpcs : list value)
    (w : world) :
  builder_shape envelope = true ->
  forallb is_coded icd10 = true ->
  is_visit_code cpt_em = true ->
  forallb is_coded procedures = true ->
  forallb is_coded hcpcs = true ->
  exists bundle w' pat enc claim conds,
    build_fhir_bundle py_str envelope icd10 cpt_em procedures hcpcs w
    = Ok (bundle, w') /\
    resources bundle = pat :: enc :: claim :: conds /\
    pat @> "id" = VStr (lit "pat-" ++ draw w 0) /\
    enc @> "id" = VStr (lit "enc-" ++ draw w 1) /\
    claim @> "id" = VStr (lit "clm-" ++ draw w 2) /\
    map (get "id") conds
    = map (fun k => VStr (lit "cond-" ++ draw w (3 + k)))
          (seq 0 (List.length icd10)) /\
    bundle @> "id" = VStr (lit "bundle-" ++ draw w (3 + List.length icd10)) /\
    claim @> "created" = VStr (reading w 0) /\
    bundle @> "timestamp" = VStr (reading w 1) /\
    uuid_reads w' = (uuid_reads w + 4 + List.length icd10)%nat /\
    clock_reads w' = (clock_reads w + 2)%nat /\
    uuid_hex8 w' = uuid_hex8 w /\
    utcnow w' = utcnow w.
Proof.
  intros Hshape Hicd Hem Hprocs Hsup.
  destruct (build_assembly py_str envelope icd10 cpt_em procedures hcpcs w
              Hshape Hicd Hem Hprocs Hsup)
    as (bundle & pat & enc & claim & conds & diags & entries & line0 & plines
        & slines & info & Hrun & Hres & (_ & _ & Hbid & Hbts) & Hpat & Henc
        & Hclaim & Hcreated & _ & _ & _ & (_ & _ & Hids & _) & _).
  exists bundle, (final_world (List.length icd10) w), pat, enc, claim, conds.
  destruct Hpat as (_ & Hpid & _). destruct Henc as (_ & Heid & _).
  destruct Hclaim as (_ & Hcid & _).
  split; [exact Hrun|]. split; [exact Hres|].
  split; [exact Hpid|]. split; [exact Heid|]. split; [exact Hcid|].
  split; [exact Hids|]. split; [exact Hbid|]. split; [exact Hcreated|].
  split; [exact Hbts|]. apply final_world_counts.
Qed.

Lemma identifiers_are_draws_witness :
  builder_shape [] = true /\
  forallb is_coded [DX_R05_9] = true /\
  is_visit_code CPT_EM = true /\
  exists bundle w' pat enc claim conds,
    build_fhir_bundle example_str [] [DX_R05_9] CPT_EM [] [] example_world
    = Ok (bundle, w') /\
    resources bundle = pat :: enc :: claim :: conds /\
    claim @> "id" = VStr (lit "clm-" ++ draw example_world 2) /\
    uuid_reads w' = (uuid_reads example_world + 4 + 1)%nat.
Proof.
  split; [reflexivity|]. split; [reflexivity|]. split; [reflexivity|].
  destruct (identifiers_are_draws example_str [] [DX_R05_9] CPT_EM [] []
              example_world eq_refl eq_refl eq_refl eq_refl eq_refl)
    as (bundle & w' & pat & enc & claim & conds & Hrun & Hres & _ & _ & Hcid & _
        & _ & _ & _ & Hreads & _).
  exists bundle, w', pat, enc, claim, conds. now repeat split.
Defined.

Lemma condition_ids_prefixed (w : world) (n : nat) (conds : list value)
    (c : value) :
  map (get "id") conds
  = map (fun k => VStr (lit "cond-" ++ draw w (3 + k))) (seq 0 n) ->
  In c conds -> exists h, c @> "id" = VStr (lit "cond-" ++ h).
Proof.
  intros Hids Hin. apply (in_map (get "id")) in Hin. rewrite Hids in Hin.
  apply in_map_iff in Hin. destruct Hin as (k & Hk & _).
  exists (draw w (3 + k)). now symmetry.
Qed.

(** X16. Two resources of a bundle that are of different types never have
    the same id, whatever the random source returns: the prefixes "pat-",
    "enc-", "clm-" and "cond-" keep the four kinds apart. *)
Theorem kinds_never_share_id (py_str : value -> str) (envelope : dict)
    (icd10 : list value) (cpt_em : value) (procedures hcpcs : list value)
    (w : world) :
  builder_shape envelope = true ->
  forallb is_coded icd10 = true ->
  is_visit_code cpt_em = true ->
  forallb is_coded procedures = true ->
  forallb is_coded hcpcs = true ->
  exists bundle w',
    build_fhir_bundle py_str envelope icd10 cpt_em procedures hcpcs w
    = Ok (bundle, w') /\
    forall r r',
      In r (resources bundle) -> In r' (resources bundle) ->
      r @> "resourceType" <> r' @> "resourceType" ->
      r @> "id" <> r' @> "id".
Proof.
  intros Hshape Hicd Hem Hprocs Hsup.
  destruct (build_assembly py_str envelope icd10 cpt_em procedures hcpcs w
              Hshape Hicd Hem Hprocs Hsup)
    as (bundle & pat & enc & claim & conds & diags & entries & line0 & plines
        & slines & info & Hrun & Hres & _ & Hpat & Henc & Hclaim & _ & _ & _ & _
        & (Hlinks & _ & Hids & _) & _).
  exists bundle, (final_world (List.length icd10) w). split; [exact Hrun|].
  destruct Hpat as (Hpt & Hpid & _). destruct Henc as (Het & Heid & _).
  destruct Hclaim as (Hct & Hcid & _).
  pose proof (links_are_conditions _ _ _ _ Hlinks) as Hconds.
  rewrite Forall_forall in Hconds.
  assert (Hkind : forall r, In r (resources bundle) ->
            (r @> "resourceType" = VStr (lit "Patient") /\
             exists h, r @> "id" = VStr (lit "pat-" ++ h)) \/
            (r @> "resourceType" = VStr (lit "Encounter") /\
             exists h, r @> "id" = VStr (lit "enc-" ++ h)) \/
            (r @> "resourceType" = VStr (lit "Claim") /\
             exists h, r @> "id" = VStr (lit "clm-" ++ h)) \/
            (r @> "resourceType" = VStr (lit "Condition") /\
             exists h, r @> "id" = VStr (lit "cond-" ++ h))).
  { intros r Hin. rewrite Hres in Hin.
    destruct Hin as [<- | [<- | [<- | Hin]]].
    - left. split; [exact Hpt | eexists; exact Hpid].
    - right. left. split; [exact Het | eexists; exact Heid].
    - right. right. left. split; [exact Hct | eexists; exact Hcid].
    - right. right. right. split; [exact (Hconds r Hin)|].
      exact (condition_ids_prefixed w _ conds r Hids Hin). }
  intros r r' Hr Hr' Htypes Hsame.
  destruct (Hkind r Hr) as [[Ht [h Hi]] | [[Ht [h Hi]] | [[Ht [h Hi]] | [Ht [h Hi]]]]];
    destruct (Hkind r' Hr')
      as [[Ht' [h' Hi']] | [[Ht' [h' Hi']] | [[Ht' [h' Hi']] | [Ht' [h' Hi']]]]];
    rewrite Ht, Ht' in Htypes; try (now apply Htypes);
    rewrite Hi, Hi' in Hsame; discriminate Hsame.
Qed.

Lemma kinds_never_share_id_witness :
  builder_shape [] = true /\
  forallb is_coded [DX_R05_9] = true /\
  is_visit_code CPT_EM = true /\
  exists bundle w',
    build_fhir_bundle example_str [] [DX_R05_9] CPT_EM [] [] example_world
    = Ok (bundle, w') /\
    forall r r',
      In r (resources bundle) -> In r' (resources bundle) ->
      r @> "resourceType" <> r' @> "resourceType" ->
      r @> "id" <> r' @> "id".
Proof.
  split; [reflexivity|]. split; [reflexivity|]. split; [reflexivity|].
  exact (kinds_never_share_id example_str [] [DX_R05_9] CPT_EM [] []
           example_world eq_refl eq_refl eq_refl eq_refl eq_refl).
Defined.

(** * The builder without a visit code, and its exceptions *)

(** X17. When the visit code is false in a condition (None, an empty
    object, or an object whose [code] is absent or false), the builder
    still returns: the Claim has no supportingInfo entry, and Claim.item[]
    carries the codes of the procedures and then of the supplies, with
    sequence numbers 1, 2, ... *)
Theorem without_visit_code (py_str : value -> str) (envelope : dict)
    (icd10 : list value) (cpt_em : value) (procedures hcpcs : list value)
    (w : world) :
  builder_shape envelope = true ->
  forallb is_coded icd10 = true ->
  no_visit_code cpt_em = true ->
  forallb is_coded procedures = true ->
  forallb is_coded hcpcs = true ->
  exists bundle w' pat enc claim conds lines,
    build_fhir_bundle py_str envelope icd10 cpt_em procedures hcpcs w
    = Ok (bundle, w') /\
    resources bundle = pat :: enc :: claim :: conds /\
    claim @> "resourceType" = VStr (lit "Claim") /\
    claim @> "supportingInfo" = VList [] /\
    claim @> "item" = VList lines /\
    map line_code lines = map (get "code") (procedures ++ hcpcs) /\
    map (get "sequence") lines
    = run_from 1 (List.length procedures + List.length hcpcs).
Proof.
  intros Hshape Hicd Hem Hprocs Hsup.
  destruct (build_prefix py_str envelope icd10 w Hshape Hicd)
    as (pat & enc & conds & diags & claim0 & Hbuild & [e He] & _ & _
        & Hclaim & _ & Hp0 & Hi0 & Hs0 & _).
  pose proof (add_em_none py_str claim0 cpt_em (VDict e)
                (lit "enc-" ++ draw w 1) Hem) as Hadd.
  destruct (finish_run py_str pat enc (map entry_of conds) e
              (lit "enc-" ++ draw w 1) cpt_em procedures hcpcs claim0 claim0 []
              (tick_clock (ticks (3 + List.length icd10) w))
              Hadd Hp0 Hi0 Hprocs Hsup)
    as (bundle & claim & entries & plines & slines & Hrun & Hres & _ & _ & _ & _
        & Hf & Hs & _ & Hi & _ & Hseqs & _ & _ & _ & Hfor).
  exists bundle, (final_world (List.length icd10) w), pat, enc, (VDict claim),
    conds, (plines ++ slines).
  split; [rewrite Hbuild, He; exact Hrun|].
  split; [now rewrite Hres, map_resource_entries|].
  split.
  { destruct (frame_claim_facts py_str _ _ _ _ _ _ Hf Hclaim) as (Ht & _).
    exact Ht. }
  split; [unfold get, dict_get; now rewrite Hs, Hs0|].
  split; [unfold get, dict_get; now rewrite Hi|].
  split; [exact (lines_carry_codes _ _ _ _ Hfor) | exact Hseqs].
Qed.

Lemma without_visit_code_witness :
  builder_shape [] = true /\
  forallb is_coded [DX_R05_9] = true /\
  no_visit_code VNone = true /\
  forallb is_coded [CPT_71046] = true /\
  forallb is_coded [HCPCS_J0696] = true /\
  exists bundle w' pat enc claim conds lines,
    build_fhir_bundle example_str [] [DX_R05_9] VNone [CPT_71046] [HCPCS_J0696]
      example_world = Ok (bundle, w') /\
    resources bundle = pat :: enc :: claim :: conds /\
    claim @> "resourceType" = VStr (lit "Claim") /\
    claim @> "supportingInfo" = VList [] /\
    claim @> "item" = VList lines /\
    map line_code lines = map (get "code") ([CPT_71046] ++ [HCPCS_J0696]) /\
    map (get "sequence") lines = run_from 1 (1 + 1).
Proof.
  split; [reflexivity|]. split; [reflexivity|]. split; [reflexivity|].
  split; [reflexivity|]. split; [reflexivity|].
  exact (without_visit_code example_str [] [DX_R05_9] VNone [CPT_71046]
           [HCPCS_J0696] example_world eq_refl eq_refl eq_refl eq_refl eq_refl).
Defined.

(** ** Exceptions *)

Lemma bind_raise {A B} (m : M A) (k : A -> M B) (w : world) (e : exn) :
  m w = Raise e -> bind m k w = Raise e.
Proof. intros H. unfold bind. now rewrite H. Qed.

Lemma bind_lift_raise {A B} (r : result A) (k : A -> M B) (w : world) (e : exn) :
  r = Raise e -> bind (lift r) k w = Raise e.
Proof. intros ->. reflexivity. Qed.

Lemma for_enumerate_app {St : Type} (body : Z -> value -> St -> M St)
    (l l' : list value) :
  forall (i : Z) (s : St) (w : world),
    for_enumerate body i (l ++ l') s w
    = bind (for_enumerate body i l s)
        (for_enumerate body (i + Z.of_nat (List.length l)) l') w.
Proof.
  induction l as [|x l IH]; intros i s w.
  - cbn [app for_enumerate List.length]. unfold bind, ret.
    now rewrite Z.add_0_r.
  - cbn [app for_enumerate List.length]. unfold bind.
    destruct (body i x s w) as [[s' w']|e]; [|reflexivity].
    rewrite IH. unfold bind.
    now replace (i + 1 + Z.of_nat (List.length l))
      with (i + Z.of_nat (S (List.length l))) by lia.
Qed.

Lemma for_each_app {St : Type} (body : value -> St -> M St)
    (l l' : list value) :
  forall (s : St) (w : world),
    for_each body (l ++ l') s w
    = bind (for_each body l s) (for_each body l') w.
Proof.
  induction l as [|x l IH]; intros s w.
  - reflexivity.
  - cbn [app for_each]. unfold bind.
    destruct (body x s w) as [[s' w']|e]; [|reflexivity]. now rewrite IH.
Qed.

Lemma entry_error_none (c : value) :
  entry_error c = None <-> is_coded c = true.
Proof.
  unfold entry_error, is_coded. destruct c as [| | | | | |d]; try easy.
  now destruct (lookup d (lit "code")).
Qed.

Lemma first_error_none (l : list value) :
  first_error l = None <-> forallb is_coded l = true.
Proof.
  induction l as [|c l IH]; [easy|]. cbn [first_error forallb].
  rewrite andb_true_iff, <- IH, <- entry_error_none.
  destruct (entry_error c); [|tauto]. split; [discriminate | now intros [? _]].
Qed.

(** The first entry that raises splits the list. *)
Lemma first_error_split (l : list value) (e : exn) :
  first_error l = Some e ->
  exists good bad rest,
    l = good ++ bad :: rest /\ forallb is_coded good = true /\
    entry_error bad = Some e.
Proof.
  induction l as [|c l IH]; [discriminate|]. cbn [first_error].
  destruct (entry_error c) as [e'|] eqn:Hc.
  - intros [= ->]. now exists [], c, l.
  - intros H. destruct (IH H) as (good & bad & rest & -> & Hgood & Hbad).
    exists (c :: good), bad, rest. cbn [forallb].
    apply entry_error_none in Hc. now rewrite Hc, Hgood.
Qed.

Lemma first_error_app (l l' : list value) :
  first_error (l ++ l')
  = match first_error l with
    | Some e => Some e
    | None => first_error l'
    end.
Proof.
  induction l as [|c l IH]; [reflexivity|]. cbn [app first_error].
  now destruct (entry_error c).
Qed.

Section BuilderRaises.

Variable py_str : value -> str.

Lemma make_condition_raises (pat_id enc_id cond_id : str) (d : value) (e : exn) :
  entry_error d = Some e ->
  make_condition py_str pat_id enc_id cond_id d = Raise e.
Proof.
  unfold entry_error, make_condition, py_get, py_getitem.
  destruct d as [| | | | | |o]; try (now intros [= <-]).
  destruct (lookup o (lit "code")); [discriminate | now intros [= <-]].
Qed.

Lemma make_procedure_raises (i : Z) (p : value) (e0 : dict) (e : exn) :
  entry_error p = Some e -> make_procedure i p (VDict e0) = Raise e.
Proof.
  unfold entry_error, make_procedure, py_get, py_getitem.
  destruct p as [| | | | | |o]; try (now intros [= <-]).
  destruct (lookup o (lit "code")); [discriminate | now intros [= <-]].
Qed.

Lemma make_item_raises (claim : dict) (c : value) (default_system : str)
    (e0 : dict) (enc_id : str) (lines : list value) (e : exn) :
  lookup claim (lit "item") = Some (VList lines) ->
  entry_error c = Some e ->
  make_item claim c default_system (VDict e0) enc_id = Raise e.
Proof.
  intros Hitem. unfold entry_error, make_item, py_get, py_getitem.
  rewrite Hitem. cbn [rbind py_len].
  destruct c as [| | | | | |o]; try (now intros [= <-]).
  destruct (lookup o (lit "code")); [discriminate | now intros [= <-]].
Qed.

Lemma condition_loop_raises (pat_id enc_id : str) (icd10 : list value)
    (e : exn) (w : world) :
  first_error icd10 = Some e ->
  for_enumerate (condition_step py_str pat_id enc_id) 1 icd10 ([], []) w
  = Raise e.
Proof.
  intros H. destruct (first_error_split icd10 e H)
    as (good & bad & rest & -> & Hgood & Hbad).
  rewrite for_enumerate_app.
  destruct (condition_loop_full py_str pat_id enc_id good Hgood 1 w [] [])
    as (conds & diags & Hloop & _).
  change 1 with (Z.of_nat 1) at 1. rewrite (bind_ok _ _ _ _ _ Hloop).
  cbn [for_enumerate]. apply bind_raise. unfold condition_step.
  rewrite bind_uuid. apply bind_lift_raise. now apply make_condition_raises.
Qed.

Lemma procedure_loop_raises (e0 : dict) (enc_id : str) (procedures : list value)
    (claim : dict) (entries lines : list value) (e : exn) (w : world) :
  lookup claim (lit "procedure") = Some (VList entries) ->
  lookup claim (lit "item") = Some (VList lines) ->
  first_error procedures = Some e ->
  for_enumerate (procedure_step (VDict e0) enc_id) 1 procedures claim w
  = Raise e.
Proof.
  intros Hp Hi H. destruct (first_error_split procedures e H)
    as (good & bad & rest & -> & Hgood & Hbad).
  rewrite for_enumerate_app.
  destruct (procedure_loop_made e0 enc_id w good Hgood 1 claim entries
              lines Hp Hi) as (claim' & ? & ? & Hloop & _).
  change 1 with (Z.of_nat 1) at 1. rewrite (bind_ok _ _ _ _ _ Hloop).
  cbn [for_enumerate]. apply bind_raise. unfold procedure_step, lift.
  now rewrite (make_procedure_raises _ _ _ _ Hbad).
Qed.

Lemma supply_loop_raises (e0 : dict) (enc_id : str) (hcpcs : list value)
    (claim : dict) (lines : list value) (e : exn) (w : world) :
  lookup claim (lit "item") = Some (VList lines) ->
  first_error hcpcs = Some e ->
  for_each (supply_step (VDict e0) enc_id) hcpcs claim w = Raise e.
Proof.
  intros Hi H. destruct (first_error_split hcpcs e H)
    as (good & bad & rest & -> & Hgood & Hbad).
  rewrite for_each_app.
  destruct (supply_loop_made e0 enc_id w good Hgood claim lines Hi)
    as (claim' & new & Hloop & Hi' & _).
  rewrite (bind_ok _ _ _ _ _ Hloop).
  cbn [for_each]. apply bind_raise. unfold supply_step, lift.
  now rewrite (make_item_raises _ _ _ _ _ _ _ Hi' Hbad).
Qed.

End BuilderRaises.

Lemma make_patient_raises (pat_id : str) (envelope : dict) :
  absent_or (is_object (fun p => absent_or is_str p "sex")) envelope "patient"
  = false ->
  make_patient pat_id (patient_of envelope) = Raise AttributeError.
Proof.
  unfold absent_or at 1, patient_of, dict_get at 1.
  destruct (lookup envelope (lit "patient")) as [v|]; [|discriminate].
  destruct v as [| | | | | |p]; try reflexivity.
  cbn [is_object]. unfold absent_or, make_patient, py_get, dict_get.
  cbn [rbind].
  destruct (lookup p (lit "sex")) as [s|]; [|discriminate].
  now destruct s.
Qed.

Lemma make_encounter_raises (pat_id enc_id : str) (envelope : dict) :
  absent_or (is_object (fun _ => true)) envelope "encounter" = false ->
  make_encounter pat_id enc_id (encounter_of envelope) = Raise AttributeError.
Proof.
  unfold absent_or, encounter_of, dict_get.
  destruct (lookup envelope (lit "encounter")) as [v|]; [|discriminate].
  now destruct v.
Qed.

Lemma make_claim_raises (py_str : value -> str) (envelope : dict)
    (pat_id clm_id : str) (p e : dict) (claim_id_input : value) (created : str)
    (claim_diagnosis : list value) :
  absent_or (is_object (fun _ => true)) envelope "meta" = false ->
  make_claim py_str envelope pat_id clm_id (VDict p) (VDict e) claim_id_input
    created claim_diagnosis = Raise AttributeError.
Proof.
  unfold absent_or.
  destruct (lookup envelope (lit "meta")) as [v|] eqn:Hl; [|discriminate].
  intros Hv. unfold make_claim.
  assert (Hm : dict_get envelope (lit "meta") (VDict []) = v)
    by (unfold dict_get; now rewrite Hl).
  rewrite Hm. unfold py_get. cbn [rbind]. now destruct v.
Qed.

(** X18. With a well-formed envelope and a visit code that is an object
    with a true [code], or false, the builder raises as soon as one of the
    code entries cannot be read: taking the diagnoses, then the procedures,
    then the supplies, the first entry that is no object makes it raise
    AttributeError, the first object without [code] KeyError. *)
Theorem first_bad_entry_raises (py_str : value -> str) (envelope : dict)
    (icd10 : list value) (cpt_em : value) (procedures hcpcs : list value)
    (w : world) (e : exn) :
  builder_shape envelope = true ->
  is_visit_code cpt_em = true \/ no_visit_code cpt_em = true ->
  first_error (icd10 ++ procedures ++ hcpcs) = Some e ->
  build_fhir_bundle py_str envelope icd10 cpt_em procedures hcpcs w = Raise e.
Proof.
  intros Hshape Hem H. rewrite first_error_app in H.
  destruct (first_error icd10) as [e'|] eqn:Hicd.
  - injection H as ->.
    destruct (builder_shape_objects envelope Hshape)
      as (p & e0 & m & Hp & Hsex & He & _).
    unfold build_fhir_bundle. rewrite !bind_uuid. cbv beta zeta.
    fold (patient_of envelope). fold (encounter_of envelope). rewrite Hp, He.
    destruct (make_patient_ok (lit "pat-" ++ uuid_hex8 w (uuid_reads w)) p Hsex)
      as (pat & Hpat & _).
    destruct (make_encounter_ok (lit "pat-" ++ uuid_hex8 w (uuid_reads w))
                (lit "enc-" ++ uuid_hex8 (tick_uuid w) (uuid_reads (tick_uuid w)))
                e0) as (enc & Henc & _).
    rewrite (bind_lift_ok _ _ _ _ Hpat), (bind_lift_ok _ _ _ _ Henc).
    apply bind_raise. now apply condition_loop_raises.
  - apply first_error_none in Hicd.
    destruct (build_prefix py_str envelope icd10 w Hshape Hicd)
      as (pat & enc & conds & diags & claim0 & Hbuild & [e0 He] & _ & _ & _ & _
          & Hp0 & Hi0 & Hs0 & _).
    rewrite Hbuild, He. unfold finish_bundle.
    assert (Hadd : exists claim1 lines,
               add_em py_str claim0 cpt_em (VDict e0) (lit "enc-" ++ draw w 1)
               = Ok claim1 /\
               lookup claim1 (lit "procedure") = Some (VList []) /\
               lookup claim1 (lit "item") = Some (VList lines)).
    { destruct Hem as [Hem | Hem].
      - destruct (add_em_made py_str claim0 cpt_em e0 (lit "enc-" ++ draw w 1)
                    Hem Hi0 Hs0)
          as (claim1 & line & info & Hadd & Hi1 & _ & Hp1 & _).
        exists claim1, [line]. rewrite Hp1. now repeat split.
      - exists claim0, []. split; [now apply add_em_none | now split]. }
    destruct Hadd as (claim1 & lines & Hadd & Hp1 & Hi1).
    rewrite (bind_lift_ok _ _ _ _ Hadd).
    rewrite first_error_app in H.
    destruct (first_error procedures) as [e'|] eqn:Hprocs.
    + injection H as ->. apply bind_raise.
      now apply (procedure_loop_raises e0 _ procedures claim1 [] lines).
    + apply first_error_none in Hprocs.
      destruct (procedure_loop_made e0 (lit "enc-" ++ draw w 1)
                  (tick_clock (ticks (3 + List.length icd10) w)) procedures
                  Hprocs 1 claim1 [] lines Hp1 Hi1)
        as (claim2 & entries & plines & Hloop & _ & Hi2 & _).
      change 1 with (Z.of_nat 1) at 1. rewrite (bind_ok _ _ _ _ _ Hloop).
      apply bind_raise.
      now apply (supply_loop_raises e0 _ hcpcs claim2 (lines ++ plines)).
Qed.

Lemma first_bad_entry_raises_witness :
  builder_shape [] = true /\
  (is_visit_code CPT_EM = true \/ no_visit_code CPT_EM = true) /\
  first_error ([DX_R05_9] ++ [CPT_71046; VDict []] ++ [VNone]) = Some KeyError /\
  build_fhir_bundle example_str [] [DX_R05_9] CPT_EM [CPT_71046; VDict []]
    [VNone] example_world = Raise KeyError.
Proof.
  split; [reflexivity|]. split; [left; reflexivity|]. split; [reflexivity|].
  exact (first_bad_entry_raises example_str [] [DX_R05_9] CPT_EM
           [CPT_71046; VDict []] [VNone] example_world KeyError eq_refl
           (or_introl eq_refl) eq_refl).
Defined.

(** X19. When the envelope's patient, encounter or meta is present and no
    object, or the patient's sex is present and no string, the builder
    raises AttributeError (the diagnoses being readable). *)
Theorem malformed_envelope_raises (py_str : value -> str) (envelope : dict)
    (icd10 : list value) (cpt_em : value) (procedures hcpcs : list value)
    (w : world) :
  builder_shape envelope = false ->
  forallb is_coded icd10 = true ->
  build_fhir_bundle py_str envelope icd10 cpt_em procedures hcpcs w
  = Raise AttributeError.
Proof.
  intros Hshape Hicd. unfold builder_shape in Hshape.
  unfold build_fhir_bundle. rewrite !bind_uuid. cbv beta zeta.
  fold (patient_of envelope). fold (encounter_of envelope).
  set (pat_id := lit "pat-" ++ uuid_hex8 w (uuid_reads w)).
  set (enc_id := lit "enc-" ++ uuid_hex8 (tick_uuid w) (uuid_reads (tick_uuid w))).
  destruct (absent_or (is_object (fun p => absent_or is_str p "sex")) envelope
              "patient") eqn:Hpat.
  2: { apply bind_lift_raise. now apply make_patient_raises. }
  apply (is_object_inv _ _ _ []) in Hpat. destruct Hpat as (p & Hp & Hsex).
  assert (Hsex' : absent_or is_str p "sex" = true)
    by (destruct Hsex as [-> | Hsex]; [reflexivity | exact Hsex]).
  fold (patient_of envelope) in Hp. rewrite Hp.
  destruct (make_patient_ok pat_id p Hsex') as (pat & Hmk & _).
  rewrite (bind_lift_ok _ _ _ _ Hmk).
  destruct (absent_or (is_object (fun _ => true)) envelope "encounter") eqn:Henc.
  2: { apply bind_lift_raise. now apply make_encounter_raises. }
  apply (is_object_inv _ _ _ []) in Henc. destruct Henc as (e0 & He & _).
  fold (encounter_of envelope) in He. rewrite He.
  destruct (make_encounter_ok pat_id enc_id e0) as (enc & Hmk' & _).
  rewrite (bind_lift_ok _ _ _ _ Hmk').
  destruct (condition_loop_full py_str pat_id enc_id icd10 Hicd 1
              (tick_uuid (tick_uuid (tick_uuid w))) [] [])
    as (conds & diags & Hloop & _).
  change 1 with (Z.of_nat 1) at 1. rewrite (bind_ok _ _ _ _ _ Hloop).
  cbv beta iota zeta. rewrite bind_utcnow.
  apply bind_lift_raise. apply make_claim_raises.
  cbn [andb] in Hshape. exact Hshape.
Qed.

Lemma malformed_envelope_raises_witness :
  builder_shape [ (lit "patient", VDict [ (lit "sex", VNone) ]) ] = false /\
  forallb is_coded [DX_R05_9] = true /\
  build_fhir_bundle example_str [ (lit "patient", VDict [ (lit "sex", VNone) ]) ]
    [DX_R05_9] CPT_EM [] [] example_world = Raise AttributeError.
Proof.
  split; [reflexivity|]. split; [reflexivity|].
  exact (malformed_envelope_raises example_str
           [ (lit "patient", VDict [ (lit "sex", VNone) ]) ]
           [DX_R05_9] CPT_EM [] [] example_world eq_refl eq_refl).
Defined.
